(** * The remote job of PARL (parl/remote/job.py)

    A shallow embedding of [Job]: the code-bundle loader of
    [wait_for_files], the session driver [run] with [wait_for_connection]
    and [single_task], and the three heartbeat responders, as one
    interleaving step function over an explicit process state. *)

From Stdlib Require Import Ascii String.
From stdpp Require Import gmap strings list fin_maps.

Open Scope string_scope.
Open Scope list_scope.

(** ** Exceptions *)

(** The exception classes the job can meet.  All of them derive from
    [Exception], so both [except Exception] clauses of job.py catch them.
    [OtherError] stands for any further class raised by user code (a
    subclass of one of the named classes included: the handlers compare
    with [type(e) ==], not with [isinstance]). *)
Inductive exc_class :=
| AttributeError
| SerializeError
| DeserializeError
| NotImplementedError
| AssertionError
| IndexError
| FileNotFoundError
| FileExistsError
| IsADirectoryError
| NotADirectoryError
| ZMQBindError
| ZMQError
| OtherError (name : string).

(** An exception instance: its class, [str(e)] and the text that
    [traceback.format_exc()] renders while it is being handled. *)
Record exc := Exc {
  exc_type : exc_class;
  exc_str : string;
  exc_traceback : string
}.

Inductive result (A : Type) :=
| Ok (a : A)
| Raise (e : exc).
Arguments Ok {A} a.
Arguments Raise {A} e.

Definition raise_ {A} (c : exc_class) : result A := Raise (Exc c "" "").

Definition bind {A B} (r : result A) (k : A -> result B) : result B :=
  match r with
  | Ok a => k a
  | Raise e => Raise e
  end.

Notation "'let?' x := r 'in' k" := (bind r (fun x => k))
  (at level 10, x name, r at level 100, k at level 200).

(** ** Paths and the file system *)

Module os_path.

Definition is_sep (c : ascii) : bool := Ascii.eqb c "/".

Definition startswith_sep (s : string) : bool :=
  match s with
  | String c _ => is_sep c
  | EmptyString => false
  end.

Fixpoint endswith_sep (s : string) : bool :=
  match s with
  | EmptyString => false
  | String c EmptyString => is_sep c
  | String _ s' => endswith_sep s'
  end.

Fixpoint has_sep (s : string) : bool :=
  match s with
  | EmptyString => false
  | String c s' => is_sep c || has_sep s'
  end.

(** [os.path.join(a, b)] of posixpath, for two arguments. *)
Definition join (a b : string) : string :=
  if startswith_sep b then b
  else if String.eqb a "" || endswith_sep a then a +:+ b
  else a +:+ "/" +:+ b.

(** [s.split('/')]. *)
Fixpoint split (s : string) : list string :=
  match s with
  | EmptyString => [EmptyString]
  | String c s' =>
      if is_sep c then EmptyString :: split s'
      else match split s' with
           | h :: t => String c h :: t
           | [] => [String c EmptyString]
           end
  end.

End os_path.

(** A resolved location: the names from the root down. *)
Abbreviation path := (list string).

(** A plain name, the kind a directory entry can have: not empty, no
    separator, neither [.] nor [..].  (Names with a NUL byte, or longer
    than the file system allows, are outside the model: see
    [open_wb_write].) *)
Definition flat_name (k : string) : bool :=
  negb (os_path.has_sep k)
  && negb (String.eqb k "") && negb (String.eqb k ".") && negb (String.eqb k "..").

(** The rendering of a normalised absolute path, as [tempfile.mkdtemp]
    returns it ([/a/b/c]). *)
Fixpoint path_str (p : path) : string :=
  match p with
  | [] => ""
  | c :: p' => "/" +:+ c +:+ path_str p'
  end.

Record filesystem := Filesystem {
  fs_dirs : gset path;
  fs_files : gmap path string
}.

Definition is_dir (fs : filesystem) (p : path) : bool :=
  bool_decide (p = []) || bool_decide (p ∈ fs_dirs fs).

Definition is_file (fs : filesystem) (p : path) : bool :=
  bool_decide (is_Some (fs_files fs !! p)).

(** Path resolution of the operating system over the components of a
    path string: empty components and [.] are skipped, [..] goes up, and
    every other component must name an existing directory. *)
Fixpoint walk (fs : filesystem) (cur : path) (comps : list string) : result path :=
  match comps with
  | [] => Ok cur
  | c :: rest =>
      if String.eqb c "" || String.eqb c "." then walk fs cur rest
      else if String.eqb c ".." then walk fs (removelast cur) rest
      else if is_dir fs (cur ++ [c]) then walk fs (cur ++ [c]) rest
      else if is_file fs (cur ++ [c]) then raise_ NotADirectoryError
      else raise_ FileNotFoundError
  end.

(** The string is made of separators only (the empty string is). *)
Fixpoint only_seps (s : string) : bool :=
  match s with
  | EmptyString => true
  | String c s' => os_path.is_sep c && only_seps s'
  end.

(** The components of a path without the empty ones that the separators
    at its end leave. *)
Fixpoint rstrip_sep (comps : list string) : list string :=
  match comps with
  | [] => []
  | c :: rest =>
      match rstrip_sep rest with
      | [] => if String.eqb c "" then [] else [c]
      | rest' => c :: rest'
      end
  end.

(** [with open(p, 'wb') as f: f.write(data)], that is [open] with
    [O_WRONLY|O_CREAT|O_TRUNC], for an absolute [p] (every path the job
    opens is one) on a file system of directories and regular files, all
    writable, without symbolic links; names are free of NUL and within the
    length the system allows.  The empty path names nothing.  The last
    name of [p] is what stands before the separators [p] may end with,
    and the components before it must resolve to a directory.  A path
    that ends with a separator cannot be created, whether the last name
    exists or not, and [.], [..] and an existing directory cannot be
    opened for writing: all raise [IsADirectoryError].  Otherwise the file
    is created or truncated.  Nothing but the one file changes. *)
Definition open_wb_write (fs : filesystem) (p : string) (data : string)
  : result filesystem :=
  if String.eqb p "" then raise_ FileNotFoundError
  else
    let comps := os_path.split p in
    let names := rstrip_sep comps in
    let? d := walk fs [] (removelast names) in
    let b := List.last names "" in
    if negb (flat_name b) then raise_ IsADirectoryError
    else if negb (Nat.eqb (length names) (length comps))
    then raise_ IsADirectoryError
    else if is_dir fs (d ++ [b]) then raise_ IsADirectoryError
    else Ok (Filesystem (fs_dirs fs) (<[d ++ [b] := data]> (fs_files fs))).

(** [tempfile.mkdtemp()]: [p] is the name the library settles on (a
    normalised absolute path); the directory is created, and must not
    exist yet. *)
Definition mkdtemp (fs : filesystem) (p : path) : result (filesystem * string) :=
  if negb (is_dir fs (removelast p)) then raise_ FileNotFoundError
  else if is_dir fs p || is_file fs p then raise_ FileExistsError
  else Ok (Filesystem ({[p]} ∪ fs_dirs fs) (fs_files fs), path_str p).

(** ** The code bundle loader (the loop of [Job.wait_for_files])

    [for file in pyfiles: code = pyfiles[file];
       file = os.path.join(envdir, file); open(file, 'wb').write(code)].
    The bundle is the unpickled dict in iteration order.  The file system
    is returned also when a write raises: what was written stays. *)
Fixpoint write_pyfiles (fs : filesystem) (envdir : string)
    (pyfiles : list (string * string)) : filesystem * result unit :=
  match pyfiles with
  | [] => (fs, Ok tt)
  | (file, code) :: rest =>
      match open_wb_write fs (os_path.join envdir file) code with
      | Ok fs' => write_pyfiles fs' envdir rest
      | Raise e => (fs, Raise e)
      end
  end.

(** The scratch directory and its files: [envdir = tempfile.mkdtemp()]
    followed by the loop. *)
Definition load_bundle (fs : filesystem) (tmp : path)
    (pyfiles : list (string * string)) : filesystem * result string :=
  match mkdtemp fs tmp with
  | Raise e => (fs, Raise e)
  | Ok (fs1, envdir) =>
      match write_pyfiles fs1 envdir pyfiles with
      | (fs2, Ok _) => (fs2, Ok envdir)
      | (fs2, Raise e) => (fs2, Raise e)
      end
  end.

(** Well-formed file systems: every directory but the root, and every
    file, lies in an existing directory. *)
Definition dirs_closed (fs : filesystem) : Prop :=
  forall q, q ∈ fs_dirs fs -> is_dir fs (removelast q) = true.

Definition files_closed (fs : filesystem) : Prop :=
  forall q, is_file fs q = true -> is_dir fs (removelast q) = true.

(** A normalised path: plain names only. *)
Definition flat_path (p : path) : Prop := Forall (fun k => flat_name k = true) p.

(** What the loop leaves in the file table when every write succeeds:
    the entries in order, a later one replacing an earlier one. *)
Definition written (p : path) (pyfiles : list (string * string))
    (files : gmap path string) : gmap path string :=
  foldl (fun m kc => <[p ++ [kc.1] := kc.2]> m) files pyfiles.

(** ** Wire constants and announcements *)

(** Modelled from the spec: parl/remote/remote_constants.py is not among
    the sources.  Tags are opaque tokens compared by equality (spec
    section 6); they are given here as pairwise different byte strings. *)
Module remote_constants.
Definition SEND_FILE_TAG := "[SEND_FILE]".
Definition INIT_OBJECT_TAG := "[INIT_OBJECT]".
Definition CALL_TAG := "[CALL]".
Definition KILLJOB_TAG := "[KILLJOB]".
Definition NORMAL_TAG := "[NORMAL]".
Definition HEARTBEAT_TAG := "[HEARTBEAT]".
Definition RESET_JOB_TAG := "[RESET_JOB]".
Definition EXCEPTION_TAG := "[EXCEPTION]".
Definition ATTRIBUTE_EXCEPTION_TAG := "[ATTRIBUTE_EXCEPTION]".
Definition SERIALIZE_EXCEPTION_TAG := "[SERIALIZE_EXCEPTION]".
Definition DESERIALIZE_EXCEPTION_TAG := "[DESERIALIZE_EXCEPTION]".
End remote_constants.
Import remote_constants.

(** A multipart frame, [message[0]] being the tag. *)
Abbreviation message := (list string).

(** [message[i]]. *)
Definition index (m : message) (i : nat) : result string :=
  match m !! i with
  | Some x => Ok x
  | None => raise_ IndexError
  end.

(** The text ["{}:{}".format(ip, port)], kept as the pair it is built
    from. *)
Abbreviation address := (string * nat)%type.

(** Modelled from the spec: parl/remote/message.py is not among the
    sources.  The fields follow the two constructor calls of job.py and
    spec section 3; [None] is Python's [None]. *)
Record InitializedJob := mkInitializedJob {
  ij_job_address : address;
  ij_worker_heartbeat_address : option address;
  ij_client_heartbeat_address : address;
  ij_ping_heartbeat_address : address;
  ij_worker_address : option string;
  ij_pid : option nat
}.

(** ** External collaborators

    What job.py calls but does not define: the pickle codecs, the user
    class and its methods, and the two choices the operating system
    makes (the port of the n-th [bind_to_random_port], the name of the
    n-th [mkdtemp]). *)
Class External := {
  Obj : Type;
  Cls : Type;
  Args : Type;
  Ret : Type;
  pickle_loads : string -> result (list (string * string));
  cloudpickle_loads_cls : string -> result Cls;
  cloudpickle_loads_args : string -> result Args;
  instantiate : Cls -> Args -> result Obj;
  to_str : string -> result string;
  loads_argument : string -> result Args;
  call_method : Obj -> string -> Args -> Obj * result Ret;
  dumps_return : Ret -> result string;
  random_port : nat -> nat;
  mkdtemp_name : nat -> path
}.

(** ** Process state *)

(** Where the main thread stands in [run]. *)
Inductive main_pc :=
| AtRunLoop            (* the test of [while self.job_is_alive] *)
| InWaitForFiles       (* [recv_multipart] of wait_for_files *)
| InWaitForConnection  (* [recv_multipart] of wait_for_connection *)
| AtTaskLoop           (* the test of the loop of single_task *)
| InSingleTask         (* [recv_multipart] of single_task *)
| AtJoin               (* [self.client_thread.join()] *)
| AwaitMaster          (* [self.master_socket.recv_multipart()] *)
| Returned             (* [run] has returned *)
| Uncaught (e : exc).  (* an exception has left [run] *)

(** Where a responder thread stands in its loop. *)
Inductive thread_pc :=
| NotStarted
| Starting
| AtLoop
| InRecv
| Finished.

Inductive responder := Ping | Worker | Client.

Inductive event :=
| Recv (m : message)
| Send (m : message).

Inductive log_level := ERROR | WARNING.

Abbreviation loc := nat.

Section Job.
Context {E : External}.

(** The attributes of [self], the locals of [run], the interpreter's
    [sys.path] (a reference into a heap of list objects), the file
    system, the ports bound by this process, and what has been sent. *)
Record state := State {
  job_is_alive : bool;
  worker_is_alive : option bool;
  client_is_alive : option bool;
  worker_address : string;
  master_address : string;
  job_ip : string;
  job_address : address;
  ping_heartbeat_address : address;
  job_socket_log : list (string * InitializedJob);
  main : main_pc;
  ping_thread : thread_pc;
  worker_thread : thread_pc * nat;
  client_thread : thread_pc * nat;
  obj : option Obj;
  previous_path : option loc;
  sys_path : loc;
  heap : gmap loc (list string);
  fs : filesystem;
  bound_ports : gset nat;
  binds : nat;
  mkdtemps : nat;
  reply_pending : bool;
  request_log : list event;
  master_log : list (string * InitializedJob);
  heartbeat_log : list (responder * message);
  logger : list (log_level * string)
}.

Definition set_job_is_alive (v : bool) (s : state) : state :=
  let 'State ja wa ca wad mad ip jad pad jl pc pt wt ct o pp sp h f bp b mk rp rl ml hl lg
    := s in
  State v wa ca wad mad ip jad pad jl pc pt wt ct o pp sp h f bp b mk rp rl
    ml hl lg.

Definition set_worker_is_alive (v : option bool) (s : state) : state :=
  let 'State ja wa ca wad mad ip jad pad jl pc pt wt ct o pp sp h f bp b mk rp rl ml hl lg
    := s in
  State ja v ca wad mad ip jad pad jl pc pt wt ct o pp sp h f bp b mk rp rl
    ml hl lg.

Definition set_client_is_alive (v : option bool) (s : state) : state :=
  let 'State ja wa ca wad mad ip jad pad jl pc pt wt ct o pp sp h f bp b mk rp rl ml hl lg
    := s in
  State ja wa v wad mad ip jad pad jl pc pt wt ct o pp sp h f bp b mk rp rl
    ml hl lg.

Definition set_main (v : main_pc) (s : state) : state :=
  let 'State ja wa ca wad mad ip jad pad jl pc pt wt ct o pp sp h f bp b mk rp rl ml hl lg
    := s in
  State ja wa ca wad mad ip jad pad jl v pt wt ct o pp sp h f bp b mk rp rl
    ml hl lg.

Definition set_ping_thread (v : thread_pc) (s : state) : state :=
  let 'State ja wa ca wad mad ip jad pad jl pc pt wt ct o pp sp h f bp b mk rp rl ml hl lg
    := s in
  State ja wa ca wad mad ip jad pad jl pc v wt ct o pp sp h f bp b mk rp rl
    ml hl lg.

Definition set_worker_thread (v : thread_pc * nat) (s : state) : state :=
  let 'State ja wa ca wad mad ip jad pad jl pc pt wt ct o pp sp h f bp b mk rp rl ml hl lg
    := s in
  State ja wa ca wad mad ip jad pad jl pc pt v ct o pp sp h f bp b mk rp rl
    ml hl lg.

Definition set_client_thread (v : thread_pc * nat) (s : state) : state :=
  let 'State ja wa ca wad mad ip jad pad jl pc pt wt ct o pp sp h f bp b mk rp rl ml hl lg
    := s in
  State ja wa ca wad mad ip jad pad jl pc pt wt v o pp sp h f bp b mk rp rl
    ml hl lg.

Definition set_obj (v : option Obj) (s : state) : state :=
  let 'State ja wa ca wad mad ip jad pad jl pc pt wt ct o pp sp h f bp b mk rp rl ml hl lg
    := s in
  State ja wa ca wad mad ip jad pad jl pc pt wt ct v pp sp h f bp b mk rp rl
    ml hl lg.

Definition set_previous_path (v : option loc) (s : state) : state :=
  let 'State ja wa ca wad mad ip jad pad jl pc pt wt ct o pp sp h f bp b mk rp rl ml hl lg
    := s in
  State ja wa ca wad mad ip jad pad jl pc pt wt ct o v sp h f bp b mk rp rl
    ml hl lg.

Definition set_sys_path (v : loc) (s : state) : state :=
  let 'State ja wa ca wad mad ip jad pad jl pc pt wt ct o pp sp h f bp b mk rp rl ml hl lg
    := s in
  State ja wa ca wad mad ip jad pad jl pc pt wt ct o pp v h f bp b mk rp rl
    ml hl lg.

Definition set_heap (v : gmap loc (list string)) (s : state) : state :=
  let 'State ja wa ca wad mad ip jad pad jl pc pt wt ct o pp sp h f bp b mk rp rl ml hl lg
    := s in
  State ja wa ca wad mad ip jad pad jl pc pt wt ct o pp sp v f bp b mk rp rl
    ml hl lg.

Definition set_fs (v : filesystem) (s : state) : state :=
  let 'State ja wa ca wad mad ip jad pad jl pc pt wt ct o pp sp h f bp b mk rp rl ml hl lg
    := s in
  State ja wa ca wad mad ip jad pad jl pc pt wt ct o pp sp h v bp b mk rp rl
    ml hl lg.

Definition set_bound_ports (v : gset nat) (s : state) : state :=
  let 'State ja wa ca wad mad ip jad pad jl pc pt wt ct o pp sp h f bp b mk rp rl ml hl lg
    := s in
  State ja wa ca wad mad ip jad pad jl pc pt wt ct o pp sp h f v b mk rp rl
    ml hl lg.

Definition set_binds (v : nat) (s : state) : state :=
  let 'State ja wa ca wad mad ip jad pad jl pc pt wt ct o pp sp h f bp b mk rp rl ml hl lg
    := s in
  State ja wa ca wad mad ip jad pad jl pc pt wt ct o pp sp h f bp v mk rp rl
    ml hl lg.

Definition set_mkdtemps (v : nat) (s : state) : state :=
  let 'State ja wa ca wad mad ip jad pad jl pc pt wt ct o pp sp h f bp b mk rp rl ml hl lg
    := s in
  State ja wa ca wad mad ip jad pad jl pc pt wt ct o pp sp h f bp b v rp rl
    ml hl lg.

Definition set_reply_pending (v : bool) (s : state) : state :=
  let 'State ja wa ca wad mad ip jad pad jl pc pt wt ct o pp sp h f bp b mk rp rl ml hl lg
    := s in
  State ja wa ca wad mad ip jad pad jl pc pt wt ct o pp sp h f bp b mk v rl
    ml hl lg.

Definition set_request_log (v : list event) (s : state) : state :=
  let 'State ja wa ca wad mad ip jad pad jl pc pt wt ct o pp sp h f bp b mk rp rl ml hl lg
    := s in
  State ja wa ca wad mad ip jad pad jl pc pt wt ct o pp sp h f bp b mk rp v
    ml hl lg.

Definition set_master_log (v : list (string * InitializedJob)) (s : state) : state :=
  let 'State ja wa ca wad mad ip jad pad jl pc pt wt ct o pp sp h f bp b mk rp rl ml hl lg
    := s in
  State ja wa ca wad mad ip jad pad jl pc pt wt ct o pp sp h f bp b mk rp rl
    v hl lg.

Definition set_heartbeat_log (v : list (responder * message)) (s : state) : state :=
  let 'State ja wa ca wad mad ip jad pad jl pc pt wt ct o pp sp h f bp b mk rp rl ml hl lg
    := s in
  State ja wa ca wad mad ip jad pad jl pc pt wt ct o pp sp h f bp b mk rp rl
    ml v lg.

Definition set_logger (v : list (log_level * string)) (s : state) : state :=
  let 'State ja wa ca wad mad ip jad pad jl pc pt wt ct o pp sp h f bp b mk rp rl ml hl lg
    := s in
  State ja wa ca wad mad ip jad pad jl pc pt wt ct o pp sp h f bp b mk rp rl
    ml hl v.

(** *** The state-and-exception monad of the handlers *)

Definition M (A : Type) : Type := state -> state * result A.

#[global] Instance M_ret : MRet M := fun A a s => (s, Ok a).

#[global] Instance M_bind : MBind M := fun A B k c s =>
  match c s with
  | (s', Ok a) => k a s'
  | (s', Raise e) => (s', Raise e)
  end.

Definition raise {A} (c : exc_class) : M A := fun s => (s, raise_ c).

Definition lift {A} (r : result A) : M A := fun s => (s, r).

Definition modify (f : state -> state) : M unit := fun s => (f s, Ok tt).

(** [try: body except Exception as e: handler]. *)
Definition try_except {A} (body : M A) (handler : exc -> M A) : M A :=
  fun s =>
    match body s with
    | (s', Raise e) => handler e s'
    | r => r
    end.

Definition logger_error (text : string) : M unit :=
  modify (fun s => set_logger (logger s ++ [(ERROR, text)]) s).

Definition logger_warning (text : string) : M unit :=
  modify (fun s => set_logger (logger s ++ [(WARNING, text)]) s).

(** *** The request endpoint (a REP socket)

    [recv_multipart] in its two parts.  The call: a REP socket refuses to
    receive while the previous request is unanswered, and the call raises
    at once, whether a message is on its way or not.  The delivery: the
    call was accepted, the thread has been blocked in it since, and the
    message the client sent arrives. *)
Definition reply_socket_call : M unit := fun s =>
  if reply_pending s then (s, raise_ ZMQError) else (s, Ok tt).

Definition reply_socket_recv (m : message) : M message := fun s =>
  (set_reply_pending true (set_request_log (request_log s ++ [Recv m]) s), Ok m).

Definition reply_socket_send (m : message) : M unit :=
  modify (fun s =>
    set_reply_pending false (set_request_log (request_log s ++ [Send m]) s)).

Definition set_client_alive (b : bool) : M unit :=
  modify (set_client_is_alive (Some b)).

(** ** [Job.wait_for_files] *)

(** [envdir = tempfile.mkdtemp()] and the loop over [pyfiles]. *)
Definition materialize (pyfiles : list (string * string)) : M string := fun s =>
  let (fs', r) := load_bundle (fs s) (mkdtemp_name (mkdtemps s)) pyfiles in
  (set_fs fs' (set_mkdtemps (S (mkdtemps s)) s), r).

Definition wait_for_files (incoming : message) : M string :=
  message ← reply_socket_recv incoming;
  tag ← lift (index message 0);
  if String.eqb tag SEND_FILE_TAG then
    data ← lift (index message 1);
    pyfiles ← lift (pickle_loads data);
    envdir ← materialize pyfiles;
    reply_socket_send [NORMAL_TAG];;
    mret envdir
  else
    logger_error "NotImplementedError:{}, received message:{}";;
    raise NotImplementedError.

(** ** [Job.wait_for_connection]

    In the strings below a backslash followed by [n] stands for the
    newline that Python's escape denotes. *)

Definition wait_for_connection (incoming : message) : M (option Obj) :=
  message ← reply_socket_recv incoming;
  tag ← lift (index message 0);
  if String.eqb tag INIT_OBJECT_TAG then
    data1 ← lift (index message 1);
    cls ← lift (cloudpickle_loads_cls data1);
    data2 ← lift (index message 2);
    args ← lift (cloudpickle_loads_args data2);
    o ← try_except
          (o ← lift (instantiate cls args); mret (Some o))
          (fun e =>
             logger_error "traceback:\n{}";;
             reply_socket_send
               [EXCEPTION_TAG;
                exc_str e +:+ "\ntraceback:\n" +:+ exc_traceback e];;
             set_client_alive false;;
             mret None);
    match o with
    | None => mret None
    | Some o => reply_socket_send [NORMAL_TAG];; mret (Some o)
    end
  else
    logger_error "Message from job {}";;
    reply_socket_send
      [EXCEPTION_TAG;
       "[job]Unkonwn tag when tried to receive the class definition"];;
    raise NotImplementedError.

(** ** [Job.single_task]: one pass through the loop body *)

(** [getattr(obj, function_name)( *args, **kwargs)]: the object is
    shared with the caller, so what the method does to it stays. *)
Definition invoke (o : Obj) (function_name : string) (args : Args) : M Ret :=
  fun s =>
    let (o', r) := call_method o function_name args in
    (set_obj (Some o') s, r).

(** The statements of the [try] block that come before the reply. *)
Definition call_body (o : Obj) (message : message) : M string :=
  name ← lift (index message 1);
  function_name ← lift (to_str name);
  data ← lift (index message 2);
  args ← lift (loads_argument data);
  ret ← invoke o function_name args;
  lift (dumps_return ret).

Definition assert_obj_is_not_None : M Obj := fun s =>
  match obj s with
  | Some o => (s, Ok o)
  | None => (s, raise_ AssertionError)
  end.

Definition single_task_body (incoming : message) : M unit :=
  message ← reply_socket_recv incoming;
  tag ← lift (index message 0);
  if String.eqb tag CALL_TAG then
    o ← assert_obj_is_not_None;
    try_except
      (ret ← call_body o message;
       reply_socket_send [NORMAL_TAG; ret])
      (fun e =>
         set_client_alive false;;
         logger_error (exc_str e);;
         match exc_type e with
         | AttributeError =>
             reply_socket_send [ATTRIBUTE_EXCEPTION_TAG; exc_str e]
         | SerializeError =>
             reply_socket_send [SERIALIZE_EXCEPTION_TAG; exc_str e]
         | DeserializeError =>
             reply_socket_send [DESERIALIZE_EXCEPTION_TAG; exc_str e]
         | _ =>
             logger_error "traceback:\n{}";;
             reply_socket_send
               [EXCEPTION_TAG;
                exc_str e +:+ "\ntraceback:\n" +:+ exc_traceback e]
         end)
  else if String.eqb tag KILLJOB_TAG then
    reply_socket_send [NORMAL_TAG];;
    set_client_alive false;;
    logger_warning "An actor exits and will reset job {}."
  else
    logger_error "Job message: {}";;
    raise NotImplementedError.

(** ** [Job._create_heartbeat_server] *)

(** [bind_to_random_port]: the port the operating system hands out; it is
    not one this process still holds. *)
Definition bind_to_random_port : M nat := fun s =>
  let port := random_port (binds s) in
  let s1 := set_binds (S (binds s)) s in
  if bool_decide (port ∈ bound_ports s) then (s1, raise_ ZMQBindError)
  else (set_bound_ports ({[port]} ∪ bound_ports s) s1, Ok port).

Definition _create_heartbeat_server : M (nat * address) := fun s =>
  (heartbeat_port ← bind_to_random_port;
   mret (heartbeat_port, (job_ip s, heartbeat_port))) s.

(** [socket.close(0)] of a responder: its port is released. *)
Definition socket_close (port : nat) (s : state) : state :=
  set_bound_ports (bound_ports s ∖ {[port]}) s.

(** ** [Job.run], cut at the calls that block *)

(** [self.client_thread.start()]; a thread starts only once. *)
Definition client_thread_start : M unit := fun s =>
  match client_thread s with
  | (NotStarted, port) => (set_client_thread (Starting, port) s, Ok tt)
  | _ => (s, raise_ (OtherError "RuntimeError"))
  end.

(** From the top of the loop body to the [try]:
    [envdir = self.wait_for_files(); previous_path = sys.path;
     sys.path.append(envdir); self.client_thread.start()].
    [previous_path] is a second reference to the list object, which
    [append] changes in place. *)
Definition run_receive_files (incoming : message) : M unit :=
  envdir ← wait_for_files incoming;
  modify (fun s => set_previous_path (Some (sys_path s)) s);;
  modify (fun s =>
    set_heap (alter (fun l => l ++ [envdir]) (sys_path s) (heap s)) s);;
  client_thread_start.

(** The first two statements of the [try] block. *)
Definition run_connect (incoming : message) : M unit :=
  o ← wait_for_connection incoming;
  match o with
  | Some o => modify (set_obj (Some o))
  | None => raise AssertionError
  end.

(** [except Exception as e: logger.error(...)]. *)
Definition run_except (e : exc) : M unit :=
  logger_error
    "Error occurs when running a single task. We will reset this job. Reason:{}".

(** [sys.path = previous_path]: the name is bound to the object
    [previous_path] refers to. *)
Definition assign_sys_path_previous_path : M unit := fun s =>
  match previous_path s with
  | Some l => (set_sys_path l s, Ok tt)
  | None => (s, raise_ (OtherError "UnboundLocalError"))
  end.

(** After the [try] statement, up to the join:
    [logger.warning("Restting the job"); sys.path = previous_path]. *)
Definition run_restore : M unit :=
  logger_warning "Restting the job";;
  assign_sys_path_previous_path.

(** After the join, up to the wait for the master's acknowledgement. *)
Definition run_reset : M unit :=
  '(heartbeat_port, client_heartbeat_address) ← _create_heartbeat_server;
  modify (set_client_thread (NotStarted, heartbeat_port));;
  modify (fun s =>
    let initialized_job :=
      mkInitializedJob (job_address s) None client_heartbeat_address
        (ping_heartbeat_address s) None None in
    set_master_log (master_log s ++ [(RESET_JOB_TAG, initialized_job)]) s).

(** ** The process: main thread and responders, interleaved *)

(** What can happen next: a thread that is not blocked goes on to its
    next blocking call ([_run]), or the event a blocked thread waits for
    arrives (a message, a receive timeout, the end of the joined
    thread).  The main thread is blocked in [recv_multipart] on the
    request endpoint at [InWaitForFiles], [InWaitForConnection] and
    [InSingleTask]: it gets there when the call is accepted, and the
    handler of the message runs when the message is delivered. *)
Inductive action :=
| Main_run
| Main_recv (m : message)
| Main_join
| Main_ack (m : message)
| Ping_run
| Ping_probe (m : message)
| Worker_run
| Worker_probe (m : message)
| Worker_timeout
| Client_run
| Client_probe (m : message)
| Client_timeout.

(** An exception that reaches the top of [run] ends the process. *)
Definition leave (c : state * result unit) (next : main_pc) : state :=
  match c with
  | (s, Ok _) => set_main next s
  | (s, Raise e) => set_main (Uncaught e) s
  end.

(** The [try] statement of [run] is over, with the exception it caught
    if any; the statements up to the join follow. *)
Definition run_after_try (caught : option exc) : M unit :=
  match caught with
  | Some e => run_except e;; run_restore
  | None => run_restore
  end.

(** The [try] statement of [run] has ended in state [s1]; the statements
    up to the join follow. *)
Definition end_of_session (s1 : state) (caught : option exc) : state :=
  leave (run_after_try caught s1) AtJoin.

(** The test [self.job_is_alive and self.client_is_alive]; the second
    attribute exists once the client responder has begun. *)
Definition single_task_test : M bool := fun s =>
  if job_is_alive s then
    match client_is_alive s with
    | Some b => (s, Ok b)
    | None => (s, raise_ AttributeError)
    end
  else (s, Ok false).

(** From the head of a loop to the call of [recv_multipart].  At the
    head of the loop of [run] the call is the first statement of
    [wait_for_files], outside the [try] statement of [run]: an exception
    it raises leaves [run].  In [single_task] the call is inside that
    [try] statement. *)
Definition main_run (s : state) : option state :=
  match main s with
  | AtRunLoop =>
      if job_is_alive s then Some (leave (reply_socket_call s) InWaitForFiles)
      else Some (set_main Returned s)
  | AtTaskLoop =>
      match single_task_test s with
      | (s', Ok true) =>
          match reply_socket_call s' with
          | (s'', Ok _) => Some (set_main InSingleTask s'')
          | (s'', Raise e) => Some (end_of_session s'' (Some e))
          end
      | (s', Ok false) => Some (end_of_session s' None)
      | (s', Raise e) => Some (end_of_session s' (Some e))
      end
  | _ => None
  end.

(** The message a receive was waiting for is delivered.  (The call of
    [recv_multipart] in [wait_for_connection] follows the reply to the
    bundle, which [wait_for_files] has just sent: the socket owes nothing
    and the call is accepted.) *)
Definition main_recv (m : message) (s : state) : option state :=
  match main s with
  | InWaitForFiles =>
      Some (leave (run_receive_files m s) InWaitForConnection)
  | InWaitForConnection =>
      match run_connect m s with
      | (s', Ok _) => Some (set_main AtTaskLoop s')
      | (s', Raise e) => Some (end_of_session s' (Some e))
      end
  | InSingleTask =>
      match single_task_body m s with
      | (s', Ok _) => Some (set_main AtTaskLoop s')
      | (s', Raise e) => Some (end_of_session s' (Some e))
      end
  | _ => None
  end.

(** [self.client_thread.join()] returns when that thread has finished;
    the reset follows. *)
Definition main_join (s : state) : option state :=
  match main s, client_thread s with
  | AtJoin, (Finished, _) => Some (leave (run_reset s) AwaitMaster)
  | AtJoin, (NotStarted, _) =>
      Some (set_main (Uncaught (Exc (OtherError "RuntimeError") "" "")) s)
  | _, _ => None
  end.

Definition main_ack (m : message) (s : state) : option state :=
  match main s with
  | AwaitMaster => Some (set_main AtRunLoop s)
  | _ => None
  end.

Definition heartbeat_reply (r : responder) (s : state) : state :=
  set_heartbeat_log (heartbeat_log s ++ [(r, [HEARTBEAT_TAG])]) s.

(** [Job._reply_ping]. *)
Definition ping_run (s : state) : option state :=
  match ping_thread s with
  | AtLoop =>
      if job_is_alive s then Some (set_ping_thread InRecv s)
      else Some (set_ping_thread Finished
                   (socket_close (ping_heartbeat_address s).2 s))
  | _ => None
  end.

Definition ping_probe (m : message) (s : state) : option state :=
  match ping_thread s with
  | InRecv => Some (set_ping_thread AtLoop (heartbeat_reply Ping s))
  | _ => None
  end.

(** [Job._reply_worker_heartbeat]. *)
Definition worker_run (s : state) : option state :=
  match worker_thread s with
  | (Starting, port) =>
      Some (set_worker_thread (AtLoop, port) (set_worker_is_alive (Some true) s))
  | (AtLoop, port) =>
      if bool_decide (worker_is_alive s = Some true) && job_is_alive s
      then Some (set_worker_thread (InRecv, port) s)
      else Some (set_worker_thread (Finished, port) (socket_close port s))
  | _ => None
  end.

Definition worker_probe (m : message) (s : state) : option state :=
  match worker_thread s with
  | (InRecv, port) =>
      Some (set_worker_thread (AtLoop, port) (heartbeat_reply Worker s))
  | _ => None
  end.

(** The [except zmq.error.Again] clause of the worker responder. *)
Definition worker_timeout (s : state) : option state :=
  match worker_thread s with
  | (InRecv, port) =>
      let s1 :=
        set_logger
          (logger s ++ [(WARNING, "[Job] Cannot connect to the worker{}. Job will quit.")])
          s in
      let s2 := set_worker_is_alive (Some false) s1 in
      let s3 := set_job_is_alive false s2 in
      Some (set_worker_thread (AtLoop, port) s3)
  | _ => None
  end.

(** [Job._reply_client_heartbeat]. *)
Definition client_run (s : state) : option state :=
  match client_thread s with
  | (Starting, port) =>
      Some (set_client_thread (AtLoop, port) (set_client_is_alive (Some true) s))
  | (AtLoop, port) =>
      if bool_decide (client_is_alive s = Some true)
      then Some (set_client_thread (InRecv, port) s)
      else Some (set_client_thread (Finished, port) (socket_close port s))
  | _ => None
  end.

Definition client_probe (m : message) (s : state) : option state :=
  match client_thread s with
  | (InRecv, port) =>
      Some (set_client_thread (AtLoop, port) (heartbeat_reply Client s))
  | _ => None
  end.

(** The [except zmq.error.Again] clause of the client responder. *)
Definition client_timeout (s : state) : option state :=
  match client_thread s with
  | (InRecv, port) =>
      let s1 :=
        set_logger
          (logger s ++ [(WARNING, "[Job] Cannot connect to the client. I am going to reset myself")])
          s in
      Some (set_client_thread (AtLoop, port) (set_client_is_alive (Some false) s1))
  | _ => None
  end.

(** The process lives until [run] returns or lets an exception out; the
    responders are daemon threads and end with it. *)
Definition running (s : state) : bool :=
  match main s with
  | Returned | Uncaught _ => false
  | _ => true
  end.

Definition step (s : state) (a : action) : option state :=
  if running s then
    match a with
    | Main_run => main_run s
    | Main_recv m => main_recv m s
    | Main_join => main_join s
    | Main_ack m => main_ack m s
    | Ping_run => ping_run s
    | Ping_probe m => ping_probe m s
    | Worker_run => worker_run s
    | Worker_probe m => worker_probe m s
    | Worker_timeout => worker_timeout s
    | Client_run => client_run s
    | Client_probe m => client_probe m s
    | Client_timeout => client_timeout s
    end
  else None.

Fixpoint exec (s : state) (tr : list action) : option state :=
  match tr with
  | [] => Some s
  | a :: tr' =>
      match step s a with
      | Some s' => exec s' tr'
      | None => None
      end
  end.

(** ** [Job.__init__] and [Job._create_sockets]

    Four endpoints are bound (request, ping, worker heartbeat, client
    heartbeat), the ping and worker responders are started, and the
    announcement goes to the worker, whose acknowledgement is awaited.
    [path0] is the content of [sys.path] when the process starts. *)
Definition Job_new (worker_address master_address ip : string) (pid : nat)
    (path0 : list string) (fs0 : filesystem) : state :=
  let job_port := random_port 0 in
  let ping_port := random_port 1 in
  let worker_port := random_port 2 in
  let client_port := random_port 3 in
  let initialized_job :=
    mkInitializedJob (ip, job_port) (Some (ip, worker_port))
      (ip, client_port) (ip, ping_port) None (Some pid) in
  {| job_is_alive := true;
     worker_is_alive := None;
     client_is_alive := None;
     worker_address := worker_address;
     master_address := master_address;
     job_ip := ip;
     job_address := (ip, job_port);
     ping_heartbeat_address := (ip, ping_port);
     job_socket_log := [(NORMAL_TAG, initialized_job)];
     main := AtRunLoop;
     ping_thread := AtLoop;
     worker_thread := (Starting, worker_port);
     client_thread := (NotStarted, client_port);
     obj := None;
     previous_path := None;
     sys_path := 0;
     heap := {[ 0 := path0 ]};
     fs := fs0;
     bound_ports := {[job_port; ping_port; worker_port; client_port]};
     binds := 4;
     mkdtemps := 0;
     reply_pending := false;
     request_log := [];
     master_log := [];
     heartbeat_log := [];
     logger := [] |}.

(** Binding fails when the operating system offers a port this process
    holds already. *)
Definition Job_init (worker_address master_address ip : string) (pid : nat)
    (path0 : list string) (fs0 : filesystem) : result state :=
  if bool_decide (NoDup [random_port 0; random_port 1; random_port 2; random_port 3])
  then Ok (Job_new worker_address master_address ip pid path0 fs0)
  else raise_ ZMQBindError.

(** The content of the list [sys.path] refers to. *)
Definition sys_path_list (s : state) : list string :=
  default [] (heap s !! sys_path s).

End Job.

Definition demo_fs : filesystem := Filesystem {[ ["tmp"] ]} ∅.

(** [Job(worker_address, master_address)] followed by [job.run()] under
    the schedule [tr]. *)
Definition boot {E : External} (worker_address master_address ip : string)
    (pid : nat) (path0 : list string) (fs0 : filesystem) (tr : list action)
  : option state :=
  match Job_init worker_address master_address ip pid path0 fs0 with
  | Ok s => exec s tr
  | Raise _ => None
  end.

(** ** A concrete world to run the job in

    A user class [C] with a method [f], a method [boom] that raises
    [ValueError("bad")], and nothing else; bundles of one file, named by
    the payload; scratch directories [/tmp/job0], [/tmp/job1], ... *)
Definition demo_call (o : unit) (name args : string) : unit * result string :=
  if String.eqb name "f" then (o, Ok (args +:+ "+1"))
  else if String.eqb name "boom" then
    (o, Raise (Exc (OtherError "ValueError") "bad" "Traceback (most recent call last): ..."))
  else (o, Raise (Exc AttributeError "'C' object has no attribute" "")).

Definition demo (ports : nat -> nat) : External := {|
  Obj := unit;
  Cls := string;
  Args := string;
  Ret := string;
  pickle_loads := fun data => Ok [(data, "class C: ...")];
  cloudpickle_loads_cls := Ok;
  cloudpickle_loads_args := Ok;
  instantiate := fun cls args =>
    if String.eqb cls "C" then Ok tt
    else Raise (Exc (OtherError "TypeError") "not callable" "");
  to_str := Ok;
  loads_argument := fun data =>
    if String.eqb data "?" then Raise (Exc DeserializeError "cannot load" "")
    else Ok data;
  call_method := demo_call;
  dumps_return := Ok;
  random_port := ports;
  mkdtemp_name := fun n => ["tmp"; "job" +:+ String (Ascii.ascii_of_nat (48 + n)) ""]
|}.

Definition fresh_ports (n : nat) : nat := 4000 + n.

(** A port allocator that hands the port released last out again. *)
Definition reusing_ports (n : nat) : nat := if Nat.eqb n 4 then 4003 else 4000 + n.

Definition demo_boot (ports : nat -> nat) (tr : list action) : option state :=
  boot (E := demo ports) "10.0.0.1:8000" "10.0.0.2:8010" "10.0.0.5" 4242
    ["/usr/lib/python3"] demo_fs tr.

(** The state the schedule [tr] leads to (the state at startup when the
    schedule cannot be run). *)
Definition demo_state (ports : nat -> nat) (tr : list action) : state :=
  let s0 :=
    Job_new (E := demo ports) "10.0.0.1:8000" "10.0.0.2:8010" "10.0.0.5" 4242
      ["/usr/lib/python3"] demo_fs in
  default s0 (exec s0 tr).

(** A session that ends with the kill tag, up to the reset. *)
Definition kill_session : list action :=
  [ Main_run;
    Main_recv [SEND_FILE_TAG; "u.py"];
    Client_run;
    Main_recv [INIT_OBJECT_TAG; "C"; "()"];
    Main_run;
    Main_recv [KILLJOB_TAG];
    Main_run;
    Client_run;
    Main_join ].

(** What no handler of the request endpoint writes: the attributes set
    once in [__init__], the liveness flags of the job and of the worker,
    and the other threads. *)
Definition attrs {E : External} (s : state) :=
  (job_is_alive s, worker_is_alive s, worker_address s, master_address s,
   job_ip s, job_address s, ping_heartbeat_address s, job_socket_log s,
   ping_thread s, worker_thread s, heartbeat_log s).

(** The same with what went to the master and the number of endpoints
    bound so far. *)
Definition kept {E : External} (s : state) :=
  (attrs s, master_log s, binds s).

(** What is fixed when [__init__] returns. *)
Definition config {E : External} (s : state) :=
  (worker_address s, master_address s, job_ip s, job_address s,
   ping_heartbeat_address s, job_socket_log s).

(** A computation takes every state to one related to it by [R]. *)
Definition preserved {E : External} {B} (R : relation state) (c : M B) : Prop :=
  forall s, R s (c s).1.

(** The projection [f] of the state is as it was. *)
Definition same {E : External} {A} (f : state -> A) : relation state :=
  fun s s' => f s' = f s.

Definition unchanged {E : External} {A B} (f : state -> A) (c : M B) : Prop :=
  preserved (same f) c.

(** What was received and sent on the request endpoint is still there,
    in front of what has come since. *)
Definition grows {E : External} : relation state :=
  fun s s' => request_log s `prefix_of` request_log s'.

(** The actions of the main thread. *)
Definition is_main (a : action) : bool :=
  match a with
  | Main_run | Main_recv _ | Main_join | Main_ack _ => true
  | _ => false
  end.

(** How many resets the main thread can still reach without passing the
    test at the head of the loop of [run]. *)
Definition resets_ahead {E : External} (s : state) : nat :=
  match main s with
  | AtRunLoop | AwaitMaster | Returned | Uncaught _ => 0
  | _ => 1
  end.

(** The announcement a reset in state [s] sends. *)
Definition reset_announcement {E : External} (s : state) : string * InitializedJob :=
  (RESET_JOB_TAG,
   mkInitializedJob (job_address s) None (job_ip s, random_port (binds s))
     (ping_heartbeat_address s) None None).

(** The announcement of the [k]-th reset of a job whose endpoints were
    bound in the order request, ping, worker heartbeat, client heartbeat:
    each reset binds one more endpoint. *)
Definition announced {E : External} (ip : string) (k : nat)
  : string * InitializedJob :=
  (RESET_JOB_TAG,
   mkInitializedJob (ip, random_port 0) None (ip, random_port (4 + k))
     (ip, random_port 1) None None).

(** What holds of the announcements along every run. *)
Definition announcements_inv {E : External} (ip : string) (s : state) : Prop :=
  job_ip s = ip /\ job_address s = (ip, random_port 0)
  /\ ping_heartbeat_address s = (ip, random_port 1)
  /\ (running s = true -> binds s = 4 + length (master_log s))
  /\ master_log s = map (announced ip) (seq 0 (length (master_log s))).

(** A session during which the worker heartbeat times out, up to the
    timeout and from there on. *)
Definition before_loss : list action :=
  [ Worker_run;
    Worker_run;
    Main_run;
    Main_recv [SEND_FILE_TAG; "u.py"];
    Client_run;
    Main_recv [INIT_OBJECT_TAG; "C"; "()"];
    Main_run;
    Worker_timeout ].

Definition after_loss : list action :=
  [ Main_recv [KILLJOB_TAG];
    Main_run;
    Client_run;
    Main_join;
    Main_ack [NORMAL_TAG];
    Main_run ].

(** [sys.path] and [previous_path] refer to list objects that exist. *)
Definition wf_paths {E : External} (s : state) : Prop :=
  is_Some (heap s !! sys_path s)
  /\ forall l, previous_path s = Some l -> is_Some (heap s !! l).

Definition keeps_paths {E : External} : relation state :=
  fun s s' => wf_paths s -> wf_paths s'.

(** What holds wherever the main thread stands: between sessions the
    client responder of the next session is not started; within a session
    the request endpoint owes no reply when the next request is awaited,
    [previous_path] is the list [sys.path] is, the client responder has
    been started, and the user object exists once calls are served. *)
Definition session_at {E : External} (pc : main_pc) (s : state) : Prop :=
  match pc with
  | AtRunLoop | InWaitForFiles | AwaitMaster =>
      (client_thread s).1 = NotStarted
  | InWaitForConnection =>
      reply_pending s = false /\ previous_path s = Some (sys_path s)
      /\ (client_thread s).1 <> NotStarted
  | AtTaskLoop | InSingleTask =>
      reply_pending s = false /\ previous_path s = Some (sys_path s)
      /\ (client_thread s).1 <> NotStarted /\ is_Some (obj s)
  | AtJoin => (client_thread s).1 <> NotStarted
  | Returned | Uncaught _ => True
  end.

Definition session_inv {E : External} (s : state) : Prop :=
  wf_paths s /\ session_at (main s) s.

(** What a session leaves alone between the bundle and the reset. *)
Definition fixed {E : External} (s : state) :=
  (previous_path s, sys_path s, client_thread s, heap s).

(** ** What the further properties are stated with *)

(** The discipline of a REP socket, read along the log of the request
    endpoint: requests and replies alternate, a request first.  [paired
    pending log] is whether a reply is owed after [log], starting from
    [pending]; it is undefined when the log breaks the discipline. *)
Fixpoint paired (pending : bool) (log : list event) : option bool :=
  match log with
  | [] => Some pending
  | Recv _ :: log' => if pending then None else paired true log'
  | Send _ :: log' => if pending then paired false log' else None
  end.

(** What the request endpoint has seen, and whether it owes a reply. *)
Definition wire {E : External} (s : state) := (request_log s, reply_pending s).

(** What one handler of the request endpoint does to it, given the
    message [m]: the receive alone, or the receive and one reply. *)
Definition exchanged {E : External} (m : message) : relation state :=
  fun s s' =>
    wire s' = (request_log s ++ [Recv m], true)
    \/ exists reply, wire s' = (request_log s ++ [Recv m; Send reply], false).

(** The main thread is not in a session: it has not received the bundle
    yet, or the [try] statement of [run] is over. *)
Definition idle (pc : main_pc) : bool :=
  match pc with
  | InWaitForConnection | AtTaskLoop | InSingleTask => false
  | _ => true
  end.

(** The main thread is outside the [try] statement of [run] and not
    blocked in [wait_for_files]: it is at the join, waits for the master,
    is at the head of the loop of [run], or [run] is over. *)
Definition between_sessions (pc : main_pc) : bool :=
  match pc with
  | AtJoin | AwaitMaster | AtRunLoop | Returned | Uncaught _ => true
  | _ => false
  end.

(** The frame a responder sends for the probe an action delivers. *)
Definition probe_reply (a : action) : option (responder * message) :=
  match a with
  | Ping_probe _ => Some (Ping, [HEARTBEAT_TAG])
  | Worker_probe _ => Some (Worker, [HEARTBEAT_TAG])
  | Client_probe _ => Some (Client, [HEARTBEAT_TAG])
  | _ => None
  end.

(** The actions of the client responder. *)
Definition is_client (a : action) : bool :=
  match a with
  | Client_run | Client_probe _ | Client_timeout => true
  | _ => false
  end.

(** How the liveness flags stand with the worker responder, the ping
    responder and [run]. *)
Definition flags_inv {E : External} (s : state) : Prop :=
  match (worker_thread s).1 with
  | NotStarted => False
  | Starting => worker_is_alive s = None /\ job_is_alive s = true
  | AtLoop =>
      (worker_is_alive s = Some true /\ job_is_alive s = true)
      \/ (worker_is_alive s = Some false /\ job_is_alive s = false)
  | InRecv => worker_is_alive s = Some true /\ job_is_alive s = true
  | Finished => worker_is_alive s = Some false /\ job_is_alive s = false
  end
  /\ (ping_thread s = Finished -> job_is_alive s = false)
  /\ (main s = Returned -> job_is_alive s = false).

(** A session whose last request has an unknown tag, up to the end of
    the [try] statement. *)
Definition dropped_request : list action :=
  [ Main_run;
    Main_recv [SEND_FILE_TAG; "u.py"];
    Client_run;
    Main_recv [INIT_OBJECT_TAG; "C"; "()"];
    Main_run;
    Main_recv ["[PING]"] ].

(** What can follow it: the client goes silent, the job resets, and
    [run] calls [wait_for_files] again. *)
Definition after_drop : list action :=
  [ Client_run;
    Client_timeout;
    Client_run;
    Main_join;
    Main_ack [NORMAL_TAG];
    Main_run ].

(** The name under which the [k]-th scratch directory is entered in
    [sys.path]. *)
Definition scratch {E : External} (k : nat) : string := path_str (mkdtemp_name k).

(** What the search path is along a run from a point where it was
    [path0] and [n0] scratch directories had been created: the entries of
    [path0] followed by scratch directories, which are some of those
    created since, in the order of their creation; and [previous_path],
    once bound, is the list [sys.path] is. *)
Definition search_path_inv {E : External} (path0 : list string) (n0 : nat)
    (s : state) : Prop :=
  (exists ks,
     heap s !! sys_path s = Some (path0 ++ map scratch ks)
     /\ ks `sublist_of` seq n0 (mkdtemps s - n0))
  /\ n0 <= mkdtemps s
  /\ (previous_path s = None \/ previous_path s = Some (sys_path s)).

(** The search path, the heap it lives in, and the file system. *)
Definition stores {E : External} (s : state) :=
  (previous_path s, sys_path s, heap s, mkdtemps s, fs s).

(** Nothing is removed: every directory and every file of [a] is one of
    [b]. *)
Definition fs_le (a b : filesystem) : Prop :=
  fs_dirs a ⊆ fs_dirs b /\ dom (fs_files a) ⊆ dom (fs_files b).

Definition fs_grows {E : External} : relation state :=
  fun s s' => fs_le (fs s) (fs s').

(** The port a responder holds: none once it has closed its socket. *)
Definition endpoint (t : thread_pc) (port : nat) : gset nat :=
  match t with
  | Finished => ∅
  | _ => {[port]}
  end.

(** The ports of the sockets the job has open: the request endpoint and
    the endpoints of the responders that have not finished. *)
Definition held_ports {E : External} (s : state) : gset nat :=
  {[(job_address s).2]}
  ∪ endpoint (ping_thread s) (ping_heartbeat_address s).2
  ∪ endpoint (worker_thread s).1 (worker_thread s).2
  ∪ endpoint (client_thread s).1 (client_thread s).2.

Definition ports_inv {E : External} (s : state) : Prop :=
  bound_ports s ⊆ held_ports s
  /\ ((job_address s).2 ∈ bound_ports s)
  /\ (ping_heartbeat_address s).2 <> (job_address s).2
  /\ (worker_thread s).2 <> (job_address s).2
  /\ (client_thread s).2 <> (job_address s).2.

(** The sockets and the threads that own them. *)
Definition ports_of {E : External} (s : state) :=
  (bound_ports s, client_thread s, ping_thread s, worker_thread s,
   job_address s, ping_heartbeat_address s).

(** An invariant, as the relation of keeping it. *)
Definition keeps {E : External} (P : state -> Prop) : relation state :=
  fun s s' => P s -> P s'.

(** A session whose client responder is not scheduled before the main
    thread reaches the loop of [single_task]. *)
Definition late_responder : list action :=
  [ Main_run;
    Main_recv [SEND_FILE_TAG; "u.py"];
    Main_recv [INIT_OBJECT_TAG; "C"; "()"] ].

(** The same in the session that follows a session ended by the kill
    tag. *)
Definition late_responder_again : list action :=
  kill_session
  ++ [ Main_ack [NORMAL_TAG];
       Main_run;
       Main_recv [SEND_FILE_TAG; "v.py"];
       Main_recv [INIT_OBJECT_TAG; "C"; "()"] ].

(** ** [Job.__init__] and [Job._create_sockets], statement by statement *)

Section Startup.
Context {E : External}.

Definition set_worker_address (v : string) (s : state) : state :=
  let 'State ja wa ca wad mad ip jad pad jl pc pt wt ct o pp sp h f bp b mk rp rl ml hl lg
    := s in
  State ja wa ca v mad ip jad pad jl pc pt wt ct o pp sp h f bp b mk rp rl
    ml hl lg.

Definition set_master_address (v : string) (s : state) : state :=
  let 'State ja wa ca wad mad ip jad pad jl pc pt wt ct o pp sp h f bp b mk rp rl ml hl lg
    := s in
  State ja wa ca wad v ip jad pad jl pc pt wt ct o pp sp h f bp b mk rp rl
    ml hl lg.

Definition set_job_ip (v : string) (s : state) : state :=
  let 'State ja wa ca wad mad ip jad pad jl pc pt wt ct o pp sp h f bp b mk rp rl ml hl lg
    := s in
  State ja wa ca wad mad v jad pad jl pc pt wt ct o pp sp h f bp b mk rp rl
    ml hl lg.

Definition set_job_address (v : address) (s : state) : state :=
  let 'State ja wa ca wad mad ip jad pad jl pc pt wt ct o pp sp h f bp b mk rp rl ml hl lg
    := s in
  State ja wa ca wad mad ip v pad jl pc pt wt ct o pp sp h f bp b mk rp rl
    ml hl lg.

Definition set_ping_heartbeat_address (v : address) (s : state) : state :=
  let 'State ja wa ca wad mad ip jad pad jl pc pt wt ct o pp sp h f bp b mk rp rl ml hl lg
    := s in
  State ja wa ca wad mad ip jad v jl pc pt wt ct o pp sp h f bp b mk rp rl
    ml hl lg.

Definition set_job_socket_log (v : list (string * InitializedJob)) (s : state)
  : state :=
  let 'State ja wa ca wad mad ip jad pad jl pc pt wt ct o pp sp h f bp b mk rp rl ml hl lg
    := s in
  State ja wa ca wad mad ip jad pad v pc pt wt ct o pp sp h f bp b mk rp rl
    ml hl lg.

(** The process when [Job(...)] is called: no socket is open, no thread
    exists, nothing has been sent.  The attributes of [self] are shown
    with placeholders, which [__init__] overwrites before it reads them;
    the main thread is shown where it stands once [__init__] has returned
    and [run] is entered. *)
Definition process_start (path0 : list string) (fs0 : filesystem)
  : state :=
  {| job_is_alive := false;
     worker_is_alive := None;
     client_is_alive := None;
     worker_address := "";
     master_address := "";
     job_ip := "";
     job_address := ("", 0);
     ping_heartbeat_address := ("", 0);
     job_socket_log := [];
     main := AtRunLoop;
     ping_thread := NotStarted;
     worker_thread := (NotStarted, 0);
     client_thread := (NotStarted, 0);
     obj := None;
     previous_path := None;
     sys_path := 0;
     heap := {[ 0 := path0 ]};
     fs := fs0;
     bound_ports := ∅;
     binds := 0;
     mkdtemps := 0;
     reply_pending := false;
     request_log := [];
     master_log := [];
     heartbeat_log := [];
     logger := [] |}.

(** [ip] is what [get_ip_address()] returns and [pid] what [os.getpid()]
    returns.  The ping responder is started at once and has nothing to do
    before its loop; the worker responder is started; the client responder
    is created and left for [run] to start.  The announcement goes to the
    worker, whose acknowledgement is awaited. *)
Definition _create_sockets (ip : string) (pid : nat) : M unit :=
  job_port ← bind_to_random_port;
  modify (set_job_ip ip);;
  modify (set_job_address (ip, job_port));;
  '(ping_port, ping_address) ← _create_heartbeat_server;
  modify (set_ping_thread AtLoop);;
  modify (set_ping_heartbeat_address ping_address);;
  '(worker_port, worker_heartbeat_address) ← _create_heartbeat_server;
  modify (set_worker_thread (Starting, worker_port));;
  '(client_port, client_heartbeat_address) ← _create_heartbeat_server;
  modify (set_client_thread (NotStarted, client_port));;
  modify (fun s =>
    let initialized_job :=
      mkInitializedJob (job_address s) (Some worker_heartbeat_address)
        client_heartbeat_address (ping_heartbeat_address s) None (Some pid) in
    set_job_socket_log (job_socket_log s ++ [(NORMAL_TAG, initialized_job)]) s).

Definition __init__ (worker_address master_address ip : string)
    (pid : nat) : M unit :=
  modify (set_job_is_alive true);;
  modify (set_worker_address worker_address);;
  modify (set_master_address master_address);;
  _create_sockets ip pid.

End Startup.

(** A run of CALL requests every one of which returns: the method is
    looked up on the object the previous call left, and the client is sent
    the encoded return value.  [served o calls log o'] relates the object
    before, the requests, what the request endpoint logs for them, and the
    object after. *)
Inductive served {E : External} : Obj -> list message -> list event -> Obj -> Prop :=
| served_nil o : served o [] [] o
| served_cons o m name function_name data args o' ret bytes calls log o'' :
    index m 0 = Ok CALL_TAG ->
    index m 1 = Ok name -> to_str name = Ok function_name ->
    index m 2 = Ok data -> loads_argument data = Ok args ->
    call_method o function_name args = (o', Ok ret) ->
    dumps_return ret = Ok bytes ->
    served o' calls log o'' ->
    served o (m :: calls) (Recv m :: Send [NORMAL_TAG; bytes] :: log) o''.

(** The schedule under which the main thread serves [calls] one after
    the other. *)
Definition serve_calls (calls : list message) : list action :=
  flat_map (fun m => [Main_run; Main_recv m]) calls.

(** The main thread is blocked in [recv_multipart] on the request
    endpoint. *)
Definition receiving (pc : main_pc) : bool :=
  match pc with
  | InWaitForFiles | InWaitForConnection | InSingleTask => true
  | _ => false
  end.

(** The action delivers a message to the request endpoint. *)
Definition is_recv (a : action) : bool :=
  match a with
  | Main_recv _ => true
  | _ => false
  end.

(** What follows when the client and the worker die while the job waits
    for the next call: both heartbeats time out and both responders
    end. *)
Definition client_lost : list action :=
  [ Client_run; Client_timeout; Client_run; Worker_timeout; Worker_run ].

(** * Properties *)

(** ** The loader and the file system *)

Section Loader.

Lemma append_empty (b : string) : "" +:+ b = b.
Proof. reflexivity. Qed.

Lemma append_cons c (a b : string) : String c a +:+ b = String c (a +:+ b).
Proof. reflexivity. Qed.

Lemma string_app_assoc (a b c : string) : (a +:+ b) +:+ c = a +:+ (b +:+ c).
Proof.
  induction a as [|x a IH]; [reflexivity|].
  by rewrite !append_cons, IH.
Qed.

Lemma string_app_nil_r (a : string) : a +:+ "" = a.
Proof.
  induction a as [|x a IH]; [reflexivity|]. by rewrite append_cons, IH.
Qed.

Lemma split_not_nil s : os_path.split s <> [].
Proof.
  destruct s as [|c s]; simpl; [discriminate|].
  destruct (os_path.is_sep c); [discriminate|].
  destruct (os_path.split s); discriminate.
Qed.

Lemma split_app_sep a b :
  os_path.split (a +:+ String "/" b) = os_path.split a ++ os_path.split b.
Proof.
  induction a as [|c a IH]; [reflexivity|].
  rewrite append_cons. simpl.
  destruct (os_path.is_sep c); [by rewrite IH|].
  rewrite IH. pose proof (split_not_nil a) as Hne.
  destruct (os_path.split a); [done|reflexivity].
Qed.

Lemma split_no_sep k : os_path.has_sep k = false -> os_path.split k = [k].
Proof.
  induction k as [|c k IH]; simpl; [reflexivity|].
  intros [Hc Hk]%orb_false_elim. rewrite Hc, (IH Hk). reflexivity.
Qed.

Lemma flat_name_no_sep k : flat_name k = true -> os_path.has_sep k = false.
Proof.
  unfold flat_name. intros H. repeat (apply andb_prop in H as [H _]).
  by apply negb_true_iff.
Qed.

Lemma flat_name_walkable k :
  flat_name k = true ->
  (String.eqb k "" || String.eqb k ".") = false /\ String.eqb k ".." = false.
Proof.
  unfold flat_name. intros H.
  apply andb_prop in H as [H H3]. apply andb_prop in H as [H H2].
  apply andb_prop in H as [_ H1].
  apply negb_true_iff in H1, H2, H3. by rewrite H1, H2, H3.
Qed.

Lemma path_str_snoc p k : path_str (p ++ [k]) = path_str p +:+ String "/" k.
Proof.
  induction p as [|c p IH]; simpl.
  - by rewrite append_cons, append_empty, string_app_nil_r.
  - rewrite IH, !append_cons, append_empty. by rewrite !string_app_assoc.
Qed.

Lemma split_name_path c p :
  flat_name c = true -> Forall (fun k => flat_name k = true) p ->
  os_path.split (c +:+ path_str p) = c :: p.
Proof.
  intros Hc Hp. revert c Hc. induction Hp as [|k p Hk Hp IH]; intros c Hc; simpl.
  - rewrite string_app_nil_r.
    by apply split_no_sep, flat_name_no_sep.
  - rewrite append_cons, append_empty, split_app_sep, (IH k Hk).
    by rewrite (split_no_sep c (flat_name_no_sep c Hc)).
Qed.

Lemma split_path_str p :
  p <> [] -> Forall (fun k => flat_name k = true) p ->
  os_path.split (path_str p) = "" :: p.
Proof.
  destruct p as [|c p]; [done|]. intros _ Hp.
  apply Forall_cons in Hp as [Hc Hp]. simpl.
  by rewrite append_empty, (split_name_path c p Hc Hp).
Qed.

Lemma is_dir_cases fs q : is_dir fs q = true -> q = [] \/ q ∈ fs_dirs fs.
Proof.
  unfold is_dir. intros [H|H]%orb_prop; apply bool_decide_eq_true in H; auto.
Qed.

Lemma is_dir_snoc_false fs q k :
  dirs_closed fs -> is_dir fs q = false -> is_dir fs (q ++ [k]) = false.
Proof.
  intros Hcl Hq. destruct (is_dir fs (q ++ [k])) eqn:Hd; [|done].
  apply is_dir_cases in Hd as [Hd|Hd].
  - by destruct q.
  - apply Hcl in Hd. rewrite removelast_last in Hd. congruence.
Qed.

Lemma is_dir_prefix fs p n :
  dirs_closed fs -> is_dir fs p = true -> is_dir fs (take n p) = true.
Proof.
  intros Hcl. revert n. induction p as [|x q IH] using rev_ind; intros n Hp.
  - by rewrite take_nil.
  - destruct (decide (n <= length q)) as [Hn|Hn].
    + rewrite take_app_le by done. apply IH.
      apply is_dir_cases in Hp as [Hp|Hp]; [by destruct q|].
      apply Hcl in Hp. by rewrite removelast_last in Hp.
    + rewrite take_ge; [done|]. rewrite length_app. simpl. lia.
Qed.

Lemma walk_flat fs comps cur :
  flat_path comps ->
  (forall n, 0 < n <= length comps -> is_dir fs (cur ++ take n comps) = true) ->
  walk fs cur comps = Ok (cur ++ comps).
Proof.
  intros Hflat. revert cur.
  induction Hflat as [|c rest Hc Hrest IH]; intros cur Hdirs; simpl.
  - by rewrite app_nil_r.
  - destruct (flat_name_walkable c Hc) as [-> ->].
    pose proof (Hdirs 1 ltac:(simpl; lia)) as H1. simpl in H1.
    rewrite take_0 in H1. rewrite H1.
    rewrite IH; [by rewrite <- app_assoc|].
    intros n Hn. rewrite <- app_assoc. apply (Hdirs (S n)). simpl. lia.
Qed.

Lemma walk_dir fs p :
  dirs_closed fs -> flat_path p -> is_dir fs p = true -> walk fs [] p = Ok p.
Proof.
  intros Hcl Hflat Hp. rewrite walk_flat; [done|done|].
  intros n _. simpl. by apply is_dir_prefix.
Qed.

Lemma walk_app fs a b cur :
  walk fs cur (a ++ b) = bind (walk fs cur a) (fun c => walk fs c b).
Proof.
  revert cur. induction a as [|c a IH]; intros cur; simpl; [done|].
  repeat case_match; try done; apply IH.
Qed.

Lemma endswith_sep_app (a b : string) :
  b <> "" -> os_path.endswith_sep (a +:+ b) = os_path.endswith_sep b.
Proof.
  intros Hb. induction a as [|x a IH]; [done|].
  rewrite append_cons. simpl. rewrite IH.
  destruct (a +:+ b) eqn:Hab; [|done].
  destruct a; [by rewrite append_empty in Hab|discriminate].
Qed.

Lemma endswith_sep_has_sep k :
  os_path.endswith_sep k = true -> os_path.has_sep k = true.
Proof.
  induction k as [|c k IH]; simpl; [done|].
  destruct k; [by rewrite orb_false_r|].
  intros H. rewrite (IH H). apply orb_true_r.
Qed.

Lemma endswith_sep_path_str p :
  flat_path p -> os_path.endswith_sep (path_str p) = false.
Proof.
  induction p as [|x q _] using rev_ind; [done|].
  intros [_ Hx]%Forall_app. apply Forall_cons in Hx as [Hx _].
  rewrite path_str_snoc, endswith_sep_app by done.
  simpl. destruct x as [|a x]; [done|].
  destruct (os_path.endswith_sep (String a x)) eqn:He; [|done].
  apply endswith_sep_has_sep in He.
  by rewrite (flat_name_no_sep _ Hx) in He.
Qed.

Lemma join_scratch p k :
  p <> [] -> flat_path p -> os_path.startswith_sep k = false ->
  os_path.join (path_str p) k = path_str p +:+ String "/" k.
Proof.
  intros Hp Hflat Hk. unfold os_path.join. rewrite Hk.
  rewrite (endswith_sep_path_str p Hflat).
  destruct p as [|c p]; [done|]. simpl. reflexivity.
Qed.

Lemma flat_name_not_abs k : flat_name k = true -> os_path.startswith_sep k = false.
Proof.
  intros Hk%flat_name_no_sep. destruct k as [|c k]; [done|]. simpl in *.
  by apply orb_false_elim in Hk as [-> _].
Qed.

Lemma rstrip_sep_snoc l k : k <> "" -> rstrip_sep (l ++ [k]) = l ++ [k].
Proof.
  intros Hk. induction l as [|c l IH]; simpl.
  - by destruct (String.eqb_spec k "").
  - rewrite IH. by destruct l.
Qed.

Lemma rstrip_sep_app a b :
  rstrip_sep (a ++ b)
  = match rstrip_sep b with [] => rstrip_sep a | b' => a ++ b' end.
Proof.
  induction a as [|c a IH]; simpl.
  - by destruct (rstrip_sep b).
  - rewrite IH. destruct (rstrip_sep b) as [|x b']; [done|].
    by destruct a.
Qed.

Lemma rstrip_sep_split f :
  only_seps f = true /\ rstrip_sep (os_path.split f) = []
  \/ only_seps f = false /\ rstrip_sep (os_path.split f) <> [].
Proof.
  induction f as [|c f IH]; simpl; [by left|].
  destruct (os_path.is_sep c); simpl.
  - destruct IH as [[-> ->]|[-> Hne]]; [by left|right].
    split; [done|]. by destruct (rstrip_sep (os_path.split f)).
  - right. split; [done|].
    pose proof (split_not_nil f) as Hs.
    destruct (os_path.split f) as [|h t]; [done|]. simpl.
    by destruct (rstrip_sep t).
Qed.

Lemma flat_name_not_empty k : flat_name k = true -> k <> "".
Proof. by intros Hk ->. Qed.

Lemma path_str_not_empty p (b : string) :
  p <> [] -> String.eqb (path_str p +:+ b) "" = false.
Proof. by destruct p. Qed.

Lemma open_wb_write_flat fs p k data :
  dirs_closed fs -> p <> [] -> flat_path p -> is_dir fs p = true ->
  is_dir fs (p ++ [k]) = false -> flat_name k = true ->
  open_wb_write fs (os_path.join (path_str p) k) data
  = Ok (Filesystem (fs_dirs fs) (<[p ++ [k] := data]> (fs_files fs))).
Proof.
  intros Hcl Hne Hflat Hp Hfree Hk. unfold open_wb_write.
  rewrite join_scratch by auto using flat_name_not_abs.
  rewrite path_str_not_empty by done.
  rewrite <- path_str_snoc.
  rewrite split_path_str; [|by destruct p|by apply Forall_app; split; [|constructor]].
  change ("" :: p ++ [k]) with (("" :: p) ++ [k]).
  rewrite rstrip_sep_snoc by (by apply flat_name_not_empty).
  rewrite removelast_last, last_last, Nat.eqb_refl. simpl.
  rewrite walk_dir by done. simpl. by rewrite Hk, Hfree.
Qed.

Lemma write_pyfiles_flat p pyfiles fs :
  dirs_closed fs -> p <> [] -> flat_path p -> is_dir fs p = true ->
  (forall k, is_dir fs (p ++ [k]) = false) ->
  Forall (fun kc => flat_name kc.1 = true) pyfiles ->
  write_pyfiles fs (path_str p) pyfiles
  = (Filesystem (fs_dirs fs) (written p pyfiles (fs_files fs)), Ok tt).
Proof.
  intros Hcl Hne Hflat Hp Hfree Hkeys. revert fs Hcl Hp Hfree.
  induction Hkeys as [|[k code] rest Hk Hrest IH]; intros fs Hcl Hp Hfree; simpl.
  - by destruct fs.
  - rewrite open_wb_write_flat by auto.
    by rewrite IH.
Qed.

Lemma write_pyfiles_dirs envdir pyfiles fs :
  fs_dirs (write_pyfiles fs envdir pyfiles).1 = fs_dirs fs.
Proof.
  revert fs. induction pyfiles as [|[k code] rest IH]; intros fs; simpl; [done|].
  destruct (open_wb_write fs (os_path.join envdir k) code) as [fs'|e] eqn:Hw; [|done].
  rewrite IH. unfold open_wb_write, bind in Hw.
  repeat case_match; simplify_eq; done.
Qed.

Lemma mkdtemp_fresh fs tmp :
  is_dir fs (removelast tmp) = true -> is_dir fs tmp = false ->
  is_file fs tmp = false ->
  mkdtemp fs tmp = Ok (Filesystem ({[tmp]} ∪ fs_dirs fs) (fs_files fs), path_str tmp).
Proof. intros H1 H2 H3. unfold mkdtemp. by rewrite H1, H2, H3. Qed.

Lemma is_dir_mkdir fs tmp q :
  is_dir (Filesystem ({[tmp]} ∪ fs_dirs fs) (fs_files fs)) q
  = bool_decide (q = tmp) || is_dir fs q.
Proof.
  unfold is_dir. simpl. apply eq_true_iff_eq.
  rewrite !orb_true_iff, !bool_decide_eq_true, elem_of_union, elem_of_singleton.
  tauto.
Qed.

Lemma dirs_closed_mkdir fs tmp :
  dirs_closed fs -> is_dir fs (removelast tmp) = true ->
  dirs_closed (Filesystem ({[tmp]} ∪ fs_dirs fs) (fs_files fs)).
Proof.
  intros Hcl Hpar q Hq. rewrite is_dir_mkdir. apply orb_true_iff. right.
  simpl in Hq. apply elem_of_union in Hq as [->%elem_of_singleton|Hq]; auto.
Qed.

Lemma scratch_is_empty fs tmp k :
  dirs_closed fs -> tmp <> [] -> is_dir fs tmp = false ->
  is_dir (Filesystem ({[tmp]} ∪ fs_dirs fs) (fs_files fs)) (tmp ++ [k]) = false.
Proof.
  intros Hcl Hne Hfresh. rewrite is_dir_mkdir.
  rewrite (is_dir_snoc_false fs tmp k Hcl Hfresh), orb_false_r.
  apply bool_decide_eq_false. intros Heq.
  apply (f_equal length) in Heq. rewrite length_app in Heq. simpl in Heq. lia.
Qed.

Lemma load_bundle_flat fs tmp pyfiles :
  dirs_closed fs -> tmp <> [] -> flat_path tmp ->
  is_dir fs (removelast tmp) = true ->
  is_dir fs tmp = false -> is_file fs tmp = false ->
  Forall (fun kc => flat_name kc.1 = true) pyfiles ->
  load_bundle fs tmp pyfiles
  = (Filesystem ({[tmp]} ∪ fs_dirs fs) (written tmp pyfiles (fs_files fs)),
     Ok (path_str tmp)).
Proof.
  intros Hcl Hne Hflat Hpar Hfresh Hnofile Hkeys. unfold load_bundle.
  rewrite mkdtemp_fresh by done.
  rewrite write_pyfiles_flat; auto using dirs_closed_mkdir, scratch_is_empty.
  rewrite is_dir_mkdir. by rewrite bool_decide_eq_true_2.
Qed.

Lemma open_wb_write_subdir fs p d f data :
  dirs_closed fs -> p <> [] -> flat_path p -> is_dir fs p = true ->
  is_dir fs (p ++ [d]) = false -> is_file fs (p ++ [d]) = false ->
  flat_name d = true ->
  open_wb_write fs (os_path.join (path_str p) (d +:+ String "/" f)) data
  = raise_ (if only_seps f then IsADirectoryError else FileNotFoundError).
Proof.
  intros Hcl Hne Hflat Hp Hnodir Hnofile Hd. unfold open_wb_write.
  rewrite join_scratch; auto.
  2:{ pose proof (flat_name_not_abs d Hd). destruct d; [done|].
      by rewrite append_cons. }
  rewrite path_str_not_empty by done.
  rewrite <- (append_cons "/" d).
  rewrite <- string_app_assoc, <- path_str_snoc, split_app_sep.
  rewrite split_path_str; [|by destruct p|by apply Forall_app; split; [|constructor]].
  change ("" :: p ++ [d]) with (("" :: p) ++ [d]).
  rewrite rstrip_sep_app.
  destruct (rstrip_sep_split f) as [[-> ->]|[-> Hrest]].
  - rewrite rstrip_sep_snoc by (by apply flat_name_not_empty).
    rewrite removelast_last, last_last. simpl.
    rewrite walk_dir by done. simpl. rewrite Hd. simpl.
    rewrite !length_app.
    pose proof (split_not_nil f) as Hs.
    destruct (os_path.split f) as [|h t]; [done|]. simpl.
    by rewrite (proj2 (Nat.eqb_neq _ _)) by lia.
  - destruct (rstrip_sep (os_path.split f)) as [|x rest]; [done|].
    rewrite removelast_app by done.
    rewrite <- !app_assoc, walk_app. simpl.
    rewrite walk_dir by done. simpl.
    destruct (flat_name_walkable d Hd) as [-> ->].
    by rewrite Hnodir, Hnofile.
Qed.

Lemma load_bundle_subdir fs tmp d f code rest :
  dirs_closed fs -> files_closed fs -> tmp <> [] -> flat_path tmp ->
  is_dir fs (removelast tmp) = true ->
  is_dir fs tmp = false -> is_file fs tmp = false ->
  flat_name d = true ->
  (load_bundle fs tmp ((d +:+ String "/" f, code) :: rest)).2
  = raise_ (if only_seps f then IsADirectoryError else FileNotFoundError).
Proof.
  intros Hcl Hfcl Hne Hflat Hpar Hfresh Hnofile Hd. unfold load_bundle.
  rewrite mkdtemp_fresh by done. simpl.
  rewrite open_wb_write_subdir; auto using dirs_closed_mkdir, scratch_is_empty.
  - rewrite is_dir_mkdir. by rewrite bool_decide_eq_true_2.
  - unfold is_file. simpl. destruct (is_file fs (tmp ++ [d])) eqn:Hf; [|done].
    apply Hfcl in Hf. rewrite removelast_last in Hf. congruence.
Qed.

End Loader.

(** ** Relations that the handlers preserve *)

Section Relations.
Context {E : External}.

#[global] Instance same_preorder {A} (f : state -> A) : PreOrder (same f).
Proof.
  split; [intros s; exact eq_refl|].
  intros s1 s2 s3 H12 H23. unfold same in *. congruence.
Qed.

#[global] Instance grows_preorder : PreOrder grows.
Proof.
  split; [intros s; unfold grows; reflexivity|].
  intros s1 s2 s3 H12 H23. unfold grows in *. by etrans.
Qed.

Section Preserved.
Context (R : relation state) `{!PreOrder R}.

Lemma preserved_ret {B} (b : B) : preserved R (mret b).
Proof. intros s. reflexivity. Qed.

Lemma preserved_bind {B C} (c : M B) (k : B -> M C) :
  preserved R c -> (forall b, preserved R (k b)) -> preserved R (c ≫= k).
Proof.
  intros Hc Hk s. unfold mbind, M_bind. specialize (Hc s).
  destruct (c s) as [s1 [b|e]]; simpl in *; [|done].
  etrans; [exact Hc|apply Hk].
Qed.

Lemma preserved_try_except {B} (c : M B) (h : exc -> M B) :
  preserved R c -> (forall e, preserved R (h e)) -> preserved R (try_except c h).
Proof.
  intros Hc Hh s. unfold try_except. specialize (Hc s).
  destruct (c s) as [s1 [b|e]]; simpl in *; [done|].
  etrans; [exact Hc|apply Hh].
Qed.

Lemma preserved_lift {B} (r : result B) : preserved R (lift r).
Proof. intros s. reflexivity. Qed.

Lemma preserved_raise {B} c : preserved R (raise (A := B) c).
Proof. intros s. reflexivity. Qed.

Lemma preserved_modify (g : state -> state) :
  (forall s, R s (g s)) -> preserved R (modify g).
Proof. intros Hg s. apply Hg. Qed.

End Preserved.

End Relations.

(** Closes the leaves of a handler: primitive operations, by computation
    on the fields of the state. *)
Ltac leaf :=
  intros []; unfold same, grows; simpl; repeat case_match; simpl;
  first [ reflexivity | by apply prefix_app_r ].

(** Splits a handler along its binds and branches. *)
Ltac frame :=
  unfold unchanged;
  repeat first
    [ apply preserved_bind; [apply _| |intros ?]
    | apply preserved_try_except; [apply _| |intros ?]
    | apply preserved_ret; apply _
    | apply preserved_lift; apply _
    | apply preserved_raise; apply _
    | apply preserved_modify; leaf
    | match goal with
      | |- preserved _ (if ?b then _ else _) => destruct b
      | |- preserved _ (match ?x with _ => _ end) => destruct x
      end ];
  try leaf.

Ltac prims :=
  unfold reply_socket_recv, reply_socket_send, materialize, invoke,
    assert_obj_is_not_None, bind_to_random_port, client_thread_start,
    assign_sys_path_previous_path, logger_error, logger_warning,
    set_client_alive.

Ltac thread_steps s H :=
  unfold ping_run, ping_probe, worker_run, worker_probe, worker_timeout,
    client_run, client_probe, client_timeout, heartbeat_reply, socket_close in H;
  destruct s; simpl in H; repeat case_match; simplify_eq; simpl.

(** ** Frame lemmas for the handlers *)

Section Frame.
Context {E : External}.

Lemma kept_wait_for_files m : unchanged kept (wait_for_files m).
Proof. unfold wait_for_files. frame; prims; frame. Qed.

Lemma kept_wait_for_connection m : unchanged kept (wait_for_connection m).
Proof. unfold wait_for_connection. frame; prims; frame. Qed.

Lemma kept_call_body o m : unchanged kept (call_body o m).
Proof. unfold call_body. frame; prims; frame. Qed.

Lemma kept_single_task_body m : unchanged kept (single_task_body m).
Proof.
  unfold single_task_body. frame; try apply kept_call_body; prims; frame.
Qed.

Lemma kept_run_receive_files m : unchanged kept (run_receive_files m).
Proof.
  unfold run_receive_files. frame; try apply kept_wait_for_files; prims; frame.
Qed.

Lemma kept_run_connect m : unchanged kept (run_connect m).
Proof.
  unfold run_connect. frame; try apply kept_wait_for_connection; prims; frame.
Qed.

Lemma kept_run_after_try caught : unchanged kept (run_after_try caught).
Proof. unfold run_after_try, run_except, run_restore. frame; prims; frame. Qed.

Lemma kept_single_task_test : unchanged kept single_task_test.
Proof. unfold single_task_test. frame. Qed.

Lemma attrs_run_reset : unchanged attrs run_reset.
Proof.
  unfold run_reset, _create_heartbeat_server. intros []. prims.
  unfold mbind, M_bind, mret, M_ret, modify, same. simpl.
  by destruct (bool_decide _).
Qed.

Lemma grows_wait_for_files m : preserved grows (wait_for_files m).
Proof. unfold wait_for_files. frame; prims; frame. Qed.

Lemma grows_wait_for_connection m : preserved grows (wait_for_connection m).
Proof. unfold wait_for_connection. frame; prims; frame. Qed.

Lemma grows_call_body o m : preserved grows (call_body o m).
Proof. unfold call_body. frame; prims; frame. Qed.

Lemma grows_single_task_body m : preserved grows (single_task_body m).
Proof.
  unfold single_task_body. frame; try apply grows_call_body; prims; frame.
Qed.

Lemma grows_run_receive_files m : preserved grows (run_receive_files m).
Proof.
  unfold run_receive_files. frame; try apply grows_wait_for_files; prims; frame.
Qed.

Lemma grows_run_connect m : preserved grows (run_connect m).
Proof.
  unfold run_connect. frame; try apply grows_wait_for_connection; prims; frame.
Qed.

Lemma grows_run_after_try caught : preserved grows (run_after_try caught).
Proof. unfold run_after_try, run_except, run_restore. frame; prims; frame. Qed.

Lemma grows_single_task_test : preserved grows single_task_test.
Proof. unfold single_task_test. frame. Qed.

Lemma kept_inv s s' :
  kept s' = kept s ->
  attrs s' = attrs s /\ master_log s' = master_log s /\ binds s' = binds s.
Proof.
  unfold kept. intros H.
  exact (conj (f_equal (fun x => x.1.1) H)
           (conj (f_equal (fun x => x.1.2) H) (f_equal snd H))).
Qed.

Lemma attrs_config s s' : attrs s' = attrs s -> config s' = config s.
Proof. unfold attrs, config. intros [= _ _ -> -> -> -> -> -> _ _ _]. done. Qed.

Lemma attrs_job_is_alive s s' : attrs s' = attrs s -> job_is_alive s' = job_is_alive s.
Proof. unfold attrs. by intros [= -> _ _ _ _ _ _ _ _ _ _]. Qed.

Lemma leave_kept c next : kept (leave c next) = kept c.1.
Proof. by destruct c as [[] [[]|e]]. Qed.

Lemma leave_attrs c next : attrs (leave c next) = attrs c.1.
Proof. by destruct c as [[] [[]|e]]. Qed.

Lemma leave_request_log c next : request_log (leave c next) = request_log c.1.
Proof. by destruct c as [[] [[]|e]]. Qed.

Lemma leave_reply_pending c next :
  reply_pending (leave c next) = reply_pending c.1.
Proof. by destruct c as [[] [[]|e]]. Qed.

Lemma leave_main c next :
  main (leave c next) = match c.2 with Ok _ => next | Raise e => Uncaught e end.
Proof. by destruct c as [[] [[]|e]]. Qed.

Lemma end_of_session_kept s1 caught : kept (end_of_session s1 caught) = kept s1.
Proof.
  unfold end_of_session. rewrite leave_kept. apply kept_run_after_try.
Qed.

Lemma end_of_session_main s1 caught :
  main (end_of_session s1 caught) = AtJoin
  \/ exists e, main (end_of_session s1 caught) = Uncaught e.
Proof.
  unfold end_of_session. rewrite leave_main.
  destruct (run_after_try caught s1).2; eauto.
Qed.

Lemma kept_set_main v s : kept (set_main v s) = kept s.
Proof. by destruct s. Qed.

Lemma main_set_main v s : main (set_main v s) = v.
Proof. by destruct s. Qed.

Lemma request_log_set_main v s : request_log (set_main v s) = request_log s.
Proof. by destruct s. Qed.

Lemma reply_socket_call_state s : (reply_socket_call s).1 = s.
Proof. unfold reply_socket_call. by destruct (reply_pending s). Qed.

(** What a step from the head of a loop comes to. *)
Lemma main_run_shape s s' :
  main_run s = Some s' ->
  (main s = AtRunLoop /\ job_is_alive s = false /\ s' = set_main Returned s)
  \/ (main s = AtRunLoop /\ job_is_alive s = true /\ reply_pending s = false
      /\ s' = set_main InWaitForFiles s)
  \/ (main s = AtRunLoop /\ job_is_alive s = true /\ reply_pending s = true
      /\ s' = set_main (Uncaught (Exc ZMQError "" "")) s)
  \/ (main s = AtTaskLoop /\ reply_pending s = false
      /\ s' = set_main InSingleTask s)
  \/ (main s = AtTaskLoop /\ exists caught, s' = end_of_session s caught).
Proof.
  unfold main_run, single_task_test, reply_socket_call, leave, raise_.
  destruct (main s); try done.
  - destruct (job_is_alive s); [|intros [= <-]; by left].
    destruct (reply_pending s); intros [= <-];
      [right; right; left|right; left]; done.
  - destruct (job_is_alive s); [|intros [= <-]; do 4 right; eauto].
    destruct (client_is_alive s) as [[]|]; [|intros [= <-]; do 4 right; eauto..].
    destruct (reply_pending s); intros [= <-];
      [do 4 right; eauto|do 3 right; left; done].
Qed.

Lemma main_run_state s s' :
  main_run s = Some s' ->
  (exists v, s' = set_main v s) \/ (exists caught, s' = end_of_session s caught).
Proof.
  intros [(_ & _ & ->)|[(_ & _ & _ & ->)|[(_ & _ & _ & ->)
         |[(_ & _ & ->)|(_ & caught & ->)]]]]%main_run_shape; eauto.
Qed.

(** One step of the main thread, the reset apart, keeps the attributes,
    sends nothing to the master and binds no endpoint. *)
Lemma main_step_kept s a s' :
  step s a = Some s' -> is_main a = true -> a <> Main_join -> kept s' = kept s.
Proof.
  unfold step. destruct (running s); [|done].
  destruct a; try done; intros Hstep _ _.
  - apply main_run_state in Hstep as [[v ->]|[caught ->]];
      by rewrite ?end_of_session_kept, ?kept_set_main.
  - unfold main_recv in Hstep. destruct (main s); try done.
    + injection Hstep as <-. rewrite leave_kept. apply kept_run_receive_files.
    + pose proof (kept_run_connect m s) as Ht.
      destruct (run_connect m s) as [s1 [[]|e]]; injection Hstep as <-;
        rewrite ?end_of_session_kept, ?kept_set_main; exact Ht.
    + pose proof (kept_single_task_body m s) as Ht.
      destruct (single_task_body m s) as [s1 [[]|e]]; injection Hstep as <-;
        rewrite ?end_of_session_kept, ?kept_set_main; exact Ht.
  - unfold main_ack in Hstep. destruct (main s); try done.
    injection Hstep as <-. apply kept_set_main.
Qed.

Lemma run_reset_spec s :
  (exists s', run_reset s = (s', Ok tt)
     /\ (random_port (binds s) ∉ bound_ports s)
     /\ master_log s' = master_log s ++ [reset_announcement s]
     /\ (request_log s' = request_log s /\ reply_pending s' = reply_pending s)
     /\ client_thread s' = (NotStarted, random_port (binds s))
     /\ bound_ports s' = {[random_port (binds s)]} ∪ bound_ports s
     /\ binds s' = S (binds s))
  \/ (exists s', run_reset s = (s', raise_ ZMQBindError)
     /\ (random_port (binds s) ∈ bound_ports s)
     /\ master_log s' = master_log s
     /\ (request_log s' = request_log s /\ reply_pending s' = reply_pending s)
     /\ binds s' = S (binds s)).
Proof.
  unfold run_reset, _create_heartbeat_server, bind_to_random_port.
  unfold mbind, M_bind, mret, M_ret, modify, reset_announcement.
  destruct s. simpl.
  destruct (bool_decide (random_port _ ∈ _)) eqn:Hb.
  - right. apply bool_decide_eq_true in Hb. eauto 10.
  - left. apply bool_decide_eq_false in Hb. eauto 12.
Qed.

(** The reset sends one announcement, or dies binding the new endpoint. *)
Lemma step_join s s' :
  step s Main_join = Some s' ->
  main s = AtJoin /\ attrs s' = attrs s
  /\ (request_log s' = request_log s /\ reply_pending s' = reply_pending s)
  /\ ((main s' = AwaitMaster
       /\ master_log s' = master_log s ++ [reset_announcement s]
       /\ (random_port (binds s) ∉ bound_ports s)
       /\ client_thread s' = (NotStarted, random_port (binds s))
       /\ bound_ports s' = {[random_port (binds s)]} ∪ bound_ports s
       /\ binds s' = S (binds s))
      \/ (exists e, main s' = Uncaught e /\ master_log s' = master_log s)).
Proof.
  unfold step. destruct (running s); [|done]. unfold main_join.
  destruct (main s); try done. destruct (client_thread s) as [[] port]; try done;
    intros [= <-]; split; try done.
  - destruct s; simpl. repeat split; try done. right. eauto.
  - rewrite leave_attrs, leave_request_log, leave_reply_pending, leave_main.
    split; [apply attrs_run_reset|].
    destruct (run_reset_spec s) as [(s1 & Hr & Hp & Hl & Hq & Hc & Hb & Hn)
                                   |(s1 & Hr & _ & Hl & Hq & _)];
      rewrite Hr; simpl; (split; [done|]).
    + left. by destruct s1.
    + right. eexists. split; [done|]. by destruct s1.
Qed.

Lemma main_step_attrs s a s' :
  step s a = Some s' -> is_main a = true -> attrs s' = attrs s.
Proof.
  intros Hstep Hm. destruct a; try done.
  3: by apply step_join in Hstep as (_ & ? & _).
  all: by apply main_step_kept, kept_inv in Hstep as (? & _).
Qed.

(** A responder touches neither the main thread nor its sockets. *)
Lemma thread_step_main s a s' :
  step s a = Some s' -> is_main a = false ->
  main s' = main s /\ master_log s' = master_log s
  /\ request_log s' = request_log s /\ binds s' = binds s
  /\ config s' = config s /\ reply_pending s' = reply_pending s.
Proof.
  unfold step. destruct (running s); [|done].
  destruct a; try done; simpl; intros Hstep _; thread_steps s Hstep; done.
Qed.

Lemma step_config s a s' : step s a = Some s' -> config s' = config s.
Proof.
  intros Hstep. destruct (is_main a) eqn:Hm.
  - by apply attrs_config, (main_step_attrs s a).
  - by apply thread_step_main in Hstep as (_ & _ & _ & _ & ? & _).
Qed.

(** Only the reset writes to the master. *)
Lemma step_master_log s a s' :
  step s a = Some s' -> a <> Main_join -> master_log s' = master_log s.
Proof.
  intros Hstep Ha. destruct (is_main a) eqn:Hm.
  - by apply main_step_kept, kept_inv in Hstep as (_ & ? & _).
  - by apply thread_step_main in Hstep as (_ & ? & _).
Qed.

Lemma step_binds s a s' :
  step s a = Some s' -> a <> Main_join -> binds s' = binds s.
Proof.
  intros Hstep Ha. destruct (is_main a) eqn:Hm.
  - by apply main_step_kept, kept_inv in Hstep as (_ & _ & ?).
  - by apply thread_step_main in Hstep as (_ & _ & _ & ? & _).
Qed.

Lemma step_job_is_alive s a s' :
  step s a = Some s' ->
  job_is_alive s' = job_is_alive s \/ job_is_alive s' = false.
Proof.
  intros Hstep. destruct (is_main a) eqn:Ha.
  - left. by apply attrs_job_is_alive, (main_step_attrs s a).
  - unfold step in Hstep. destruct (running s); [|done].
    destruct a; try done; simpl in Hstep; thread_steps s Hstep; auto.
Qed.

(** The worker responder's timeout is the one write after [__init__]. *)
Lemma step_job_is_alive_write s a s' :
  step s a = Some s' ->
  (a = Worker_timeout /\ job_is_alive s' = false)
  \/ (a <> Worker_timeout /\ job_is_alive s' = job_is_alive s).
Proof.
  intros Hstep. destruct (is_main a) eqn:Ha.
  - right. split; [by destruct a|].
    by apply attrs_job_is_alive, (main_step_attrs s a).
  - unfold step in Hstep. destruct (running s); [|done].
    destruct a; try done; simpl in Hstep; thread_steps s Hstep; auto.
Qed.

Lemma exec_job_is_alive_false s tr s' :
  exec s tr = Some s' -> job_is_alive s = false -> job_is_alive s' = false.
Proof.
  revert s. induction tr as [|a tr IH]; intros s; simpl.
  - by intros [= ->].
  - destruct (step s a) as [s1|] eqn:Hstep; [|done]. intros Hex Hs.
    apply (IH s1 Hex). destruct (step_job_is_alive s a s1 Hstep); congruence.
Qed.

Lemma step_resets_ahead s a s' :
  step s a = Some s' -> job_is_alive s = false ->
  length (master_log s') + resets_ahead s'
  <= length (master_log s) + resets_ahead s.
Proof.
  intros Hstep Hdead. destruct (is_main a) eqn:Hm.
  2:{ apply thread_step_main in Hstep as (Hmain & -> & _); [|done].
      unfold resets_ahead. by rewrite Hmain. }
  destruct a; try done.
  3:{ apply step_join in Hstep
        as (Hat & _ & _ & [(Hm' & -> & _)|(e & Hm' & ->)]);
      unfold resets_ahead; rewrite Hat, Hm'; rewrite ?length_app; simpl; lia. }
  all: rewrite (step_master_log s _ s' Hstep) by done.
  all: apply Nat.add_le_mono_l.
  all: unfold step in Hstep; destruct (running s); [|done].
  all: unfold resets_ahead.
  - apply main_run_shape in Hstep
      as [(-> & _ & ->)|[(_ & ? & _)|[(_ & ? & _)
         |[(-> & _ & ->)|(-> & caught & ->)]]]];
      try congruence; rewrite ?main_set_main; try lia.
    destruct (end_of_session_main s caught) as [->|[? ->]]; lia.
  - unfold main_recv in Hstep.
    destruct (main s); try done.
    + injection Hstep as <-. rewrite leave_main. case_match; lia.
    + destruct (run_connect m s) as [s1 [[]|e]]; injection Hstep as <-;
        [rewrite main_set_main; lia|].
      destruct (end_of_session_main s1 (Some e)) as [->|[? ->]]; lia.
    + destruct (single_task_body m s) as [s1 [[]|e]]; injection Hstep as <-;
        [rewrite main_set_main; lia|].
      destruct (end_of_session_main s1 (Some e)) as [->|[? ->]]; lia.
  - unfold main_ack in Hstep. destruct (main s); try done.
    injection Hstep as <-. rewrite main_set_main. lia.
Qed.

Lemma exec_resets_ahead s tr s' :
  exec s tr = Some s' -> job_is_alive s = false ->
  length (master_log s') + resets_ahead s'
  <= length (master_log s) + resets_ahead s.
Proof.
  revert s. induction tr as [|a tr IH]; intros s; simpl.
  - by intros [= ->].
  - destruct (step s a) as [s1|] eqn:Hstep; [|done]. intros Hex Hdead.
    pose proof (step_resets_ahead s a s1 Hstep Hdead).
    assert (job_is_alive s1 = false) as Hdead1
      by (destruct (step_job_is_alive s a s1 Hstep); congruence).
    pose proof (IH s1 Hex Hdead1). lia.
Qed.

(** Once [run] has returned or died, nothing happens any more. *)
Lemma step_not_running s a : running s = false -> step s a = None.
Proof. unfold step. by intros ->. Qed.

Lemma end_of_session_request_log s1 caught :
  request_log s1 `prefix_of` request_log (end_of_session s1 caught).
Proof.
  unfold end_of_session. rewrite leave_request_log. apply grows_run_after_try.
Qed.

(** The log of the request endpoint is only ever appended to. *)
Lemma step_request_log_grows s a s' :
  step s a = Some s' -> request_log s `prefix_of` request_log s'.
Proof.
  intros Hstep. destruct (is_main a) eqn:Hm.
  2:{ by apply thread_step_main in Hstep as (_ & _ & -> & _). }
  destruct a; try done.
  3:{ by apply step_join in Hstep as (_ & _ & [-> _] & _). }
  all: unfold step in Hstep; destruct (running s); [|done].
  - apply main_run_state in Hstep as [[v ->]|[caught ->]];
      [by rewrite request_log_set_main|apply end_of_session_request_log].
  - unfold main_recv in Hstep. destruct (main s); try done.
    + injection Hstep as <-. rewrite leave_request_log.
      apply grows_run_receive_files.
    + pose proof (grows_run_connect m s) as Ht.
      destruct (run_connect m s) as [s1 [[]|e]]; injection Hstep as <-;
        rewrite ?request_log_set_main; try exact Ht;
        (etrans; [exact Ht|apply end_of_session_request_log]).
    + pose proof (grows_single_task_body m s) as Ht.
      destruct (single_task_body m s) as [s1 [[]|e]]; injection Hstep as <-;
        rewrite ?request_log_set_main; try exact Ht;
        (etrans; [exact Ht|apply end_of_session_request_log]).
  - unfold main_ack in Hstep. destruct (main s); try done.
    injection Hstep as <-. by rewrite request_log_set_main.
Qed.

Lemma exec_request_log_grows s tr s' :
  exec s tr = Some s' -> request_log s `prefix_of` request_log s'.
Proof.
  revert s. induction tr as [|a tr IH]; intros s; simpl.
  - by intros [= ->].
  - destruct (step s a) as [s1|] eqn:Hstep; [|done]. intros Hex.
    etrans; [by apply (step_request_log_grows s a)|by apply IH].
Qed.

(** While the main thread is blocked in a receive, only the delivery of
    a message is a step of its own. *)
Lemma step_receiving s a s' :
  step s a = Some s' -> receiving (main s) = true -> is_recv a = false ->
  is_main a = false.
Proof.
  intros Hstep Hrecv Ha. destruct a; try done; unfold step in Hstep;
    destruct (running s); try done;
    unfold main_run, main_join, main_ack in Hstep;
    by destruct (main s).
Qed.

Lemma exec_receiving s tr s' :
  exec s tr = Some s' -> receiving (main s) = true ->
  Forall (fun a => is_recv a = false) tr ->
  main s' = main s /\ master_log s' = master_log s.
Proof.
  intros Hex Hrecv Htr. revert s Hex Hrecv.
  induction Htr as [|a tr Ha Htr IH]; intros s; simpl.
  - by intros [= ->].
  - destruct (step s a) as [s1|] eqn:Hstep; [|done]. intros Hex Hrecv.
    pose proof (step_receiving s a s1 Hstep Hrecv Ha) as Hm.
    apply thread_step_main in Hstep as (Hmain & Hmaster & _); [|done].
    destruct (IH s1 Hex) as [Hmain' Hmaster']; [congruence|].
    split; congruence.
Qed.

End Frame.

(** ** The announcements *)

Section Announcements.
Context {E : External}.

Lemma step_running s a s' : step s a = Some s' -> running s = true.
Proof. unfold step. by destruct (running s). Qed.

Lemma step_announcements_inv ip s a s' :
  step s a = Some s' -> announcements_inv ip s -> announcements_inv ip s'.
Proof.
  intros Hstep (Hip & Hjob & Hping & Hbinds & Hlog).
  pose proof (step_config s a s' Hstep) as Hcfg.
  pose proof (step_running s a s' Hstep) as Hrun.
  unfold config in Hcfg. injection Hcfg as _ _ Hip' Hjob' Hping' _.
  unfold announcements_inv. rewrite Hip', Hjob', Hping'.
  do 3 (split; [done|]).
  destruct a;
    try (rewrite (step_master_log s _ s' Hstep), (step_binds s _ s' Hstep) by done;
         by auto).
  apply step_join in Hstep
    as (_ & _ & _ & [(Hm & Hl & _ & _ & _ & Hb)|(e & Hm & Hl)]).
  - rewrite Hl, Hb, length_app. simpl. split; [intros _; rewrite Hbinds by done; lia|].
    rewrite Nat.add_1_r, seq_S, map_app. simpl. rewrite <- Hlog.
    f_equal. unfold reset_announcement, announced.
    by rewrite Hip, Hjob, Hping, Hbinds.
  - rewrite Hl. split; [|done]. unfold running. by rewrite Hm.
Qed.

Lemma exec_announcements_inv ip s tr s' :
  exec s tr = Some s' -> announcements_inv ip s -> announcements_inv ip s'.
Proof.
  revert s. induction tr as [|a tr IH]; intros s; simpl.
  - by intros [= ->].
  - destruct (step s a) as [s1|] eqn:Hstep; [|done]. intros Hex Hinv.
    eauto using step_announcements_inv.
Qed.

Lemma Job_new_announcements_inv wa ma ip pid path0 fs0 :
  announcements_inv ip (Job_new wa ma ip pid path0 fs0).
Proof. by repeat split. Qed.

Lemma boot_exec wa ma ip pid path0 fs0 tr s :
  boot wa ma ip pid path0 fs0 tr = Some s ->
  exec (Job_new wa ma ip pid path0 fs0) tr = Some s.
Proof.
  unfold boot, Job_init, raise_. by destruct (bool_decide _).
Qed.

Lemma exec_config s tr s' : exec s tr = Some s' -> config s' = config s.
Proof.
  revert s. induction tr as [|a tr IH]; intros s; simpl.
  - by intros [= ->].
  - destruct (step s a) as [s1|] eqn:Hstep; [|done]. intros Hex.
    rewrite (IH s1 Hex). by apply (step_config s a).
Qed.

End Announcements.

(** ** Sessions *)

(** Unfold the monad and the primitive operations, and the end of a
    session, so that a handler computes on the fields of the state. *)
Ltac run_M :=
  unfold mbind, M_bind, mret, M_ret, lift, modify, raise, try_except,
    logger_error, logger_warning, reply_socket_send, reply_socket_recv,
    set_client_alive, assert_obj_is_not_None.

Ltac run_end :=
  unfold end_of_session, run_after_try, run_except, run_restore,
    assign_sys_path_previous_path, leave.

Section Sessions.
Context {E : External}.

Lemma eqb_tag_false (a b : string) : a <> b -> String.eqb a b = false.
Proof. by intros ?%String.eqb_neq. Qed.

(** What the [try] block of a CALL comes to does not depend on the
    state; of the state it changes the user object at most. *)
Lemma call_body_result o m s s0 : (call_body o m s).2 = (call_body o m s0).2.
Proof.
  unfold call_body, invoke. run_M.
  destruct (index m 1) as [name|]; simpl; [|done].
  destruct (to_str name) as [function_name|]; simpl; [|done].
  destruct (index m 2) as [data|]; simpl; [|done].
  destruct (loads_argument data) as [args|]; simpl; [|done].
  destruct (call_method o function_name args) as [o' [ret|]]; simpl; [|done].
  by destruct (dumps_return ret).
Qed.

Lemma call_body_state o m s :
  exists ob, (call_body o m s).1 = set_obj ob s /\ (ob = obj s \/ is_Some ob).
Proof.
  assert (set_obj (obj s) s = s) as Hid by (by destruct s).
  unfold call_body, invoke. run_M.
  destruct (index m 1) as [name|]; simpl; [|by eauto].
  destruct (to_str name) as [function_name|]; simpl; [|by eauto].
  destruct (index m 2) as [data|]; simpl; [|by eauto].
  destruct (loads_argument data) as [args|]; simpl; [|by eauto].
  destruct (call_method o function_name args) as [o' [ret|]]; simpl; [|by eauto].
  destruct (dumps_return ret); simpl; eauto.
Qed.

(** The loop test of [single_task] once the client is marked dead: the
    session ends, and nothing is sent. *)
Lemma leave_single_task s l :
  main s = AtTaskLoop -> client_is_alive s = Some false ->
  previous_path s = Some l ->
  exists s', step s Main_run = Some s' /\ main s' = AtJoin
    /\ request_log s' = request_log s /\ master_log s' = master_log s.
Proof.
  intros Hmain Hclient Hprev. destruct s; simpl in *; subst.
  unfold step, running, main_run, single_task_test; simpl.
  destruct job_is_alive0; run_end; run_M; simpl; eauto.
Qed.

End Sessions.

(** ** What holds in every reachable state *)

Lemma is_Some_alter (f : list string -> list string) k i
    (h : gmap loc (list string)) :
  is_Some (alter f k h !! i) <-> is_Some (h !! i).
Proof. rewrite lookup_alter. case_decide; [subst|done]. apply fmap_is_Some. Qed.

Ltac paths_leaf :=
  solve [ intros []; unfold keeps_paths, wf_paths; simpl;
          repeat case_match; simpl;
          intros [H1 H2]; split; try (intros ? ?); simplify_eq;
          rewrite ?is_Some_alter; eauto ].

Ltac paths :=
  repeat first
    [ apply preserved_bind; [apply _| |intros ?]
    | apply preserved_try_except; [apply _| |intros ?]
    | apply preserved_ret; apply _
    | apply preserved_lift; apply _
    | apply preserved_raise; apply _
    | apply preserved_modify; paths_leaf
    | match goal with
      | |- preserved _ (if ?b then _ else _) => destruct b
      | |- preserved _ (match ?x with _ => _ end) => destruct x
      end ];
  try paths_leaf.

Section Reachable.
Context {E : External}.

#[local] Instance keeps_paths_preorder : PreOrder keeps_paths.
Proof.
  split; [intros s H; exact H|]. intros s1 s2 s3 H12 H23 H1. by apply H23, H12.
Qed.

Lemma paths_wait_for_files m : preserved keeps_paths (wait_for_files m).
Proof. unfold wait_for_files. paths; prims; paths. Qed.

Lemma paths_run_receive_files m : preserved keeps_paths (run_receive_files m).
Proof.
  unfold run_receive_files. paths; try apply paths_wait_for_files; prims; paths.
Qed.

Lemma paths_wait_for_connection m : preserved keeps_paths (wait_for_connection m).
Proof. unfold wait_for_connection. paths; prims; paths. Qed.

Lemma paths_run_connect m : preserved keeps_paths (run_connect m).
Proof.
  unfold run_connect. paths; try apply paths_wait_for_connection; prims; paths.
Qed.

Lemma paths_call_body o m : preserved keeps_paths (call_body o m).
Proof. unfold call_body. paths; prims; paths. Qed.

Lemma paths_single_task_body m : preserved keeps_paths (single_task_body m).
Proof.
  unfold single_task_body. paths; try apply paths_call_body; prims; paths.
Qed.

Lemma paths_run_after_try caught : preserved keeps_paths (run_after_try caught).
Proof. unfold run_after_try, run_except, run_restore. paths; prims; paths. Qed.

Lemma paths_single_task_test : preserved keeps_paths single_task_test.
Proof. unfold single_task_test. paths. Qed.

Lemma paths_run_reset : preserved keeps_paths run_reset.
Proof.
  intros []. unfold keeps_paths, wf_paths, run_reset, _create_heartbeat_server,
    bind_to_random_port, mbind, M_bind, mret, M_ret, modify. simpl.
  destruct (bool_decide _); simpl; auto.
Qed.

Lemma fixed_wait_for_connection m : unchanged fixed (wait_for_connection m).
Proof. unfold wait_for_connection. frame; prims; frame. Qed.

Lemma fixed_run_connect m : unchanged fixed (run_connect m).
Proof.
  unfold run_connect. frame; try apply fixed_wait_for_connection; prims; frame.
Qed.

Lemma fixed_call_body o m : unchanged fixed (call_body o m).
Proof. unfold call_body. frame; prims; frame. Qed.

Lemma fixed_single_task_body m : unchanged fixed (single_task_body m).
Proof.
  unfold single_task_body. frame; try apply fixed_call_body; prims; frame.
Qed.

Lemma fixed_single_task_test : unchanged fixed single_task_test.
Proof. unfold single_task_test. frame. Qed.

Lemma fixed_inv s s' :
  fixed s' = fixed s ->
  previous_path s' = previous_path s /\ sys_path s' = sys_path s
  /\ client_thread s' = client_thread s.
Proof.
  unfold fixed. intros H.
  exact (conj (f_equal (fun x => x.1.1.1) H)
           (conj (f_equal (fun x => x.1.1.2) H) (f_equal (fun x => x.1.2) H))).
Qed.

Lemma leave_wf_paths c next : wf_paths (leave c next) <-> wf_paths c.1.
Proof. by destruct c as [[] [[]|e]]. Qed.

Lemma leave_client_thread c next :
  client_thread (leave c next) = client_thread c.1.
Proof. by destruct c as [[] [[]|e]]. Qed.

Lemma end_of_session_wf_paths s1 caught :
  wf_paths s1 -> wf_paths (end_of_session s1 caught).
Proof.
  unfold end_of_session. rewrite leave_wf_paths. apply paths_run_after_try.
Qed.

Lemma end_of_session_client_thread s1 caught :
  client_thread (end_of_session s1 caught) = client_thread s1.
Proof.
  unfold end_of_session. rewrite leave_client_thread. destruct s1.
  run_end. run_M. by destruct caught, previous_path0.
Qed.

(** What the three handlers leave when they return. *)
Lemma run_receive_files_ok m s s1 :
  run_receive_files m s = (s1, Ok tt) ->
  reply_pending s1 = false /\ previous_path s1 = Some (sys_path s1)
  /\ (client_thread s1).1 = Starting.
Proof.
  destruct s.
  unfold run_receive_files, wait_for_files, materialize, client_thread_start.
  run_M. simpl. intros H.
  repeat (case_match; simpl in *; simplify_eq); done.
Qed.

Lemma run_connect_ok m s s1 :
  run_connect m s = (s1, Ok tt) -> reply_pending s1 = false /\ is_Some (obj s1).
Proof.
  destruct s. unfold run_connect, wait_for_connection. run_M. simpl. intros H.
  repeat (case_match; simpl in *; simplify_eq); eauto.
Qed.

Lemma single_task_body_ok m s s1 :
  single_task_body m s = (s1, Ok tt) -> is_Some (obj s) ->
  reply_pending s1 = false /\ is_Some (obj s1).
Proof.
  unfold single_task_body. run_M.
  set (s0 := set_reply_pending true _).
  assert (obj s0 = obj s) as Hobj0 by (by destruct s).
  simpl. destruct (index m 0) as [tag|]; simpl; [|done].
  destruct (String.eqb tag CALL_TAG).
  - destruct (obj s0) as [o|] eqn:Hobj; [|done].
    destruct (call_body_state o m s0) as (ob & Hst & Hob).
    assert (is_Some ob) as [o' ->].
    { destruct Hob as [->|]; [|done]. rewrite Hobj. eauto. }
    destruct (call_body o m s0) as [s2 [ret|e]]; simpl in Hst; subst s2.
    + intros [= <-] _. subst s0. by destruct s; eauto.
    + subst s0. destruct s; simpl.
      destruct (exc_type e); simpl; intros [= <-] _; eauto.
  - destruct (String.eqb tag KILLJOB_TAG); [|done].
    intros [= <-] Hsome. subst s0. by destruct s.
Qed.

Lemma single_task_test_state s : (single_task_test s).1 = s.
Proof. unfold single_task_test. by repeat case_match. Qed.

Lemma session_inv_set_main pc s :
  wf_paths s -> session_at pc s -> session_inv (set_main pc s).
Proof. destruct s. unfold session_inv, wf_paths. simpl. by destruct pc. Qed.

Lemma end_of_session_inv s1 caught :
  wf_paths s1 -> (client_thread s1).1 <> NotStarted ->
  session_inv (end_of_session s1 caught).
Proof.
  destruct s1. run_end. run_M. unfold session_inv, wf_paths. simpl.
  intros [H1 H2] Hc. destruct caught, previous_path0; simpl; eauto.
Qed.

(** A responder leaves the session as it is. *)
Lemma thread_step_session s a s' :
  step s a = Some s' -> is_main a = false ->
  main s' = main s /\ heap s' = heap s /\ sys_path s' = sys_path s
  /\ previous_path s' = previous_path s /\ obj s' = obj s
  /\ reply_pending s' = reply_pending s
  /\ ((client_thread s').1 = NotStarted <-> (client_thread s).1 = NotStarted).
Proof.
  unfold step. destruct (running s); [|done].
  destruct a; try done; simpl; intros Hstep _; thread_steps s Hstep;
    repeat split; done.
Qed.

Lemma step_session_inv s a s' :
  step s a = Some s' -> session_inv s -> session_inv s'.
Proof.
  intros Hstep [Hwf Hat]. destruct (is_main a) eqn:Hm.
  2:{ apply thread_step_session in Hstep
        as (Hmain & Hheap & Hsys & Hprev & Hobj & Hpend & Hclient); [|done].
      unfold session_inv, wf_paths, session_at in *.
      rewrite Hmain, Hheap, Hsys, Hprev, Hobj, Hpend.
      split; [done|]. destruct (main s); tauto. }
  unfold step in Hstep. destruct (running s); [|done].
  destruct a; try done.
  - apply main_run_shape in Hstep
      as [(Hmain & _ & ->)|[(Hmain & _ & _ & ->)|[(Hmain & _ & _ & ->)
         |[(Hmain & _ & ->)|(Hmain & caught & ->)]]]];
      rewrite Hmain in Hat; try (by apply session_inv_set_main).
    destruct Hat as (Hpend & Hprev & Hclient & Hobj).
    by apply end_of_session_inv.
  - unfold main_recv in Hstep. destruct (main s) eqn:Hmain; try done.
    + injection Hstep as <-.
      pose proof (paths_run_receive_files m s Hwf) as Hwf1.
      pose proof (run_receive_files_ok m s) as Hok.
      destruct (run_receive_files m s) as [s1 [[]|e]]; simpl in *.
      * destruct (Hok s1 eq_refl) as (Hp & Hprev & Hc).
        apply session_inv_set_main; [done|]. simpl. rewrite Hc. done.
      * by apply session_inv_set_main.
    + destruct Hat as (Hpend & Hprev & Hclient).
      pose proof (paths_run_connect m s Hwf) as Hwf1.
      pose proof (run_connect_ok m s) as Hok.
      pose proof (fixed_run_connect m s) as Hfix. apply fixed_inv in Hfix.
      destruct Hfix as (Hprev1 & Hsys1 & Hclient1).
      destruct (run_connect m s) as [s1 [[]|e]]; simpl in *;
        injection Hstep as <-.
      * destruct (Hok s1 eq_refl) as (Hp & Ho).
        apply session_inv_set_main; [done|]. simpl.
        by rewrite Hprev1, Hsys1, Hclient1.
      * apply end_of_session_inv; [done|]. by rewrite Hclient1.
    + destruct Hat as (Hpend & Hprev & Hclient & Hobj).
      pose proof (paths_single_task_body m s Hwf) as Hwf1.
      pose proof (single_task_body_ok m s) as Hok.
      pose proof (fixed_single_task_body m s) as Hfix. apply fixed_inv in Hfix.
      destruct Hfix as (Hprev1 & Hsys1 & Hclient1).
      destruct (single_task_body m s) as [s1 [[]|e]]; simpl in *;
        injection Hstep as <-.
      * destruct (Hok s1 eq_refl Hobj) as (Hp & Ho).
        apply session_inv_set_main; [done|]. simpl.
        by rewrite Hprev1, Hsys1, Hclient1.
      * apply end_of_session_inv; [done|]. by rewrite Hclient1.
  - unfold main_join in Hstep. destruct (main s) eqn:Hmain; try done.
    destruct (client_thread s) as [[] port] eqn:Hthread; try done;
      injection Hstep as <-.
    + by apply session_inv_set_main.
    + pose proof (paths_run_reset s Hwf) as Hwf1.
      destruct (run_reset_spec s)
        as [(s1 & Hr & _ & _ & _ & Hc & _)|(s1 & Hr & _)];
        rewrite Hr in *; simpl in *.
      * apply session_inv_set_main; [done|]. simpl. by rewrite Hc.
      * by apply session_inv_set_main.
  - unfold main_ack in Hstep. destruct (main s) eqn:Hmain; try done.
    injection Hstep as <-. by apply session_inv_set_main.
Qed.

Lemma exec_session_inv s tr s' :
  exec s tr = Some s' -> session_inv s -> session_inv s'.
Proof.
  revert s. induction tr as [|a tr IH]; intros s; simpl.
  - by intros [= ->].
  - destruct (step s a) as [s1|] eqn:Hstep; [|done]. intros Hex Hinv.
    eauto using step_session_inv.
Qed.

Lemma Job_new_session_inv wa ma ip pid path0 fs0 :
  session_inv (Job_new wa ma ip pid path0 fs0).
Proof.
  unfold session_inv, wf_paths. simpl. rewrite lookup_singleton_eq.
  repeat split; eauto. done.
Qed.

End Reachable.

(** * The claims of the specification *)

(** C9.  [job_is_alive] only ever goes down.  It is true when [__init__]
    returns; the one later write is the worker responder's timeout, which
    sets it to false; every other step of any thread leaves it as it is;
    and once it is false it is false in every later state of the run. *)
Theorem C9_job_is_alive_only_falls {E : External} :
  (forall wa ma ip pid path0 fs0 s,
     Job_init wa ma ip pid path0 fs0 = Ok s -> job_is_alive s = true)
  /\ (forall s a s',
        step s a = Some s' ->
        (a = Worker_timeout /\ job_is_alive s' = false)
        \/ (a <> Worker_timeout /\ job_is_alive s' = job_is_alive s))
  /\ (forall s tr s',
        exec s tr = Some s' -> job_is_alive s = false ->
        job_is_alive s' = false).
Proof.
  split; [|split].
  - intros wa ma ip pid path0 fs0 s. unfold Job_init, raise_.
    destruct (bool_decide _); [|done]. by intros [= <-].
  - apply step_job_is_alive_write.
  - apply exec_job_is_alive_false.
Qed.

Lemma C9_job_is_alive_only_falls_witness :
  job_is_alive (demo_state fresh_ports before_loss) = false
  /\ job_is_alive (demo_state fresh_ports (before_loss ++ after_loss)) = false.
Proof.
  split; [vm_compute; reflexivity|].
  apply (proj2 (proj2 (C9_job_is_alive_only_falls (E := demo fresh_ports)))
           (demo_state fresh_ports before_loss) after_loss).
  - vm_compute. reflexivity.
  - vm_compute. reflexivity.
Defined.

(** C1 (what the code does).  Worker loss only clears [job_is_alive],
    and [run] reads the flag at the head of its loop alone: there it
    returns, with nothing more sent.  Nothing else is guarded by the flag.
    While the main thread is blocked in a receive on the request endpoint,
    worker loss does not end the process: no step of a responder moves the
    main thread.  And the reset that ends a session is sent whatever the
    flag says: whenever the join returns and the new endpoint binds,
    exactly one RESET_JOB goes to the master, and no other step writes to
    the master.  After the worker heartbeat has timed out at most one
    RESET_JOB follows: that of the session then in progress, when it
    ends. *)
Theorem C1_reset_is_not_guarded_by_job_is_alive {E : External} :
  (forall s port,
     main s = AtJoin -> client_thread s = (Finished, port) ->
     random_port (binds s) ∉ bound_ports s ->
     exists s', step s Main_join = Some s' /\ main s' = AwaitMaster
       /\ master_log s' = master_log s ++ [reset_announcement s])
  /\ (forall s a s',
        step s a = Some s' -> a <> Main_join -> master_log s' = master_log s)
  /\ (forall s,
        main s = AtRunLoop -> job_is_alive s = false ->
        exists s', step s Main_run = Some s' /\ main s' = Returned
          /\ master_log s' = master_log s /\ forall a, step s' a = None)
  /\ (forall s tr s',
        job_is_alive s = false -> exec s tr = Some s' ->
        length (master_log s') <= length (master_log s) + 1)
  /\ (forall s tr s',
        receiving (main s) = true ->
        Forall (fun a => is_recv a = false) tr ->
        exec s tr = Some s' ->
        main s' = main s /\ running s' = true
        /\ master_log s' = master_log s).
Proof.
  split; [|split; [|split; [|split]]].
  - intros s port Hmain Hthread Hfree.
    destruct (step s Main_join) as [s'|] eqn:Hstep.
    + exists s'. split; [done|].
      pose proof Hstep as Hstep'. unfold step in Hstep'.
      destruct (running s); [|done]. unfold main_join in Hstep'.
      rewrite Hmain, Hthread in Hstep'. injection Hstep' as <-.
      destruct (run_reset_spec s) as [(s1 & Hr & _ & Hl & _)|(s1 & _ & Hin & _)];
        [|done].
      rewrite Hr. by destruct s1.
    + unfold step, running, main_join in Hstep.
      by rewrite Hmain, Hthread in Hstep.
  - apply step_master_log.
  - intros s Hmain Hdead. exists (set_main Returned s).
    split; [|split; [|split]].
    + unfold step, running, main_run. by rewrite Hmain, Hdead.
    + apply main_set_main.
    + by destruct s.
    + intros a. apply step_not_running. unfold running.
      by rewrite main_set_main.
  - intros s tr s' Hdead Hex.
    pose proof (exec_resets_ahead s tr s' Hex Hdead) as Hle.
    assert (resets_ahead s <= 1) by (unfold resets_ahead; case_match; lia).
    lia.
  - intros s tr s' Hrecv Htr Hex.
    destruct (exec_receiving s tr s' Hex Hrecv Htr) as [Hmain Hmaster].
    split; [done|]. split; [|done].
    unfold running. rewrite Hmain. by destruct (main s).
Qed.

Lemma C1_reset_is_not_guarded_by_job_is_alive_witness :
  length (master_log (demo_state fresh_ports (before_loss ++ after_loss)))
  <= length (master_log (demo_state fresh_ports before_loss)) + 1.
Proof.
  apply (proj1 (proj2 (proj2 (proj2
           (C1_reset_is_not_guarded_by_job_is_alive (E := demo fresh_ports)))))
           (demo_state fresh_ports before_loss) after_loss).
  - vm_compute. reflexivity.
  - vm_compute. reflexivity.
Defined.

(** The run that shows it: the worker heartbeat times out during a
    session, nothing has gone to the master yet, and the job still sends
    RESET_JOB before [run] returns. *)
Lemma C1_reset_job_sent_after_worker_loss :
  (fun s => (job_is_alive s, main s, master_log s))
    <$> demo_boot fresh_ports before_loss
  = Some (false, InSingleTask, [])
  /\ (fun s => (job_is_alive s, main s, master_log s))
       <$> demo_boot fresh_ports (before_loss ++ after_loss)
     = Some (false, Returned,
             [(RESET_JOB_TAG,
               mkInitializedJob ("10.0.0.5", 4000) None ("10.0.0.5", 4004)
                 ("10.0.0.5", 4001) None None)]).
Proof. split; vm_compute; reflexivity. Qed.

(** The scenario of the specification: the job has started and waits for
    a bundle when the worker heartbeat times out and the worker responder
    ends.  The process has not exited: [job_is_alive] is false and the
    main thread is still blocked in the receive. *)
Lemma C1_job_outlives_its_worker :
  (fun s => (job_is_alive s, (worker_thread s).1, main s, running s,
             master_log s))
    <$> demo_boot fresh_ports
          [Worker_run; Worker_run; Main_run; Worker_timeout; Worker_run]
  = Some (false, Finished, InWaitForFiles, true, []).
Proof. vm_compute. reflexivity. Qed.

(** C6 (as amended).  Along every run, the announcement sent to the
    worker at startup is the only one with a worker-heartbeat address and
    a pid, and the RESET_JOB announcements are, in order, those of the
    endpoints bound after startup: all carry the request and ping
    addresses of startup and null worker-heartbeat address, worker
    address and pid, and the [k]-th carries the address of the endpoint
    bound by the [k]-th reset itself, on a port the process does not hold
    when it binds.  Nothing relates that port to the one of the previous
    session, whose endpoint is closed by then. *)
Theorem C6_reset_announcements {E : External} wa ma ip pid path0 fs0 tr s :
  boot wa ma ip pid path0 fs0 tr = Some s ->
  job_socket_log s
  = [(NORMAL_TAG,
      mkInitializedJob (ip, random_port 0) (Some (ip, random_port 2))
        (ip, random_port 3) (ip, random_port 1) None (Some pid))]
  /\ master_log s = map (announced ip) (seq 0 (length (master_log s)))
  /\ (forall s',
        step s Main_join = Some s' -> main s' = AwaitMaster ->
        master_log s' = master_log s ++ [announced ip (length (master_log s))]
        /\ (random_port (4 + length (master_log s)) ∉ bound_ports s)
        /\ (random_port (4 + length (master_log s)) ∈ bound_ports s')
        /\ client_thread s'
           = (NotStarted, random_port (4 + length (master_log s)))).
Proof.
  intros Hboot%boot_exec.
  pose proof (exec_announcements_inv ip _ tr s Hboot
                (Job_new_announcements_inv wa ma ip pid path0 fs0))
    as (Hip & Hjob & Hping & Hbinds & Hlog).
  pose proof (exec_config _ tr s Hboot) as Hcfg.
  split; [|split; [done|]].
  - unfold config in Hcfg. by injection Hcfg as _ _ _ _ _ ->.
  - intros s' Hstep Hmain.
    pose proof (step_running s _ s' Hstep) as Hrun.
    apply step_join in Hstep
      as (_ & _ & _ & [(_ & Hl & Hfree & Hthread & Hbound & _)|(e & Hm & _)]);
      [|congruence].
    rewrite Hbinds in Hfree, Hthread, Hbound by done.
    rewrite Hl, Hbound, Hthread. repeat split; try done.
    + f_equal. unfold reset_announcement, announced.
      by rewrite Hip, Hjob, Hping, Hbinds.
    + apply elem_of_union. left. by apply elem_of_singleton.
Qed.

Lemma C6_reset_announcements_witness :
  master_log (demo_state fresh_ports kill_session)
  = map (announced (E := demo fresh_ports) "10.0.0.5")
      (seq 0 (length (master_log (demo_state fresh_ports kill_session)))).
Proof.
  refine (proj1 (proj2
    (C6_reset_announcements (E := demo fresh_ports)
       "10.0.0.1:8000" "10.0.0.2:8010" "10.0.0.5" 4242 ["/usr/lib/python3"]
       demo_fs kill_session (demo_state fresh_ports kill_session) _))).
  vm_compute. reflexivity.
Defined.

(** C6, as stated, fails: the client responder has closed its endpoint
    before the join returns, the operating system hands the released port
    out again, and the RESET_JOB carries the client-heartbeat address the
    previous session had. *)
Lemma C6_client_heartbeat_address_repeated :
  (fun s => (ij_client_heartbeat_address <$> (job_socket_log s).*2,
             ij_client_heartbeat_address <$> (master_log s).*2))
    <$> demo_boot reusing_ports kill_session
  = Some ([("10.0.0.5", 4003)], [("10.0.0.5", 4003)]).
Proof. vm_compute. reflexivity. Qed.

(** C10.  In the serve-calls state a request whose tag is neither CALL
    nor KILLJOB is logged and raises NotImplementedError, which [run]
    catches: the session ends and the main thread goes to the join that
    precedes the reset.  Nothing is sent on the request endpoint for that
    request, neither by this step nor by any step that can follow it,
    the reset included: the receive stays unpaired. *)
Theorem C10_unknown_tag_is_left_unanswered {E : External} s m tag l :
  main s = InSingleTask -> reply_pending s = false ->
  previous_path s = Some l ->
  index m 0 = Ok tag -> tag <> CALL_TAG -> tag <> KILLJOB_TAG ->
  exists s',
    step s (Main_recv m) = Some s'
    /\ main s' = AtJoin
    /\ request_log s' = request_log s ++ [Recv m]
    /\ reply_pending s' = true
    /\ master_log s' = master_log s
    /\ (forall a s'',
          step s' a = Some s'' ->
          request_log s'' = request_log s' /\ reply_pending s'' = true).
Proof.
  intros Hmain Hpend Hprev Hidx Hcall Hkill.
  assert (exists s', step s (Main_recv m) = Some s' /\ main s' = AtJoin
            /\ request_log s' = request_log s ++ [Recv m]
            /\ reply_pending s' = true /\ master_log s' = master_log s)
    as (s' & Hstep & Hmain' & Hlog & Hpend' & Hmaster).
  { destruct s; simpl in *; subst.
    unfold step, running, main_recv; simpl.
    unfold single_task_body. run_M. simpl. rewrite Hidx.
    rewrite (eqb_tag_false _ _ Hcall), (eqb_tag_false _ _ Hkill). simpl.
    run_end. run_M. simpl. eauto 10. }
  exists s'. do 5 (split; [done|]).
  intros a s'' Hnext. destruct (is_main a) eqn:Ha.
  - destruct a; try done.
    + unfold step, main_run in Hnext. rewrite Hmain' in Hnext.
      by destruct (running s').
    + unfold step, main_recv in Hnext. rewrite Hmain' in Hnext.
      by destruct (running s').
    + apply step_join in Hnext as (_ & _ & [-> ->] & _). done.
    + unfold step, main_ack in Hnext. rewrite Hmain' in Hnext.
      by destruct (running s').
  - apply thread_step_main in Hnext as (_ & _ & -> & _ & _ & ->); done.
Qed.

Lemma C10_unknown_tag_is_left_unanswered_witness :
  exists s',
    step (demo_state fresh_ports (removelast before_loss))
      (Main_recv ["[PING]"]) = Some s'
    /\ main s' = AtJoin
    /\ request_log s'
       = request_log (demo_state fresh_ports (removelast before_loss))
         ++ [Recv ["[PING]"]]
    /\ reply_pending s' = true.
Proof.
  destruct (C10_unknown_tag_is_left_unanswered (E := demo fresh_ports)
              (demo_state fresh_ports (removelast before_loss))
              ["[PING]"] "[PING]" 0)
    as (s' & H1 & H2 & H3 & H4 & _);
    try (vm_compute; reflexivity);
    try (apply String.eqb_neq; vm_compute; reflexivity).
  exists s'. auto.
Defined.

(** C4.  When the dispatch of a CALL raises, the handler marks the client
    dead and sends one reply, chosen by the class of the exception:
    ATTRIBUTE_EXCEPTION, SERIALIZE_EXCEPTION or DESERIALIZE_EXCEPTION with
    the message for an exception of exactly that class, EXCEPTION with the
    message and the formatted traceback for any other.  The loop test
    that follows ends the serve-calls state with nothing more sent. *)
Theorem C4_call_exception_is_classified {E : External} s m o e l :
  main s = InSingleTask -> reply_pending s = false -> obj s = Some o ->
  previous_path s = Some l ->
  index m 0 = Ok CALL_TAG ->
  (call_body o m s).2 = Raise e ->
  exists s' reply,
    step s (Main_recv m) = Some s'
    /\ client_is_alive s' = Some false
    /\ request_log s' = request_log s ++ [Recv m; Send reply]
    /\ (exc_type e = AttributeError ->
        reply = [ATTRIBUTE_EXCEPTION_TAG; exc_str e])
    /\ (exc_type e = SerializeError ->
        reply = [SERIALIZE_EXCEPTION_TAG; exc_str e])
    /\ (exc_type e = DeserializeError ->
        reply = [DESERIALIZE_EXCEPTION_TAG; exc_str e])
    /\ (exc_type e <> AttributeError -> exc_type e <> SerializeError ->
        exc_type e <> DeserializeError ->
        reply = [EXCEPTION_TAG;
                 exc_str e +:+ "\ntraceback:\n" +:+ exc_traceback e])
    /\ main s' = AtTaskLoop
    /\ exists s'',
         step s' Main_run = Some s'' /\ main s'' = AtJoin
         /\ request_log s'' = request_log s'.
Proof.
  intros Hmain Hpend Hobj Hprev Hidx Hbody.
  assert (exists s' reply,
            step s (Main_recv m) = Some s'
            /\ client_is_alive s' = Some false
            /\ request_log s' = request_log s ++ [Recv m; Send reply]
            /\ (exc_type e = AttributeError ->
                reply = [ATTRIBUTE_EXCEPTION_TAG; exc_str e])
            /\ (exc_type e = SerializeError ->
                reply = [SERIALIZE_EXCEPTION_TAG; exc_str e])
            /\ (exc_type e = DeserializeError ->
                reply = [DESERIALIZE_EXCEPTION_TAG; exc_str e])
            /\ (exc_type e <> AttributeError -> exc_type e <> SerializeError ->
                exc_type e <> DeserializeError ->
                reply = [EXCEPTION_TAG;
                         exc_str e +:+ "\ntraceback:\n" +:+ exc_traceback e])
            /\ main s' = AtTaskLoop /\ previous_path s' = Some l)
    as (s' & reply & Hstep & Hclient & Hlog & H1 & H2 & H3 & H4 & Hmain' & Hprev').
  { unfold step, running, main_recv. rewrite Hmain.
    unfold single_task_body. run_M.
    set (s1 := set_reply_pending true _).
    simpl. rewrite Hidx. simpl.
    assert (obj s1 = Some o) as -> by (by destruct s).
    pose proof (call_body_result o m s1 s) as Hres. rewrite Hbody in Hres.
    destruct (call_body_state o m s1) as (ob & Hst & _).
    destruct (call_body o m s1) as [s2 r]. simpl in Hres, Hst. subst r s2 s1.
    destruct s. simpl in *. subst.
    destruct (exc_type e) eqn:Hty; simpl;
      (eexists _, _; split; [reflexivity|]; simpl;
       split; [done|]; split; [by rewrite <- app_assoc|];
       do 4 (split; [try done; try congruence|]); done). }
  exists s', reply. do 8 (split; [done|]).
  destruct (leave_single_task s' l Hmain' Hclient Hprev')
    as (s'' & Hnext & Hmain'' & Hlog'' & _).
  eauto.
Qed.

Lemma C4_call_exception_is_classified_witness :
  exists s',
    step (demo_state fresh_ports (removelast before_loss))
      (Main_recv [CALL_TAG; "g"; "1"]) = Some s'
    /\ client_is_alive s' = Some false
    /\ request_log s'
       = request_log (demo_state fresh_ports (removelast before_loss))
         ++ [Recv [CALL_TAG; "g"; "1"];
             Send [ATTRIBUTE_EXCEPTION_TAG; "'C' object has no attribute"]].
Proof.
  destruct (C4_call_exception_is_classified (E := demo fresh_ports)
              (demo_state fresh_ports (removelast before_loss))
              [CALL_TAG; "g"; "1"] tt
              (Exc AttributeError "'C' object has no attribute" "") 0)
    as (s' & reply & H1 & H2 & H3 & H4 & _);
    try (vm_compute; reflexivity).
  exists s'. rewrite (H4 eq_refl) in H3. auto.
Defined.

(** C5 (as amended).  Once the code bundle of the session has been
    accepted, a request with tag CALL gets exactly one reply before
    anything else happens on the request endpoint.  While the object is
    awaited the reply is EXCEPTION with the text for an unknown tag; in the
    serve-calls state it is NORMAL with the encoded return value when the
    dispatch returns, and when it raises, the exception tag that belongs
    to the class of the exception, with its message.  The log of the
    endpoint is only appended to afterwards, so a later request comes
    after the reply. *)
Theorem C5_call_is_answered_once {E : External} s m :
  main s = InWaitForConnection \/ (main s = InSingleTask /\ is_Some (obj s)) ->
  reply_pending s = false -> index m 0 = Ok CALL_TAG ->
  exists s' reply tag,
    step s (Main_recv m) = Some s'
    /\ request_log s' = request_log s ++ [Recv m; Send reply]
    /\ reply_pending s' = false
    /\ index reply 0 = Ok tag
    /\ tag ∈ [NORMAL_TAG; EXCEPTION_TAG; ATTRIBUTE_EXCEPTION_TAG;
              SERIALIZE_EXCEPTION_TAG; DESERIALIZE_EXCEPTION_TAG]
    /\ (main s = InWaitForConnection ->
        reply
        = [EXCEPTION_TAG;
           "[job]Unkonwn tag when tried to receive the class definition"])
    /\ (forall o ret,
          main s = InSingleTask -> obj s = Some o ->
          (call_body o m s).2 = Ok ret -> reply = [NORMAL_TAG; ret])
    /\ (forall o e,
          main s = InSingleTask -> obj s = Some o ->
          (call_body o m s).2 = Raise e ->
          reply
          = match exc_type e with
            | AttributeError => [ATTRIBUTE_EXCEPTION_TAG; exc_str e]
            | SerializeError => [SERIALIZE_EXCEPTION_TAG; exc_str e]
            | DeserializeError => [DESERIALIZE_EXCEPTION_TAG; exc_str e]
            | _ =>
                [EXCEPTION_TAG;
                 exc_str e +:+ "\ntraceback:\n" +:+ exc_traceback e]
            end)
    /\ (forall tr s'',
          exec s' tr = Some s'' ->
          (request_log s ++ [Recv m; Send reply]) `prefix_of` request_log s'').
Proof.
  intros Hmain Hpend Hidx.
  assert (exists s' reply tag,
            step s (Main_recv m) = Some s'
            /\ request_log s' = request_log s ++ [Recv m; Send reply]
            /\ reply_pending s' = false
            /\ index reply 0 = Ok tag
            /\ tag ∈ [NORMAL_TAG; EXCEPTION_TAG; ATTRIBUTE_EXCEPTION_TAG;
                      SERIALIZE_EXCEPTION_TAG; DESERIALIZE_EXCEPTION_TAG]
            /\ (main s = InWaitForConnection ->
                reply
                = [EXCEPTION_TAG;
                   "[job]Unkonwn tag when tried to receive the class definition"])
            /\ (forall o ret,
                  main s = InSingleTask -> obj s = Some o ->
                  (call_body o m s).2 = Ok ret -> reply = [NORMAL_TAG; ret])
            /\ (forall o e,
                  main s = InSingleTask -> obj s = Some o ->
                  (call_body o m s).2 = Raise e ->
                  reply
                  = match exc_type e with
                    | AttributeError => [ATTRIBUTE_EXCEPTION_TAG; exc_str e]
                    | SerializeError => [SERIALIZE_EXCEPTION_TAG; exc_str e]
                    | DeserializeError => [DESERIALIZE_EXCEPTION_TAG; exc_str e]
                    | _ =>
                        [EXCEPTION_TAG;
                         exc_str e +:+ "\ntraceback:\n" +:+ exc_traceback e]
                    end))
    as (s' & reply & tag & Hstep & Hlog & Hpend' & Htag & Hin & Hwait & Hret
        & Hexc).
  { destruct Hmain as [Hmain|[Hmain [o Hobj]]].
    - destruct s; simpl in *; subst.
      unfold step, running, main_recv; simpl.
      unfold run_connect, wait_for_connection. run_M. simpl. rewrite Hidx.
      simpl. run_end. run_M. simpl.
      destruct previous_path0; simpl;
        (eexists _, _, _; split; [reflexivity|]; simpl;
         split; [by rewrite <- app_assoc|]; split; [done|];
         split; [reflexivity|]; split; [set_solver|]; done).
    - unfold step, running, main_recv. rewrite Hmain.
      unfold single_task_body. run_M.
      set (s1 := set_reply_pending true _).
      simpl. rewrite Hidx. simpl.
      assert (obj s1 = Some o) as -> by (by destruct s).
      pose proof (call_body_result o m s1 s) as Hres.
      destruct (call_body_state o m s1) as (ob & Hst & _).
      destruct (call_body o m s1) as [s2 r]. simpl in Hres, Hst. subst r s2 s1.
      destruct s. simpl in *. subst.
      destruct (call_body o m _).2 as [ret|e] eqn:Hbody; simpl.
      + eexists _, _, _; split; [reflexivity|]; simpl.
        split; [by rewrite <- app_assoc|]. split; [done|].
        split; [reflexivity|]. split; [set_solver|]. split; [done|].
        split.
        * intros o' ret' _ [= <-]. rewrite Hbody. by intros [= ->].
        * intros o' e' _ [= <-]. by rewrite Hbody.
      + destruct (exc_type e) eqn:Hty; simpl;
          (eexists _, _, _; split; [reflexivity|]; simpl;
           split; [by rewrite <- app_assoc|]; split; [done|];
           split; [reflexivity|]; split; [set_solver|]; split; [done|];
           split;
           [intros o' ret' _ [= <-]; by rewrite Hbody
           |intros o' e' _ [= <-]; rewrite Hbody; intros [= <-];
            by rewrite Hty]). }
  exists s', reply, tag. do 8 (split; [done|]).
  intros tr s'' Hex. rewrite <- Hlog. by apply (exec_request_log_grows s' tr).
Qed.

Lemma C5_call_is_answered_once_witness :
  exists s',
    step (demo_state fresh_ports (removelast before_loss))
      (Main_recv [CALL_TAG; "f"; "41"]) = Some s'
    /\ request_log s'
       = request_log (demo_state fresh_ports (removelast before_loss))
         ++ [Recv [CALL_TAG; "f"; "41"]; Send [NORMAL_TAG; "41+1"]].
Proof.
  destruct (C5_call_is_answered_once (E := demo fresh_ports)
              (demo_state fresh_ports (removelast before_loss))
              [CALL_TAG; "f"; "41"])
    as (s' & reply & tag & H1 & H2 & _ & _ & _ & _ & H3 & _).
  - right. split; [vm_compute; reflexivity|]. exists tt. vm_compute. reflexivity.
  - vm_compute. reflexivity.
  - vm_compute. reflexivity.
  - exists s'. split; [exact H1|].
    rewrite (H3 tt "41+1") in H2; [exact H2|vm_compute; reflexivity..].
Defined.

(** C5, as stated, fails: a CALL that arrives as the first message of a
    session is received by [wait_for_files], which logs it and raises
    without sending anything: the request endpoint owes the reply when
    [wait_for_files] is left.  (What becomes of the exception is the
    matter of C3; the reply is missing wherever it is caught.) *)
Lemma C5_call_before_the_bundle_gets_no_reply :
  (fun r => (request_log r.1, reply_pending r.1, r.2))
    (wait_for_files (E := demo fresh_ports) [CALL_TAG; "f"; "41"]
       (demo_state fresh_ports [Main_run]))
  = ([Recv [CALL_TAG; "f"; "41"]], true,
     Raise (Exc NotImplementedError "" "")).
Proof. vm_compute. reflexivity. Qed.

(** C3 (what the code does).  A first message whose tag is not SEND_FILE
    is logged, and the NotImplementedError that [wait_for_files] raises
    leaves [run], whose [try] statement begins only after that call: the
    process ends there, with no reset and nothing sent to the master
    (compare C10, where the same error is raised inside the [try]
    statement and the session alone ends). *)
Theorem C3_violation_before_the_bundle_ends_the_process {E : External} s m tag :
  main s = InWaitForFiles -> reply_pending s = false ->
  index m 0 = Ok tag -> tag <> SEND_FILE_TAG ->
  exists s',
    step s (Main_recv m) = Some s'
    /\ main s' = Uncaught (Exc NotImplementedError "" "")
    /\ logger s'
       = logger s ++ [(ERROR, "NotImplementedError:{}, received message:{}")]
    /\ request_log s' = request_log s ++ [Recv m]
    /\ master_log s' = master_log s
    /\ forall a, step s' a = None.
Proof.
  intros Hmain Hpend Hidx Htag.
  destruct s; simpl in *; subst.
  unfold step at 1, running, main_recv; simpl.
  unfold run_receive_files, wait_for_files. run_M. simpl. rewrite Hidx.
  rewrite (eqb_tag_false _ _ Htag). simpl.
  eexists. split; [reflexivity|]. simpl. do 4 (split; [done|]).
  intros a. by apply step_not_running.
Qed.

Lemma C3_violation_before_the_bundle_ends_the_process_witness :
  exists s',
    step (demo_state fresh_ports [Main_run]) (Main_recv [CALL_TAG; "f"; "41"])
    = Some s'
    /\ main s' = Uncaught (Exc NotImplementedError "" "")
    /\ master_log s' = [].
Proof.
  destruct (C3_violation_before_the_bundle_ends_the_process
              (E := demo fresh_ports) (demo_state fresh_ports [Main_run])
              [CALL_TAG; "f"; "41"] CALL_TAG)
    as (s' & H1 & H2 & _ & _ & H3 & _);
    try (vm_compute; reflexivity);
    try (apply String.eqb_neq; vm_compute; reflexivity).
  exists s'. auto.
Defined.

Lemma load_bundle_ok fs tmp pyfiles fs' envdir :
  load_bundle fs tmp pyfiles = (fs', Ok envdir) ->
  envdir = path_str tmp /\ is_dir fs' tmp = true.
Proof.
  unfold load_bundle, mkdtemp, raise_.
  destruct (negb (is_dir fs (removelast tmp))); [done|].
  destruct (is_dir fs tmp || is_file fs tmp); [done|].
  pose proof (write_pyfiles_dirs (path_str tmp) pyfiles
    (Filesystem ({[tmp]} ∪ fs_dirs fs) (fs_files fs))) as Hd.
  destruct (write_pyfiles _ _ _) as [fs2 [[]|e]]; [|done].
  intros [= <- <-]. split; [done|]. simpl in Hd.
  unfold is_dir. rewrite Hd. apply orb_true_iff. right.
  apply bool_decide_eq_true, elem_of_union. left. by apply elem_of_singleton.
Qed.

(** C7 (as amended).  When a SEND_FILE message is accepted, the scratch
    directory holding the materialised files is appended to the module
    search path: it comes after all the entries that were there, in the
    very list object that [previous_path] is bound to, and NORMAL is
    sent. *)
Theorem C7_scratch_directory_is_appended {E : External} s m s' l :
  main s = InWaitForFiles -> step s (Main_recv m) = Some s' ->
  main s' = InWaitForConnection ->
  heap s !! sys_path s = Some l ->
  index m 0 = Ok SEND_FILE_TAG
  /\ sys_path_list s' = l ++ [path_str (mkdtemp_name (mkdtemps s))]
  /\ is_dir (fs s') (mkdtemp_name (mkdtemps s)) = true
  /\ previous_path s' = Some (sys_path s')
  /\ request_log s' = request_log s ++ [Recv m; Send [NORMAL_TAG]].
Proof.
  intros Hmain Hstep Hmain' Hheap.
  destruct s; simpl in *; subst.
  unfold step, running, main_recv in Hstep; simpl in Hstep.
  unfold run_receive_files, wait_for_files, materialize, client_thread_start,
    mbind, M_bind, mret, M_ret, lift, modify, raise, logger_error,
    reply_socket_send, reply_socket_recv in Hstep.
  simpl in Hstep.
  destruct (index m 0) as [tag|e0]; simpl in Hstep;
    [|injection Hstep as <-; simpl in Hmain'; discriminate Hmain'].
  destruct (String.eqb tag SEND_FILE_TAG) eqn:Htag; simpl in Hstep;
    [|injection Hstep as <-; simpl in Hmain'; discriminate Hmain'].
  apply String.eqb_eq in Htag. subst tag.
  destruct (index m 1) as [data|e1]; simpl in Hstep;
    [|injection Hstep as <-; simpl in Hmain'; discriminate Hmain'].
  destruct (pickle_loads data) as [pyfiles|e2]; simpl in Hstep;
    [|injection Hstep as <-; simpl in Hmain'; discriminate Hmain'].
  destruct (load_bundle fs0 (mkdtemp_name mkdtemps0) pyfiles)
    as [fs' [envdir|e3]] eqn:Hload; simpl in Hstep;
    [|injection Hstep as <-; simpl in Hmain'; discriminate Hmain'].
  apply load_bundle_ok in Hload as [-> Hdir].
  destruct client_thread0 as [[] port]; simpl in Hstep;
    injection Hstep as <-; simpl in Hmain'; try discriminate Hmain'.
  unfold sys_path_list. simpl. rewrite lookup_alter_eq, Hheap. simpl.
  repeat split; try done. by rewrite <- app_assoc.
Qed.

Lemma C7_scratch_directory_is_appended_witness :
  sys_path_list
    (demo_state fresh_ports [Main_run; Main_recv [SEND_FILE_TAG; "u.py"]])
  = ["/usr/lib/python3"] ++ ["/tmp/job0"].
Proof.
  refine (proj1 (proj2
    (C7_scratch_directory_is_appended (E := demo fresh_ports)
       (demo_state fresh_ports [Main_run]) [SEND_FILE_TAG; "u.py"]
       (demo_state fresh_ports [Main_run; Main_recv [SEND_FILE_TAG; "u.py"]])
       ["/usr/lib/python3"] _ _ _ _)));
    vm_compute; reflexivity.
Defined.

(** C7, as stated, fails: the scratch directory is the last entry of the
    search path, not the first, after the bundle has been accepted. *)
Lemma C7_scratch_directory_is_not_first :
  (fun s => (main s, sys_path_list s, head (sys_path_list s)))
    <$> demo_boot fresh_ports [Main_run; Main_recv [SEND_FILE_TAG; "u.py"]]
  = Some (InWaitForConnection, ["/usr/lib/python3"; "/tmp/job0"],
          Some "/usr/lib/python3").
Proof. vm_compute. reflexivity. Qed.

(** C2 (what the code does).  [previous_path] is a second name for the
    list [sys.path] refers to, so the assignment [sys.path = previous_path]
    that ends a session changes nothing: the search path is what it was
    before the assignment, the scratch directory included.  After a whole
    session, reset done, the search path of the process is one entry
    longer than at startup. *)
Theorem C2_search_path_keeps_the_scratch_directory :
  sys_path_list (demo_state fresh_ports []) = ["/usr/lib/python3"]
  /\ (fun s => (main s, sys_path_list s))
       <$> demo_boot fresh_ports kill_session
     = Some (AwaitMaster, ["/usr/lib/python3"; "/tmp/job0"])
  /\ (forall (E : External) (s : state) caught,
        previous_path s = Some (sys_path s) ->
        sys_path_list (end_of_session s caught) = sys_path_list s).
Proof.
  split; [vm_compute; reflexivity|]. split; [vm_compute; reflexivity|].
  intros E s caught Hprev. destruct s; simpl in *. subst.
  run_end. run_M. by destruct caught.
Qed.

Lemma C2_search_path_keeps_the_scratch_directory_witness :
  sys_path_list
    (end_of_session (E := demo fresh_ports)
       (demo_state fresh_ports (removelast before_loss)) None)
  = ["/usr/lib/python3"; "/tmp/job0"].
Proof.
  rewrite (proj2 (proj2 C2_search_path_keeps_the_scratch_directory)
             (demo fresh_ports)); vm_compute; reflexivity.
Defined.

(** C8 (as amended).  The loader writes each entry of the bundle at
    [os.path.join(envdir, key)] and creates no directory but the scratch
    directory itself.  When every key is a plain file name, all entries
    are written directly under the fresh scratch directory (a later entry
    replacing an earlier one) and its path is returned.  A key [d/f] with a
    separator is opened as it is: the directory [d] does not exist in the
    fresh scratch directory, and materialising the bundle raises
    [FileNotFoundError]; when nothing but separators follows [d] (the key
    is [d/]), the path names a directory to create and the error is
    [IsADirectoryError]. *)
Theorem C8_loader_writes_plain_names fs tmp pyfiles :
  dirs_closed fs -> files_closed fs -> tmp <> [] -> flat_path tmp ->
  is_dir fs (removelast tmp) = true ->
  is_dir fs tmp = false -> is_file fs tmp = false ->
  (Forall (fun kc => flat_name kc.1 = true) pyfiles ->
   load_bundle fs tmp pyfiles
   = (Filesystem ({[tmp]} ∪ fs_dirs fs) (written tmp pyfiles (fs_files fs)),
      Ok (path_str tmp)))
  /\ fs_dirs (load_bundle fs tmp pyfiles).1 = {[tmp]} ∪ fs_dirs fs
  /\ (forall d f code,
        flat_name d = true ->
        (load_bundle fs tmp ((d +:+ String "/" f, code) :: pyfiles)).2
        = raise_ (if only_seps f then IsADirectoryError
                  else FileNotFoundError)).
Proof.
  intros Hcl Hfcl Hne Hflat Hpar Hfresh Hnofile. split; [|split].
  - by apply load_bundle_flat.
  - unfold load_bundle. rewrite mkdtemp_fresh by done.
    pose proof (write_pyfiles_dirs (path_str tmp) pyfiles
      (Filesystem ({[tmp]} ∪ fs_dirs fs) (fs_files fs))) as Hd.
    destruct (write_pyfiles _ _ _) as [fs2 [[]|e]]; exact Hd.
  - intros d f code Hd. by apply load_bundle_subdir.
Qed.

Lemma C8_loader_writes_plain_names_witness :
  (load_bundle demo_fs ["tmp"; "job0"] [("u.py", "class C: ...")]).2
  = Ok "/tmp/job0"
  /\ (load_bundle demo_fs ["tmp"; "job0"] [("pkg/mod.py", "x = 1")]).2
     = raise_ FileNotFoundError
  /\ (load_bundle demo_fs ["tmp"; "job0"] [("pkg/", "x = 1")]).2
     = raise_ IsADirectoryError.
Proof.
  assert (dirs_closed demo_fs) as Hd.
  { intros q Hq. unfold demo_fs in Hq. simpl in Hq.
    apply elem_of_singleton in Hq as ->. vm_compute. reflexivity. }
  assert (files_closed demo_fs) as Hf.
  { intros q Hq. unfold is_file, demo_fs in Hq. simpl in Hq.
    rewrite lookup_empty in Hq. apply bool_decide_eq_true in Hq.
    by destruct Hq. }
  assert (flat_path ["tmp"; "job0"]) as Hp.
  { repeat constructor. }
  split; [|split].
  - rewrite (proj1 (C8_loader_writes_plain_names demo_fs ["tmp"; "job0"]
               [("u.py", "class C: ...")] Hd Hf ltac:(done) Hp
               eq_refl eq_refl eq_refl)); [reflexivity|].
    repeat constructor.
  - exact (proj2 (proj2 (C8_loader_writes_plain_names demo_fs ["tmp"; "job0"]
             [] Hd Hf ltac:(done) Hp eq_refl eq_refl eq_refl))
             "pkg" "mod.py" "x = 1" eq_refl).
  - exact (proj2 (proj2 (C8_loader_writes_plain_names demo_fs ["tmp"; "job0"]
             [] Hd Hf ltac:(done) Hp eq_refl eq_refl eq_refl))
             "pkg" "" "x = 1" eq_refl).
Defined.

(** C8, as stated, fails: for a key with a separator the loader creates
    no intermediate directory and the write raises; the directory [pkg]
    does not exist afterwards. *)
Lemma C8_key_with_separator_is_not_materialised :
  (fun r => (r.2, is_dir r.1 ["tmp"; "job0"], is_dir r.1 ["tmp"; "job0"; "pkg"]))
    (load_bundle demo_fs ["tmp"; "job0"] [("pkg/mod.py", "x = 1")])
  = (Raise (Exc FileNotFoundError "" ""), true, false).
Proof. vm_compute. reflexivity. Qed.

(** X1.  Wherever the main thread stands in a run from startup, the
    session is in order: [sys.path] and [previous_path] refer to existing
    list objects; while the object is awaited or calls are served the
    request endpoint owes no reply, [previous_path] is the very list
    [sys.path] is and the client responder has been started; the user
    object exists while calls are served; and between sessions the client
    responder of the next session has not been started. *)
Theorem X1_sessions_are_in_order {E : External} wa ma ip pid path0 fs0 tr s :
  boot wa ma ip pid path0 fs0 tr = Some s -> session_inv s.
Proof.
  intros Hboot%boot_exec.
  eapply exec_session_inv; [exact Hboot|apply Job_new_session_inv].
Qed.

Lemma X1_sessions_are_in_order_witness :
  session_inv (demo_state fresh_ports (removelast before_loss)).
Proof.
  apply (X1_sessions_are_in_order (E := demo fresh_ports)
           "10.0.0.1:8000" "10.0.0.2:8010" "10.0.0.5" 4242
           ["/usr/lib/python3"] demo_fs (removelast before_loss)).
  vm_compute. reflexivity.
Defined.

(** The happy path of the specification: the bundle, the object, one
    call. *)
Example happy_path :
  request_log
    (demo_state fresh_ports
       [ Main_run;
         Main_recv [SEND_FILE_TAG; "u.py"];
         Client_run;
         Main_recv [INIT_OBJECT_TAG; "C"; "()"];
         Main_run;
         Main_recv [CALL_TAG; "f"; "41"] ])
  = [ Recv [SEND_FILE_TAG; "u.py"]; Send [NORMAL_TAG];
      Recv [INIT_OBJECT_TAG; "C"; "()"]; Send [NORMAL_TAG];
      Recv [CALL_TAG; "f"; "41"]; Send [NORMAL_TAG; "41+1"] ].
Proof. vm_compute. reflexivity. Qed.

(** * Further properties of the job *)

(** ** The request endpoint *)

Section Wire.
Context {E : External}.

Lemma paired_app b l1 l2 :
  paired b (l1 ++ l2) = paired b l1 ≫= fun b' => paired b' l2.
Proof.
  revert b. induction l1 as [|[m|m] l1 IH]; intros b; simpl; [done|..];
    destruct b; simpl; auto.
Qed.

Lemma wire_inv s s' :
  wire s' = wire s ->
  request_log s' = request_log s /\ reply_pending s' = reply_pending s.
Proof. unfold wire. by intros [= -> ->]. Qed.

Lemma wire_set_main v s : wire (set_main v s) = wire s.
Proof. by destruct s. Qed.

Lemma wire_leave c next : wire (leave c next) = wire c.1.
Proof. by destruct c as [[] [[]|e]]. Qed.

Lemma wire_run_after_try caught : unchanged wire (run_after_try caught).
Proof. unfold run_after_try, run_except, run_restore. frame; prims; frame. Qed.

Lemma wire_end_of_session s1 caught : wire (end_of_session s1 caught) = wire s1.
Proof. unfold end_of_session. rewrite wire_leave. apply wire_run_after_try. Qed.

Lemma exchanged_run_receive_files m s : exchanged m s (run_receive_files m s).1.
Proof.
  destruct s.
  unfold exchanged, wire, run_receive_files, wait_for_files, materialize,
    client_thread_start.
  run_M. simpl.
  repeat (case_match; simpl in *; simplify_eq);
    simpl;
    solve [ by left | right; eexists; by rewrite <- app_assoc ].
Qed.

Lemma exchanged_run_connect m s : exchanged m s (run_connect m s).1.
Proof.
  destruct s. unfold exchanged, wire, run_connect, wait_for_connection.
  run_M. simpl.
  repeat (case_match; simpl in *; simplify_eq);
    simpl;
    solve [ by left | right; eexists; by rewrite <- app_assoc ].
Qed.

Lemma exchanged_single_task_body m s : exchanged m s (single_task_body m s).1.
Proof.
  unfold single_task_body. run_M.
  set (s0 := set_reply_pending true _).
  simpl. destruct (index m 0) as [tag|]; simpl.
  2:{ left. subst s0. by destruct s. }
  destruct (String.eqb tag CALL_TAG).
  - destruct (obj s0) as [o|] eqn:Hobj.
    2:{ left. subst s0. by destruct s. }
    destruct (call_body_state o m s0) as (ob & Hst & _).
    destruct (call_body o m s0) as [s2 [ret|e]]; simpl in Hst; subst s2.
    + right. subst s0. destruct s; simpl in *. subst.
      eexists. unfold wire. simpl. by rewrite <- app_assoc.
    + right. subst s0. destruct s; simpl in *. subst.
      destruct (exc_type e); simpl; eexists; unfold wire; simpl;
        by rewrite <- app_assoc.
  - destruct (String.eqb tag KILLJOB_TAG); simpl.
    + right. subst s0. destruct s; simpl in *. subst.
      eexists. unfold wire. simpl. by rewrite <- app_assoc.
    + left. subst s0. by destruct s.
Qed.

Lemma exchanged_wire m s s1 s2 :
  exchanged m s s1 -> wire s2 = wire s1 -> exchanged m s s2.
Proof. unfold exchanged. intros H ->. exact H. Qed.

Lemma wire_run_reset : unchanged wire run_reset.
Proof.
  intros s. unfold same, wire.
  destruct (run_reset_spec s) as [(s1 & -> & _ & _ & [Hl Hp] & _)
                                 |(s1 & -> & _ & _ & [Hl Hp] & _)];
    simpl; by rewrite Hl, Hp.
Qed.

Lemma step_exchanged s a s' :
  step s a = Some s' ->
  match a with
  | Main_recv m => exchanged m s s'
  | _ => wire s' = wire s
  end.
Proof.
  intros Hstep. destruct (is_main a) eqn:Hm.
  2:{ apply thread_step_main in Hstep as (_ & _ & Hl & _ & _ & Hp); [|done].
      unfold wire. rewrite Hl, Hp. by destruct a. }
  unfold step in Hstep. destruct (running s); [|done].
  destruct a; try done.
  - apply main_run_state in Hstep as [[v ->]|[caught ->]];
      by rewrite ?wire_set_main, ?wire_end_of_session.
  - unfold main_recv in Hstep. destruct (main s); try done.
    + injection Hstep as <-.
      eapply exchanged_wire; [apply exchanged_run_receive_files|].
      apply wire_leave.
    + pose proof (exchanged_run_connect m s) as Hx.
      destruct (run_connect m s) as [s1 [[]|e]]; injection Hstep as <-;
        (eapply exchanged_wire; [exact Hx|]);
        rewrite ?wire_set_main, ?wire_end_of_session; done.
    + pose proof (exchanged_single_task_body m s) as Hx.
      destruct (single_task_body m s) as [s1 [[]|e]]; injection Hstep as <-;
        (eapply exchanged_wire; [exact Hx|]);
        rewrite ?wire_set_main, ?wire_end_of_session; done.
  - unfold main_join in Hstep. destruct (main s); try done.
    destruct (client_thread s) as [[] port]; try done; injection Hstep as <-.
    + apply wire_set_main.
    + rewrite wire_leave. apply wire_run_reset.
  - unfold main_ack in Hstep. destruct (main s); try done.
    injection Hstep as <-. apply wire_set_main.
Qed.

(** Where a step takes the main thread. *)
Lemma step_moves s a s' :
  step s a = Some s' ->
  match a with
  | Main_run =>
      (main s = AtRunLoop /\ job_is_alive s = false /\ main s' = Returned)
      \/ (main s = AtRunLoop /\ job_is_alive s = true
          /\ reply_pending s = false /\ main s' = InWaitForFiles)
      \/ (main s = AtRunLoop /\ job_is_alive s = true
          /\ reply_pending s = true
          /\ main s' = Uncaught (Exc ZMQError "" ""))
      \/ (main s = AtTaskLoop
          /\ (main s' = InSingleTask \/ main s' = AtJoin
              \/ exists e, main s' = Uncaught e))
  | Main_recv _ =>
      receiving (main s) = true
      /\ (main s' = InWaitForConnection \/ main s' = AtTaskLoop
          \/ main s' = AtJoin \/ exists e, main s' = Uncaught e)
  | Main_join =>
      main s = AtJoin /\ (main s' = AwaitMaster \/ exists e, main s' = Uncaught e)
  | Main_ack _ => main s = AwaitMaster /\ main s' = AtRunLoop
  | _ => main s' = main s
  end.
Proof.
  intros Hstep. destruct (is_main a) eqn:Hm.
  2:{ apply thread_step_main in Hstep as (Hmain & _); [|done].
      by destruct a. }
  destruct a; try done.
  3:{ apply step_join in Hstep as (? & _ & _ & [(? & _)|(e & ? & _)]); eauto. }
  all: unfold step in Hstep; destruct (running s); [|done].
  - apply main_run_shape in Hstep
      as [(? & ? & ->)|[(? & ? & ? & ->)|[(? & ? & ? & ->)
         |[(? & ? & ->)|(? & caught & ->)]]]];
      rewrite ?main_set_main; eauto 10.
    do 3 right. split; [done|].
    destruct (end_of_session_main s caught) as [->|[e ->]]; eauto.
  - unfold main_recv in Hstep. destruct (main s); try done; (split; [done|]).
    + injection Hstep as <-. rewrite leave_main. case_match; eauto.
    + destruct (run_connect m s) as [s1 [[]|e]]; injection Hstep as <-;
        [rewrite main_set_main; eauto|].
      destruct (end_of_session_main s1 (Some e)) as [->|[e' ->]]; eauto.
    + destruct (single_task_body m s) as [s1 [[]|e]]; injection Hstep as <-;
        [rewrite main_set_main; eauto|].
      destruct (end_of_session_main s1 (Some e)) as [->|[e' ->]]; eauto.
  - unfold main_ack in Hstep. destruct (main s); try done.
    injection Hstep as <-. by rewrite main_set_main.
Qed.

(** The main thread enters [wait_for_files] only when the socket owes
    nothing, and every other receive follows a reply: the log keeps the
    discipline. *)
Lemma step_paired s a s' :
  step s a = Some s' -> session_inv s ->
  (main s = InWaitForFiles -> reply_pending s = false) ->
  paired false (request_log s) = Some (reply_pending s) ->
  paired false (request_log s') = Some (reply_pending s')
  /\ (main s' = InWaitForFiles -> reply_pending s' = false).
Proof.
  intros Hstep [_ Hat] Hw Hinv.
  pose proof (step_exchanged s a s' Hstep) as Hx.
  pose proof (step_moves s a s' Hstep) as Hmv.
  destruct a;
    try (apply wire_inv in Hx as [Hl Hp]; rewrite Hl, Hp; split; [done|];
         intros Hf).
  all: try (apply Hw; congruence).
  - destruct Hmv as [(_ & _ & ?)|[(_ & _ & ? & _)|[(_ & _ & _ & ?)
                    |(_ & [?|[?|[e ?]]])]]]; congruence.
  - destruct Hmv as [Hrecv Hmain'].
    assert (reply_pending s = false) as Hp.
    { destruct (main s); try done; [by apply Hw|apply Hat..]. }
    split.
    + unfold wire in Hx. destruct Hx as [H|[r H]]; injection H as -> ->;
        rewrite paired_app, Hinv, Hp; done.
    + intros Hf. destruct Hmain' as [?|[?|[?|[e ?]]]]; congruence.
  - destruct Hmv as [_ [?|[e ?]]]; congruence.
  - destruct Hmv as [_ ?]; congruence.
Qed.

Lemma exec_paired s tr s' :
  exec s tr = Some s' -> session_inv s ->
  (main s = InWaitForFiles -> reply_pending s = false) ->
  paired false (request_log s) = Some (reply_pending s) ->
  paired false (request_log s') = Some (reply_pending s').
Proof.
  revert s. induction tr as [|a tr IH]; intros s; simpl.
  - by intros [= ->].
  - destruct (step s a) as [s1|] eqn:Hstep; [|done]. intros Hex Hs Hw Hinv.
    destruct (step_paired s a s1 Hstep Hs Hw Hinv) as [Hinv1 Hw1].
    eapply IH; eauto using step_session_inv.
Qed.

(** In a log that keeps the discipline every reply comes right after a
    request, and every request but the first right after a reply. *)
Lemma paired_send b log b' i reply :
  paired b log = Some b' -> log !! i = Some (Send reply) ->
  match i with
  | 0 => b = true
  | S j => exists m, log !! j = Some (Recv m)
  end.
Proof.
  revert b i. induction log as [|ev log IH]; intros b i Hp Hi; [done|].
  destruct i as [|j]; simpl in *.
  - injection Hi as ->. by destruct b.
  - assert (exists b1, paired b1 log = Some b'
              /\ (b1 = true -> exists m, ev = Recv m)) as (b1 & Hp1 & Hev).
    { destruct ev, b; try done;
        (eexists; split; [exact Hp|]); first [done | by eauto]. }
    specialize (IH b1 j Hp1 Hi). destruct j as [|k]; simpl in *.
    + destruct (Hev IH) as [m ->]. eauto.
    + exact IH.
Qed.

Lemma paired_recv b log b' i m :
  paired b log = Some b' -> log !! i = Some (Recv m) ->
  match i with
  | 0 => b = false
  | S j => exists reply, log !! j = Some (Send reply)
  end.
Proof.
  revert b i. induction log as [|ev log IH]; intros b i Hp Hi; [done|].
  destruct i as [|j]; simpl in *.
  - injection Hi as ->. by destruct b.
  - assert (exists b1, paired b1 log = Some b'
              /\ (b1 = false -> exists r, ev = Send r)) as (b1 & Hp1 & Hev).
    { destruct ev, b; try done;
        (eexists; split; [exact Hp|]); first [done | by eauto]. }
    specialize (IH b1 j Hp1 Hi). destruct j as [|k]; simpl in *.
    + destruct (Hev IH) as [r ->]. eauto.
    + exact IH.
Qed.

End Wire.

(** X2.  The request endpoint keeps the discipline of its REP socket
    along every run from startup: its log is request, reply, request,
    reply, ..., beginning with a request; no reply is sent that does not
    come right after a request, no request is received before the previous
    one has its reply, and the socket owes a reply exactly when the last
    entry of the log is a request. *)
Theorem X2_requests_and_replies_alternate {E : External}
    wa ma ip pid path0 fs0 tr s :
  boot wa ma ip pid path0 fs0 tr = Some s ->
  paired false (request_log s) = Some (reply_pending s)
  /\ (forall reply, request_log s !! 0 <> Some (Send reply))
  /\ (forall i reply,
        request_log s !! S i = Some (Send reply) ->
        exists m, request_log s !! i = Some (Recv m))
  /\ (forall i m,
        request_log s !! S i = Some (Recv m) ->
        exists reply, request_log s !! i = Some (Send reply)).
Proof.
  intros Hboot%boot_exec.
  assert (paired false (request_log s) = Some (reply_pending s)) as Hp.
  { apply (exec_paired _ tr s Hboot); [apply Job_new_session_inv|done..]. }
  split; [done|]. split; [|split].
  - intros reply H0. by pose proof (paired_send _ _ _ 0 reply Hp H0).
  - intros i reply Hi. exact (paired_send _ _ _ (S i) reply Hp Hi).
  - intros i m Hi. exact (paired_recv _ _ _ (S i) m Hp Hi).
Qed.

Lemma X2_requests_and_replies_alternate_witness :
  paired false (request_log (demo_state fresh_ports dropped_request))
  = Some (reply_pending (demo_state fresh_ports dropped_request)).
Proof.
  refine (proj1 (X2_requests_and_replies_alternate (E := demo fresh_ports)
       "10.0.0.1:8000" "10.0.0.2:8010" "10.0.0.5" 4242 ["/usr/lib/python3"]
       demo_fs dropped_request (demo_state fresh_ports dropped_request) _)).
  vm_compute. reflexivity.
Defined.

(** ** Unanswered requests, heartbeats and the liveness flags *)

Section Idle.
Context {E : External}.

Lemma between_sessions_idle pc : between_sessions pc = true -> idle pc = true.
Proof. by destruct pc. Qed.

(** With a reply owed, the main thread stays outside the sessions and
    the request endpoint is left alone. *)
Lemma step_between s a s' :
  step s a = Some s' -> reply_pending s = true ->
  between_sessions (main s) = true ->
  wire s' = wire s /\ between_sessions (main s') = true.
Proof.
  intros Hstep Hpend Hb.
  pose proof (step_exchanged s a s' Hstep) as Hx.
  pose proof (step_moves s a s' Hstep) as Hmv.
  destruct a; try (split; [done|]; by rewrite Hmv).
  - split; [done|].
    destruct Hmv as [(_ & _ & ->)|[(_ & _ & ? & _)|[(_ & _ & _ & ->)|(Hm & _)]]];
      [done|congruence|done|].
    by rewrite Hm in Hb.
  - destruct Hmv as [Hr _]. by destruct (main s).
  - split; [done|]. by destruct Hmv as [_ [->|[e ->]]].
  - split; [done|]. by destruct Hmv as [_ ->].
Qed.

Lemma exec_between s tr s' :
  exec s tr = Some s' -> reply_pending s = true ->
  between_sessions (main s) = true ->
  wire s' = wire s /\ between_sessions (main s') = true.
Proof.
  revert s. induction tr as [|a tr IH]; intros s; simpl.
  - by intros [= ->].
  - destruct (step s a) as [s1|] eqn:Hstep; [|done]. intros Hex Hpend Hb.
    destruct (step_between s a s1 Hstep Hpend Hb) as [Hw Hi].
    pose proof Hw as [Hl Hp]%wire_inv.
    destruct (IH s1 Hex) as [Hw' Hi']; [congruence|done|].
    split; [congruence|done].
Qed.

End Idle.

Section Heartbeats.
Context {E : External}.

Lemma attrs_heartbeat_log s s' :
  attrs s' = attrs s -> heartbeat_log s' = heartbeat_log s.
Proof. unfold attrs. by intros [= _ _ _ _ _ _ _ _ _ _ ->]. Qed.

Lemma step_heartbeat_log s a s' :
  step s a = Some s' ->
  heartbeat_log s' = heartbeat_log s ++ option_list (probe_reply a).
Proof.
  intros Hstep. destruct (is_main a) eqn:Hm.
  - rewrite (attrs_heartbeat_log s s') by (by apply (main_step_attrs s a)).
    destruct a; try done; simpl; by rewrite app_nil_r.
  - unfold step in Hstep. destruct (running s); [|done].
    destruct a; try done; simpl in Hstep; thread_steps s Hstep;
      by rewrite ?app_nil_r.
Qed.

End Heartbeats.

Section Flags.
Context {E : External}.

Lemma attrs_flags s s' :
  attrs s' = attrs s ->
  job_is_alive s' = job_is_alive s /\ worker_is_alive s' = worker_is_alive s
  /\ ping_thread s' = ping_thread s /\ worker_thread s' = worker_thread s.
Proof. unfold attrs. by intros [= -> -> _ _ _ _ _ _ -> -> _]. Qed.

(** [run] returns from the head of its loop only. *)
Lemma step_returned s a s' :
  step s a = Some s' -> main s' = Returned ->
  a = Main_run /\ main s = AtRunLoop /\ job_is_alive s = false.
Proof.
  intros Hstep Hret. pose proof (step_running s a s' Hstep) as Hrun.
  apply step_moves in Hstep. unfold running in Hrun.
  destruct a;
    try (rewrite Hstep in Hret; rewrite Hret in Hrun; done).
  - destruct Hstep as [(? & ? & _)|[(_ & _ & _ & ?)|[(_ & _ & _ & ?)
                      |(_ & [?|[?|[e ?]]])]]]; [done|congruence..].
  - destruct Hstep as [_ [?|[?|[?|[e ?]]]]]; congruence.
  - destruct Hstep as [_ [?|[e ?]]]; congruence.
  - destruct Hstep as [_ ?]; congruence.
Qed.

Lemma step_flags_inv s a s' : step s a = Some s' -> flags_inv s -> flags_inv s'.
Proof.
  intros Hstep (Hw & Hp & Hr). destruct (is_main a) eqn:Hm.
  - pose proof (main_step_attrs s a s' Hstep Hm) as (Hj & Hwa & Hpt & Hwt)%attrs_flags.
    unfold flags_inv. rewrite Hj, Hwa, Hpt, Hwt. do 2 (split; [done|]).
    intros Hret. by apply (step_returned s a s') in Hret as (_ & _ & ?).
  - pose proof (step_running s a s' Hstep) as Hrun.
    pose proof Hstep as (Hmain & _)%thread_step_main; [|done].
    assert (main s' <> Returned) as Hnr.
    { rewrite Hmain. unfold running in Hrun. by destruct (main s). }
    unfold step in Hstep. rewrite Hrun in Hstep. unfold flags_inv in *.
    destruct a; try done; simpl in Hstep; thread_steps s Hstep;
      simpl in *;
      rewrite ?andb_true_iff, ?andb_false_iff, ?bool_decide_eq_true,
        ?bool_decide_eq_false in *;
      destruct_or?; destruct_and?; repeat split; auto; try congruence;
      solve [left; split; congruence | right; split; congruence].
Qed.

Lemma exec_flags_inv s tr s' : exec s tr = Some s' -> flags_inv s -> flags_inv s'.
Proof.
  revert s. induction tr as [|a tr IH]; intros s; simpl.
  - by intros [= ->].
  - destruct (step s a) as [s1|] eqn:Hstep; [|done]. intros Hex Hinv.
    eauto using step_flags_inv.
Qed.

Lemma Job_new_flags_inv wa ma ip pid path0 fs0 :
  flags_inv (Job_new wa ma ip pid path0 fs0).
Proof. unfold flags_inv. simpl. done. Qed.

End Flags.

(** X3.  A request that a session leaves unanswered ends the service of
    the job.  Once the [try] statement of [run] is over with a reply still
    owed, nothing is received or sent on the request endpoint in any
    continuation and no session is entered again; and when [run], the
    worker still alive, calls [wait_for_files] again, the receive raises
    [ZMQError] at once, without any request arriving, out of [run]: the
    process ends there. *)
Theorem X3_unanswered_request_ends_service {E : External} s :
  reply_pending s = true -> between_sessions (main s) = true ->
  (forall tr s',
     exec s tr = Some s' ->
     request_log s' = request_log s /\ reply_pending s' = true
     /\ between_sessions (main s') = true)
  /\ (main s = AtRunLoop -> job_is_alive s = true ->
      exists s',
        step s Main_run = Some s'
        /\ main s' = Uncaught (Exc ZMQError "" "")
        /\ request_log s' = request_log s
        /\ forall a, step s' a = None).
Proof.
  intros Hpend Hb. split.
  - intros tr s' Hex.
    destruct (exec_between s tr s' Hex Hpend Hb) as [[Hl Hp]%wire_inv Hi].
    split; [done|]. split; [congruence|done].
  - intros Hmain Halive. unfold step at 1, running, main_run.
    rewrite Hmain, Halive. unfold reply_socket_call. rewrite Hpend.
    eexists. split; [reflexivity|]. split; [by destruct s|].
    split; [by destruct s|].
    intros a. apply step_not_running. by destruct s.
Qed.

Lemma X3_unanswered_request_ends_service_witness :
  request_log (demo_state fresh_ports (dropped_request ++ after_drop))
  = request_log (demo_state fresh_ports dropped_request)
  /\ main (demo_state fresh_ports (dropped_request ++ after_drop))
     = Uncaught (Exc ZMQError "" "").
Proof.
  split; [|vm_compute; reflexivity].
  refine (proj1 (proj1 (X3_unanswered_request_ends_service (E := demo fresh_ports)
            (demo_state fresh_ports dropped_request) _ _) after_drop _ _));
    vm_compute; reflexivity.
Defined.

(** X4.  Heartbeats.  Along any run the frames sent on the heartbeat
    endpoints are, in order, one [HEARTBEAT_TAG] frame from the responder
    concerned for every probe delivered, whatever the probe contains, and
    nothing else: no other step of any thread sends on these
    endpoints. *)
Theorem X4_every_probe_gets_one_heartbeat {E : External} s tr s' :
  exec s tr = Some s' ->
  heartbeat_log s' = heartbeat_log s ++ omap probe_reply tr.
Proof.
  revert s. induction tr as [|a tr IH]; intros s; simpl.
  - intros [= ->]. by rewrite app_nil_r.
  - destruct (step s a) as [s1|] eqn:Hstep; [|done]. intros Hex.
    rewrite (IH s1 Hex), (step_heartbeat_log s a s1 Hstep), <- app_assoc.
    by destruct (probe_reply a).
Qed.

Lemma X4_every_probe_gets_one_heartbeat_witness :
  heartbeat_log
    (demo_state fresh_ports
       [Ping_run; Ping_probe ["ping"]; Worker_run; Worker_run;
        Worker_probe []; Ping_run; Ping_probe ["again"]])
  = [(Ping, [HEARTBEAT_TAG]); (Worker, [HEARTBEAT_TAG]); (Ping, [HEARTBEAT_TAG])].
Proof.
  rewrite (X4_every_probe_gets_one_heartbeat (E := demo fresh_ports)
             (demo_state fresh_ports [])
             [Ping_run; Ping_probe ["ping"]; Worker_run; Worker_run;
              Worker_probe []; Ping_run; Ping_probe ["again"]]);
    vm_compute; reflexivity.
Defined.

(** X5.  Along every run from startup [job_is_alive] is false exactly
    when [worker_is_alive] has been set to false, that is after a worker
    heartbeat timeout; and the worker responder ends, the ping responder
    ends and [run] returns only after that. *)
Theorem X5_exit_only_after_worker_loss {E : External}
    wa ma ip pid path0 fs0 tr s :
  boot wa ma ip pid path0 fs0 tr = Some s ->
  (job_is_alive s = false <-> worker_is_alive s = Some false)
  /\ ((worker_thread s).1 = Finished -> job_is_alive s = false)
  /\ (ping_thread s = Finished -> job_is_alive s = false)
  /\ (main s = Returned -> job_is_alive s = false).
Proof.
  intros Hboot%boot_exec.
  pose proof (exec_flags_inv _ tr s Hboot (Job_new_flags_inv wa ma ip pid path0 fs0))
    as (Hw & Hp & Hr).
  split; [|split; [|done]].
  - destruct ((worker_thread s).1); try done;
      destruct_or?; destruct_and?; split; congruence.
  - intros Hf. rewrite Hf in Hw. by destruct Hw.
Qed.

Lemma X5_exit_only_after_worker_loss_witness :
  main (demo_state fresh_ports (before_loss ++ after_loss)) = Returned
  /\ job_is_alive (demo_state fresh_ports (before_loss ++ after_loss)) = false.
Proof.
  split; [vm_compute; reflexivity|].
  refine (proj2 (proj2 (proj2 (X5_exit_only_after_worker_loss (E := demo fresh_ports)
       "10.0.0.1:8000" "10.0.0.2:8010" "10.0.0.5" 4242 ["/usr/lib/python3"]
       demo_fs (before_loss ++ after_loss)
       (demo_state fresh_ports (before_loss ++ after_loss)) _))) _);
    vm_compute; reflexivity.
Defined.

(** ** Relations kept by every step *)

Section Steps.
Context {E : External}.

Lemma leave_set_main c next :
  leave c next
  = set_main (match c.2 with Ok _ => next | Raise e => Uncaught e end) c.1.
Proof. by destruct c as [s [[]|e]]. Qed.

(** A relation that every handler of the main thread and every step of
    a responder keeps is kept by every step. *)
Lemma step_preserved (R : relation state) `{!PreOrder R} :
  (forall v s, R s (set_main v s)) ->
  (forall m, preserved R (run_receive_files m)) ->
  (forall m, preserved R (run_connect m)) ->
  (forall m, preserved R (single_task_body m)) ->
  (forall caught, preserved R (run_after_try caught)) ->
  (forall s port, client_thread s = (Finished, port) -> R s (run_reset s).1) ->
  (forall s a s', step s a = Some s' -> is_main a = false -> R s s') ->
  forall s a s', step s a = Some s' -> R s s'.
Proof.
  intros Hset Hfiles Hconnect Htask Htry Hreset Hthread s a s' Hstep.
  destruct (is_main a) eqn:Hm; [|by eapply Hthread].
  assert (forall c next, R c.1 (leave c next)) as Hleave.
  { intros c next. rewrite leave_set_main. apply Hset. }
  assert (forall s1 caught, R s1 (end_of_session s1 caught)) as Hend.
  { intros s1 caught. unfold end_of_session.
    etrans; [apply (Htry caught s1)|apply Hleave]. }
  unfold step in Hstep. destruct (running s); [|done].
  destruct a; try done.
  - apply main_run_state in Hstep as [[v ->]|[caught ->]]; auto.
  - unfold main_recv in Hstep. destruct (main s); try done.
    + injection Hstep as <-. etrans; [apply (Hfiles m s)|apply Hleave].
    + pose proof (Hconnect m s) as Hc.
      destruct (run_connect m s) as [s1 [[]|e]]; injection Hstep as <-;
        simpl in Hc; (etrans; [exact Hc|]); auto.
    + pose proof (Htask m s) as Hc.
      destruct (single_task_body m s) as [s1 [[]|e]]; injection Hstep as <-;
        simpl in Hc; (etrans; [exact Hc|]); auto.
  - unfold main_join in Hstep. destruct (main s); try done.
    destruct (client_thread s) as [[] port] eqn:Hct; try done;
      injection Hstep as <-.
    + apply Hset.
    + etrans; [by apply (Hreset s port)|apply Hleave].
  - unfold main_ack in Hstep. destruct (main s); try done.
    injection Hstep as <-. apply Hset.
Qed.

Lemma exec_preserved (R : relation state) `{!PreOrder R} :
  (forall s a s', step s a = Some s' -> R s s') ->
  forall s tr s', exec s tr = Some s' -> R s s'.
Proof.
  intros Hstep s tr. revert s. induction tr as [|a tr IH]; intros s s'; simpl.
  - intros [= ->]. reflexivity.
  - destruct (step s a) as [s1|] eqn:Hs; [|done]. intros Hex.
    etrans; [by eapply Hstep|by apply IH].
Qed.

#[global] Instance keeps_preorder P : PreOrder (keeps P).
Proof.
  split; [intros s H; exact H|]. intros s1 s2 s3 H12 H23 H1. by apply H23, H12.
Qed.

Lemma preserved_same {A B} (f : state -> A) (R : relation state) (c : M B) :
  (forall s s', f s' = f s -> R s s') -> unchanged f c -> preserved R c.
Proof. intros Hext Hc s. apply Hext, Hc. Qed.

End Steps.

(** ** The search path and the file system *)

Section Stores.
Context {E : External}.

Lemma stores_wait_for_connection m : unchanged stores (wait_for_connection m).
Proof. unfold wait_for_connection. frame; prims; frame. Qed.

Lemma stores_run_connect m : unchanged stores (run_connect m).
Proof.
  unfold run_connect. frame; try apply stores_wait_for_connection; prims; frame.
Qed.

Lemma stores_call_body o m : unchanged stores (call_body o m).
Proof. unfold call_body. frame; prims; frame. Qed.

Lemma stores_single_task_body m : unchanged stores (single_task_body m).
Proof.
  unfold single_task_body. frame; try apply stores_call_body; prims; frame.
Qed.

Lemma stores_run_reset : unchanged stores run_reset.
Proof.
  unfold run_reset, _create_heartbeat_server. intros []. prims.
  unfold mbind, M_bind, mret, M_ret, modify, same. simpl.
  by destruct (bool_decide _).
Qed.

Lemma stores_set_main v s : stores (set_main v s) = stores s.
Proof. by destruct s. Qed.

Lemma thread_step_stores s a s' :
  step s a = Some s' -> is_main a = false -> stores s' = stores s.
Proof.
  unfold step. destruct (running s); [|done].
  destruct a; try done; simpl; intros Hstep _; thread_steps s Hstep; done.
Qed.

Lemma stores_inv s s' :
  stores s' = stores s ->
  previous_path s' = previous_path s /\ sys_path s' = sys_path s
  /\ heap s' = heap s /\ mkdtemps s' = mkdtemps s /\ fs s' = fs s.
Proof. unfold stores. intros [= -> -> -> -> ->]. done. Qed.

(** *** The search path *)

Lemma search_path_inv_stores path0 n0 s s' :
  stores s' = stores s -> keeps (search_path_inv path0 n0) s s'.
Proof.
  intros (Hp & Hs & Hh & Hm & _)%stores_inv. unfold keeps, search_path_inv.
  by rewrite Hp, Hs, Hh, Hm.
Qed.

Lemma search_path_run_after_try path0 n0 caught :
  preserved (keeps (search_path_inv path0 n0)) (run_after_try caught).
Proof.
  intros []. unfold keeps, search_path_inv.
  unfold run_after_try, run_except, run_restore, assign_sys_path_previous_path.
  run_M. simpl. intros (Hks & Hn & [Hp|Hp]); subst; destruct caught; simpl; auto.
Qed.

Lemma search_path_run_receive_files path0 n0 m :
  preserved (keeps (search_path_inv path0 n0)) (run_receive_files m).
Proof.
  intros s. unfold keeps, search_path_inv.
  destruct s as [? ? ? ? ? ? ? ? ? ? ? ? ? ? ? ? ? ? ? ? n ? ? ? ? ?].
  unfold run_receive_files, wait_for_files, materialize, client_thread_start.
  run_M. simpl. intros ((ks & Hh & Hk) & Hn & Hp).
  assert (seq n0 (S n - n0) = seq n0 (n - n0) ++ [n]) as Hseq.
  { replace (S n - n0) with (S (n - n0)) by lia. rewrite seq_S.
    by replace (n0 + (n - n0)) with n by lia. }
  assert (ks `sublist_of` seq n0 (S n - n0)) as Hk'.
  { rewrite Hseq. by apply sublist_inserts_r. }
  assert (ks ++ [n] `sublist_of` seq n0 (S n - n0)) as Hk2.
  { rewrite Hseq. by apply sublist_app. }
  assert (n0 <= S n) as Hn' by lia.
  repeat (case_match; simpl in *; simplify_eq); simpl;
    try solve [ split; [exists ks; by split|by split] ].
  all: match goal with
       | H : load_bundle _ _ _ = _ |- _ => apply load_bundle_ok in H as [-> _]
       end.
  all: split; [|split; [done|by right]].
  all: exists (ks ++ [n]); rewrite lookup_alter_eq, Hh; simpl.
  all: split; [by rewrite map_app, app_assoc|done].
Qed.

Lemma step_search_path_inv path0 n0 s a s' :
  step s a = Some s' -> keeps (search_path_inv path0 n0) s s'.
Proof.
  apply (step_preserved (keeps (search_path_inv path0 n0))).
  - intros v s0. apply search_path_inv_stores, stores_set_main.
  - apply search_path_run_receive_files.
  - intros m. eapply preserved_same;
      [apply search_path_inv_stores|apply stores_run_connect].
  - intros m. eapply preserved_same;
      [apply search_path_inv_stores|apply stores_single_task_body].
  - apply search_path_run_after_try.
  - intros s0 _ _. apply search_path_inv_stores, stores_run_reset.
  - intros s0 a0 s1 H1 H2. by apply search_path_inv_stores, (thread_step_stores s0 a0).
Qed.

Lemma exec_search_path_inv path0 n0 s tr s' :
  exec s tr = Some s' -> search_path_inv path0 n0 s -> search_path_inv path0 n0 s'.
Proof.
  apply (exec_preserved (keeps (search_path_inv path0 n0))
           (step_search_path_inv path0 n0)).
Qed.

Lemma Job_new_search_path_inv wa ma ip pid path0 fs0 :
  search_path_inv path0 0 (Job_new wa ma ip pid path0 fs0).
Proof.
  unfold search_path_inv. simpl. split; [|split; [done|by left]].
  exists []. rewrite lookup_singleton_eq, app_nil_r. done.
Qed.

(** From any point on, the search path of that point is the base. *)
Lemma search_path_inv_restart path0 n0 s l :
  search_path_inv path0 n0 s -> heap s !! sys_path s = Some l ->
  search_path_inv l (mkdtemps s) s.
Proof.
  intros (_ & _ & Hp) Hl. split; [|split; [done|exact Hp]].
  exists []. rewrite Nat.sub_diag, app_nil_r. done.
Qed.

(** *** The file system *)

#[global] Instance fs_le_preorder : PreOrder fs_le.
Proof.
  split; [by intros f|]. intros a b c [H1 H2] [H3 H4]. split; by etrans.
Qed.

#[global] Instance fs_grows_preorder : PreOrder fs_grows.
Proof.
  split; [intros s; unfold fs_grows; reflexivity|].
  intros s1 s2 s3 H12 H23. unfold fs_grows in *. by etrans.
Qed.

Lemma mkdtemp_le fs0 p fs1 envdir :
  mkdtemp fs0 p = Ok (fs1, envdir) -> fs_le fs0 fs1.
Proof.
  unfold mkdtemp, raise_. repeat case_match; try done. intros [= <- _].
  split; simpl; [apply union_subseteq_r|done].
Qed.

Lemma open_wb_write_le fs0 p data fs1 :
  open_wb_write fs0 p data = Ok fs1 -> fs_le fs0 fs1.
Proof.
  unfold open_wb_write, bind, raise_. repeat case_match; try done.
  intros [= <-]. split; simpl; [done|].
  rewrite dom_insert. apply union_subseteq_r.
Qed.

Lemma write_pyfiles_le envdir pyfiles fs0 :
  fs_le fs0 (write_pyfiles fs0 envdir pyfiles).1.
Proof.
  revert fs0. induction pyfiles as [|[k code] rest IH]; intros fs0; simpl; [done|].
  destruct (open_wb_write fs0 (os_path.join envdir k) code) as [fs1|e] eqn:Hw;
    [|done].
  etrans; [by eapply open_wb_write_le|apply IH].
Qed.

Lemma load_bundle_le fs0 tmp pyfiles : fs_le fs0 (load_bundle fs0 tmp pyfiles).1.
Proof.
  unfold load_bundle.
  destruct (mkdtemp fs0 tmp) as [[fs1 envdir]|e] eqn:Hm; [|done].
  pose proof (write_pyfiles_le envdir pyfiles fs1) as Hw.
  apply mkdtemp_le in Hm.
  destruct (write_pyfiles fs1 envdir pyfiles) as [fs2 [[]|e]]; by etrans.
Qed.

Lemma fs_grows_stores s s' : stores s' = stores s -> fs_grows s s'.
Proof. intros (_ & _ & _ & _ & Hf)%stores_inv. unfold fs_grows. by rewrite Hf. Qed.

Lemma fs_run_after_try caught : unchanged fs (run_after_try caught).
Proof. unfold run_after_try, run_except, run_restore. frame; prims; frame. Qed.

Lemma fs_grows_run_receive_files m : preserved fs_grows (run_receive_files m).
Proof.
  intros []. unfold fs_grows.
  unfold run_receive_files, wait_for_files, materialize, client_thread_start.
  run_M. simpl.
  repeat (case_match; simpl in *; simplify_eq); simpl; try reflexivity.
  all: match goal with
       | H : load_bundle ?f ?t ?p = _ |- _ =>
           pose proof (load_bundle_le f t p) as Hle; by rewrite H in Hle
       end.
Qed.

Lemma step_fs_grows s a s' : step s a = Some s' -> fs_grows s s'.
Proof.
  apply (step_preserved fs_grows).
  - intros v s0. apply fs_grows_stores, stores_set_main.
  - apply fs_grows_run_receive_files.
  - intros m. eapply preserved_same; [apply fs_grows_stores|apply stores_run_connect].
  - intros m. eapply preserved_same;
      [apply fs_grows_stores|apply stores_single_task_body].
  - intros caught s0. unfold fs_grows. by rewrite (fs_run_after_try caught s0).
  - intros s0 _ _. apply fs_grows_stores, stores_run_reset.
  - intros s0 a0 s1 H1 H2. by apply fs_grows_stores, (thread_step_stores s0 a0).
Qed.

Lemma fs_le_is_dir a b q : fs_le a b -> is_dir a q = true -> is_dir b q = true.
Proof.
  intros [Hd _]. unfold is_dir. rewrite !orb_true_iff, !bool_decide_eq_true.
  intros [?|?]; auto.
Qed.

Lemma fs_le_is_file a b q : fs_le a b -> is_file a q = true -> is_file b q = true.
Proof.
  intros [_ Hf]. unfold is_file. rewrite !bool_decide_eq_true.
  rewrite <- !elem_of_dom. apply Hf.
Qed.

End Stores.

(** X6.  The module search path only grows.  At every point [s] of a
    run from startup it is the search path of startup followed by scratch
    directories: some of those created so far, each at most once, in the
    order of their creation; and [previous_path], once bound, is the list
    object [sys.path] refers to.  At every later point [s'] of the run it
    is the search path of [s] followed by scratch directories created
    between [s] and [s']: no entry is ever removed or moved, and the
    number of scratch directories created never decreases. *)
Theorem X6_search_path_only_grows {E : External}
    wa ma ip pid path0 fs0 tr s tr' s' :
  boot wa ma ip pid path0 fs0 tr = Some s ->
  exec s tr' = Some s' ->
  (exists ks,
     sys_path_list s = path0 ++ map scratch ks
     /\ ks `sublist_of` seq 0 (mkdtemps s))
  /\ (previous_path s = None \/ previous_path s = Some (sys_path s))
  /\ (exists ks',
        sys_path_list s' = sys_path_list s ++ map scratch ks'
        /\ ks' `sublist_of` seq (mkdtemps s) (mkdtemps s' - mkdtemps s))
  /\ sys_path_list s `prefix_of` sys_path_list s'
  /\ mkdtemps s <= mkdtemps s'.
Proof.
  intros Hboot%boot_exec Hex.
  assert (search_path_inv path0 0 s) as Hinv.
  { apply (exec_search_path_inv _ _ _ tr s Hboot).
    apply Job_new_search_path_inv. }
  pose proof Hinv as ((ks & Hh & Hk) & _ & Hp).
  pose proof (exec_search_path_inv _ _ s tr' s' Hex
                (search_path_inv_restart _ _ s _ Hinv Hh))
    as ((ks' & Hh' & Hk') & Hn & _).
  rewrite Nat.sub_0_r in Hk. unfold sys_path_list. rewrite Hh, Hh'.
  split; [by exists ks|]. split; [done|]. split; [by exists ks'|].
  split; [by eexists|done].
Qed.

Lemma X6_search_path_only_grows_witness :
  exists ks',
    sys_path_list (demo_state fresh_ports late_responder_again)
    = sys_path_list (demo_state fresh_ports kill_session)
      ++ map (scratch (E := demo fresh_ports)) ks'
    /\ ks' `sublist_of`
         seq (mkdtemps (demo_state fresh_ports kill_session))
           (mkdtemps (demo_state fresh_ports late_responder_again)
            - mkdtemps (demo_state fresh_ports kill_session)).
Proof.
  refine (proj1 (proj2 (proj2 (X6_search_path_only_grows (E := demo fresh_ports)
       "10.0.0.1:8000" "10.0.0.2:8010" "10.0.0.5" 4242 ["/usr/lib/python3"]
       demo_fs kill_session (demo_state fresh_ports kill_session)
       [ Main_ack [NORMAL_TAG]; Main_run; Main_recv [SEND_FILE_TAG; "v.py"];
         Main_recv [INIT_OBJECT_TAG; "C"; "()"] ]
       (demo_state fresh_ports late_responder_again) _ _))));
    vm_compute; reflexivity.
Defined.

(** X7.  The job removes nothing from the file system: every directory
    and every file that exists at some point of a run exists at every
    later point.  The scratch directories and the files of the bundles
    stay when their session is over. *)
Theorem X7_nothing_is_ever_removed {E : External} s tr s' :
  exec s tr = Some s' ->
  (forall q, is_dir (fs s) q = true -> is_dir (fs s') q = true)
  /\ (forall q, is_file (fs s) q = true -> is_file (fs s') q = true).
Proof.
  intros Hex.
  pose proof (exec_preserved fs_grows step_fs_grows s tr s' Hex) as Hle.
  split; intros q; [by apply fs_le_is_dir|by apply fs_le_is_file].
Qed.

Lemma X7_nothing_is_ever_removed_witness :
  is_dir (fs (demo_state fresh_ports kill_session)) ["tmp"; "job0"] = true
  /\ is_dir (fs (demo_state fresh_ports (kill_session ++ [Main_ack []; Main_run])))
       ["tmp"; "job0"] = true.
Proof.
  split; [vm_compute; reflexivity|].
  refine (proj1 (X7_nothing_is_ever_removed (E := demo fresh_ports)
            (demo_state fresh_ports kill_session) [Main_ack []; Main_run]
            _ _) _ _); vm_compute; reflexivity.
Defined.

(** ** The endpoints *)

Section Ports.
Context {E : External}.

Lemma ports_of_wait_for_connection m : unchanged ports_of (wait_for_connection m).
Proof. unfold wait_for_connection. frame; prims; frame. Qed.

Lemma ports_of_run_connect m : unchanged ports_of (run_connect m).
Proof.
  unfold run_connect. frame; try apply ports_of_wait_for_connection; prims; frame.
Qed.

Lemma ports_of_call_body o m : unchanged ports_of (call_body o m).
Proof. unfold call_body. frame; prims; frame. Qed.

Lemma ports_of_single_task_body m : unchanged ports_of (single_task_body m).
Proof.
  unfold single_task_body. frame; try apply ports_of_call_body; prims; frame.
Qed.

Lemma ports_of_run_after_try caught : unchanged ports_of (run_after_try caught).
Proof. unfold run_after_try, run_except, run_restore. frame; prims; frame. Qed.

Lemma ports_of_set_main v s : ports_of (set_main v s) = ports_of s.
Proof. by destruct s. Qed.

Lemma ports_inv_ports_of s s' : ports_of s' = ports_of s -> keeps ports_inv s s'.
Proof.
  unfold ports_of. intros [= Hb Hc Hp Hw Hj Hpa].
  unfold keeps, ports_inv, held_ports. by rewrite Hb, Hc, Hp, Hw, Hj, Hpa.
Qed.

Lemma ports_run_receive_files m : preserved (keeps ports_inv) (run_receive_files m).
Proof.
  intros []. unfold keeps, ports_inv, held_ports.
  unfold run_receive_files, wait_for_files, materialize, client_thread_start.
  run_M. simpl.
  repeat (case_match; simpl in *; simplify_eq); simpl; done.
Qed.

Lemma ports_run_reset s port :
  client_thread s = (Finished, port) -> keeps ports_inv s (run_reset s).1.
Proof.
  destruct s; simpl. intros ->. unfold keeps, ports_inv, held_ports.
  unfold run_reset, _create_heartbeat_server, bind_to_random_port.
  unfold mbind, M_bind, mret, M_ret, modify. simpl.
  intros (Hsub & Hjob & Hp & Hw & Hc).
  destruct (bool_decide _) eqn:Hfree; simpl; [done|].
  apply bool_decide_eq_false in Hfree.
  split; [|split; [|split; [done|split; [done|]]]].
  - intros x [->%elem_of_singleton|Hx]%elem_of_union.
    + apply elem_of_union. right. by apply elem_of_singleton.
    + apply Hsub in Hx. apply elem_of_union in Hx as [Hx|Hx]; [|done].
      apply elem_of_union. by left.
  - apply elem_of_union. by right.
  - intros Heq. apply Hfree. by rewrite Heq.
Qed.

Lemma close_ping (B J W C : gset nat) p :
  B ⊆ J ∪ {[p]} ∪ W ∪ C -> B ∖ {[p]} ⊆ J ∪ ∅ ∪ W ∪ C.
Proof.
  intros H x [Hx Hn]%elem_of_difference. apply H in Hx.
  rewrite !elem_of_union in *. tauto.
Qed.

Lemma close_worker (B J P C : gset nat) p :
  B ⊆ J ∪ P ∪ {[p]} ∪ C -> B ∖ {[p]} ⊆ J ∪ P ∪ ∅ ∪ C.
Proof.
  intros H x [Hx Hn]%elem_of_difference. apply H in Hx.
  rewrite !elem_of_union in *. tauto.
Qed.

Lemma close_client (B J P W : gset nat) p :
  B ⊆ J ∪ P ∪ W ∪ {[p]} -> B ∖ {[p]} ⊆ J ∪ P ∪ W ∪ ∅.
Proof.
  intros H x [Hx Hn]%elem_of_difference. apply H in Hx.
  rewrite !elem_of_union in *. tauto.
Qed.

Lemma close_other (B : gset nat) j p : j ∈ B -> p <> j -> j ∈ B ∖ {[p]}.
Proof.
  intros Hj Hp. apply elem_of_difference. split; [done|].
  by intros ->%elem_of_singleton.
Qed.

Lemma thread_step_ports s a s' :
  step s a = Some s' -> is_main a = false -> keeps ports_inv s s'.
Proof.
  unfold step. destruct (running s); [|done].
  unfold keeps, ports_inv, held_ports.
  destruct a; try done; simpl; intros Hstep _; thread_steps s Hstep;
    intros (Hsub & Hjob & Hp & Hw & Hc); simpl in *;
    (split; [|split; [|done]]);
    auto using close_ping, close_worker, close_client, close_other.
Qed.

Lemma step_ports_inv s a s' : step s a = Some s' -> keeps ports_inv s s'.
Proof.
  apply (step_preserved (keeps ports_inv)).
  - intros v s0. apply ports_inv_ports_of, ports_of_set_main.
  - apply ports_run_receive_files.
  - intros m. eapply preserved_same;
      [apply ports_inv_ports_of|apply ports_of_run_connect].
  - intros m. eapply preserved_same;
      [apply ports_inv_ports_of|apply ports_of_single_task_body].
  - intros caught. eapply preserved_same;
      [apply ports_inv_ports_of|apply ports_of_run_after_try].
  - apply ports_run_reset.
  - apply thread_step_ports.
Qed.

Lemma Job_init_ports_inv wa ma ip pid path0 fs0 s :
  Job_init wa ma ip pid path0 fs0 = Ok s -> ports_inv s.
Proof.
  unfold Job_init, raise_. case_bool_decide as Hnd; [|done]. intros [= <-].
  unfold ports_inv, held_ports. simpl.
  apply NoDup_cons in Hnd as [Hj _].
  rewrite !elem_of_cons in Hj.
  split; [|split; [|repeat split; intros Heq; rewrite Heq in Hj; tauto]].
  - intros x. rewrite !elem_of_union, !elem_of_singleton. tauto.
  - rewrite !elem_of_union, !elem_of_singleton. tauto.
Qed.

Lemma size_endpoint t port : size (endpoint t port) <= 1.
Proof.
  destruct t; unfold endpoint; rewrite ?size_singleton, ?size_empty; lia.
Qed.

Lemma size_union_le (X Y : gset nat) : size (X ∪ Y) <= size X + size Y.
Proof.
  rewrite size_union_alt.
  assert (size (Y ∖ X) <= size Y).
  { apply subseteq_size. intros x [Hx _]%elem_of_difference. exact Hx. }
  lia.
Qed.

Lemma size_held_ports s : size (held_ports s) <= 4.
Proof.
  unfold held_ports.
  match goal with
  | |- size (?A ∪ ?B ∪ ?C ∪ ?D) <= 4 =>
      pose proof (size_union_le (A ∪ B ∪ C) D);
      pose proof (size_union_le (A ∪ B) C);
      pose proof (size_union_le A B);
      assert (size A = 1) by apply size_singleton
  end.
  pose proof (size_endpoint (ping_thread s) (ping_heartbeat_address s).2).
  pose proof (size_endpoint (worker_thread s).1 (worker_thread s).2).
  pose proof (size_endpoint (client_thread s).1 (client_thread s).2).
  lia.
Qed.

End Ports.

(** X8.  Along every run from startup the ports the process holds are
    among the port of the request endpoint and the ports of the
    responders that have not closed their socket: at most four, however
    many sessions have passed.  The request endpoint itself is never
    closed. *)
Theorem X8_no_endpoint_is_leaked {E : External} wa ma ip pid path0 fs0 tr s :
  boot wa ma ip pid path0 fs0 tr = Some s ->
  bound_ports s ⊆ held_ports s
  /\ size (bound_ports s) <= 4
  /\ (job_address s).2 ∈ bound_ports s.
Proof.
  unfold boot. destruct (Job_init wa ma ip pid path0 fs0) as [s0|] eqn:Hinit;
    [|done].
  intros Hex.
  assert (ports_inv s) as (Hsub & Hjob & _).
  { apply (exec_preserved (keeps ports_inv) step_ports_inv s0 tr s Hex).
    by eapply Job_init_ports_inv. }
  split; [done|]. split; [|done].
  etrans; [by apply subseteq_size|apply size_held_ports].
Qed.

Lemma X8_no_endpoint_is_leaked_witness :
  size (bound_ports (demo_state fresh_ports kill_session)) <= 4.
Proof.
  refine (proj1 (proj2 (X8_no_endpoint_is_leaked (E := demo fresh_ports)
       "10.0.0.1:8000" "10.0.0.2:8010" "10.0.0.5" 4242 ["/usr/lib/python3"]
       demo_fs kill_session (demo_state fresh_ports kill_session) _))).
  vm_compute. reflexivity.
Defined.

(** ** What the loader writes *)

Section Bundles.

Lemma lookup_written_other p pyfiles files q :
  (forall k, k ∈ pyfiles.*1 -> q <> p ++ [k]) ->
  written p pyfiles files !! q = files !! q.
Proof.
  unfold written. revert files.
  induction pyfiles as [|[k code] rest IH]; intros files Hq; simpl; [done|].
  rewrite IH.
  - rewrite lookup_insert_ne; [done|]. intros Heq. apply (Hq k); [|done].
    simpl. apply elem_of_cons. by left.
  - intros k' Hk'. apply Hq. simpl. apply elem_of_cons. by right.
Qed.

Lemma lookup_written_in p pyfiles files k code :
  NoDup pyfiles.*1 -> (k, code) ∈ pyfiles ->
  written p pyfiles files !! (p ++ [k]) = Some code.
Proof.
  unfold written. revert files.
  induction pyfiles as [|[k' code'] rest IH]; intros files Hnd Hin; simpl.
  - by apply elem_of_nil in Hin.
  - simpl in Hnd. apply NoDup_cons in Hnd as [Hk' Hnd].
    apply elem_of_cons in Hin as [[= <- <-]|Hin].
    + fold (written p rest (<[p ++ [k] := code]> files)).
      rewrite lookup_written_other; [by rewrite lookup_insert_eq|].
      intros k2 Hk2 Heq. apply app_inv_head in Heq. by simplify_eq.
    + by apply IH.
Qed.

Lemma lookup_written_scratch p pyfiles files k :
  is_Some (written p pyfiles files !! (p ++ [k])) ->
  k ∈ pyfiles.*1 \/ is_Some (files !! (p ++ [k])).
Proof.
  intros Hsome. destruct (decide (k ∈ pyfiles.*1)) as [|Hk]; [by left|]. right.
  rewrite lookup_written_other in Hsome; [done|].
  intros k' Hk' Heq. apply app_inv_head in Heq. by simplify_eq.
Qed.


Lemma startswith_sep_path_str p : p <> [] -> os_path.startswith_sep (path_str p) = true.
Proof. by destruct p. Qed.

Lemma open_wb_write_absolute fs0 d b data :
  dirs_closed fs0 -> flat_path d -> is_dir fs0 d = true ->
  flat_name b = true -> is_dir fs0 (d ++ [b]) = false ->
  open_wb_write fs0 (path_str (d ++ [b])) data
  = Ok (Filesystem (fs_dirs fs0) (<[d ++ [b] := data]> (fs_files fs0))).
Proof.
  intros Hcl Hflat Hd Hb Hfree. unfold open_wb_write.
  assert (String.eqb (path_str (d ++ [b])) "" = false) as ->
    by (by destruct d).
  rewrite split_path_str; [|by destruct d|by apply Forall_app; split; [|constructor]].
  change ("" :: d ++ [b]) with (("" :: d) ++ [b]).
  rewrite rstrip_sep_snoc by (by apply flat_name_not_empty).
  rewrite removelast_last, last_last, Nat.eqb_refl. simpl.
  rewrite walk_dir by done. simpl. by rewrite Hb, Hfree.
Qed.

End Bundles.

(** X9.  A bundle of plain file names reads back.  After the loader has
    run on a fresh scratch directory, the file [key] of that directory
    holds the code the bundle has for [key], for every entry of the bundle
    (the keys of a dict are distinct); the scratch directory holds no other
    file; and every file outside it is as it was. *)
Theorem X9_bundle_reads_back fs0 tmp pyfiles :
  dirs_closed fs0 -> files_closed fs0 -> tmp <> [] -> flat_path tmp ->
  is_dir fs0 (removelast tmp) = true ->
  is_dir fs0 tmp = false -> is_file fs0 tmp = false ->
  Forall (fun kc => flat_name kc.1 = true) pyfiles -> NoDup pyfiles.*1 ->
  (forall k code,
     (k, code) ∈ pyfiles ->
     fs_files (load_bundle fs0 tmp pyfiles).1 !! (tmp ++ [k]) = Some code)
  /\ (forall k,
        is_file (load_bundle fs0 tmp pyfiles).1 (tmp ++ [k]) = true ->
        k ∈ pyfiles.*1)
  /\ (forall q,
        (forall k, q <> tmp ++ [k]) ->
        fs_files (load_bundle fs0 tmp pyfiles).1 !! q = fs_files fs0 !! q).
Proof.
  intros Hcl Hfcl Hne Hflat Hpar Hfresh Hnofile Hkeys Hnd.
  rewrite load_bundle_flat by done. simpl. split; [|split].
  - intros k code Hin. by apply lookup_written_in.
  - intros k Hk. unfold is_file in Hk. simpl in Hk.
    apply bool_decide_eq_true in Hk.
    apply lookup_written_scratch in Hk as [Hk|Hk]; [done|].
    assert (is_file fs0 (tmp ++ [k]) = true) as Hf
      by (by apply bool_decide_eq_true).
    apply Hfcl in Hf. rewrite removelast_last in Hf. congruence.
  - intros q Hq. apply lookup_written_other. intros k _. apply Hq.
Qed.

Lemma X9_bundle_reads_back_witness :
  fs_files
    (load_bundle demo_fs ["tmp"; "job0"]
       [("a.py", "x = 1"); ("b.py", "y = 2")]).1
  !! (["tmp"; "job0"] ++ ["b.py"]) = Some "y = 2".
Proof.
  assert (dirs_closed demo_fs) as Hd.
  { intros q Hq. unfold demo_fs in Hq. simpl in Hq.
    apply elem_of_singleton in Hq as ->. vm_compute. reflexivity. }
  assert (files_closed demo_fs) as Hf.
  { intros q Hq. unfold is_file, demo_fs in Hq. simpl in Hq.
    rewrite lookup_empty in Hq. apply bool_decide_eq_true in Hq.
    by destruct Hq. }
  refine (proj1 (X9_bundle_reads_back demo_fs ["tmp"; "job0"]
            [("a.py", "x = 1"); ("b.py", "y = 2")] Hd Hf _ _ _ _ _ _ _)
            "b.py" "y = 2" _).
  - done.
  - repeat constructor.
  - reflexivity.
  - reflexivity.
  - reflexivity.
  - repeat constructor.
  - simpl. repeat constructor; rewrite ?elem_of_cons, ?elem_of_nil;
      intros H; repeat destruct H as [H|H]; by try discriminate.
  - rewrite !elem_of_cons. right. by left.
Defined.

(** X10.  A key that is an absolute path is not confined to the scratch
    directory: [os.path.join(envdir, key)] is [key] itself, and the loader
    creates or overwrites the file at that path, in any existing directory
    [d], and reports success. *)
Theorem X10_absolute_key_leaves_the_scratch_directory fs0 tmp d b code :
  dirs_closed fs0 -> tmp <> [] -> flat_path tmp ->
  is_dir fs0 (removelast tmp) = true ->
  is_dir fs0 tmp = false -> is_file fs0 tmp = false ->
  flat_path d -> is_dir fs0 d = true -> flat_name b = true ->
  is_dir fs0 (d ++ [b]) = false -> d ++ [b] <> tmp ->
  load_bundle fs0 tmp [(path_str (d ++ [b]), code)]
  = (Filesystem ({[tmp]} ∪ fs_dirs fs0) (<[d ++ [b] := code]> (fs_files fs0)),
     Ok (path_str tmp)).
Proof.
  intros Hcl Hne Hflat Hpar Hfresh Hnofile Hd Hdir Hb Hfree Hdiff.
  unfold load_bundle. rewrite mkdtemp_fresh by done. simpl.
  unfold os_path.join. rewrite startswith_sep_path_str by (by destruct d).
  rewrite open_wb_write_absolute; auto using dirs_closed_mkdir.
  - rewrite is_dir_mkdir, Hdir. apply orb_true_r.
  - rewrite is_dir_mkdir, Hfree, orb_false_r. by apply bool_decide_eq_false.
Qed.

Lemma X10_absolute_key_leaves_the_scratch_directory_witness :
  load_bundle demo_fs ["tmp"; "job0"] [("/tmp/passwd", "root::0:0")]
  = (Filesystem ({[ ["tmp"; "job0"] ]} ∪ fs_dirs demo_fs)
       (<[ ["tmp"; "passwd"] := "root::0:0" ]> (fs_files demo_fs)),
     Ok "/tmp/job0").
Proof.
  assert (dirs_closed demo_fs) as Hd.
  { intros q Hq. unfold demo_fs in Hq. simpl in Hq.
    apply elem_of_singleton in Hq as ->. vm_compute. reflexivity. }
  refine (X10_absolute_key_leaves_the_scratch_directory demo_fs ["tmp"; "job0"]
            ["tmp"] "passwd" "root::0:0" Hd _ _ _ _ _ _ _ _ _ _);
    try reflexivity; try done; repeat constructor.
Defined.



(** ** The course of a session *)

(** Runs the client responder through [tr] and checks where it ends. *)
Ltac client_schedule tr :=
  exists tr; eexists;
  split; [by repeat constructor|]; split; [simpl; lia|];
  split; [reflexivity|]; simpl; repeat split; first [done | by eexists].

(** X12.  The join of [run] can always return.  Whenever the main thread
    stands at [self.client_thread.join()] in a run from startup, the
    client responder has been started, and some schedule of at most four
    of its own steps (a heartbeat timeout among them where
    [client_is_alive] is still true) brings it to its end, after which the
    join returns and the reset runs. *)
Theorem X12_join_can_always_return {E : External} wa ma ip pid path0 fs0 tr s :
  boot wa ma ip pid path0 fs0 tr = Some s -> main s = AtJoin ->
  exists tr' s',
    Forall (fun a => is_client a = true) tr' /\ length tr' <= 4
    /\ exec s tr' = Some s'
    /\ main s' = AtJoin /\ (client_thread s').1 = Finished
    /\ is_Some (step s' Main_join).
Proof.
  intros Hboot%boot_exec Hmain.
  pose proof (exec_session_inv _ tr s Hboot
                (Job_new_session_inv wa ma ip pid path0 fs0)) as [_ Hat].
  rewrite Hmain in Hat. simpl in Hat.
  destruct (client_thread s) as [pc port] eqn:Hthread.
  destruct (decide (client_is_alive s = Some true)) as [Hclient|Hclient];
    destruct s; simpl in *; subst; destruct pc; simpl in *; try done.
  - client_schedule [Client_run; Client_run; Client_timeout; Client_run].
  - client_schedule [Client_run; Client_timeout; Client_run].
  - client_schedule [Client_timeout; Client_run].
  - client_schedule (@nil action).
  - client_schedule [Client_run; Client_run; Client_timeout; Client_run].
  - exists [Client_run]. eexists.
    split; [by repeat constructor|]. split; [simpl; lia|].
    split; [unfold exec, step, running, client_run; simpl;
            by rewrite bool_decide_eq_false_2|].
    simpl. repeat split; first [done | by eexists].
  - client_schedule [Client_timeout; Client_run].
  - client_schedule (@nil action).
Qed.

Lemma X12_join_can_always_return_witness :
  exists tr' s',
    Forall (fun a => is_client a = true) tr' /\ length tr' <= 4
    /\ exec (demo_state fresh_ports dropped_request) tr' = Some s'
    /\ main s' = AtJoin /\ (client_thread s').1 = Finished
    /\ is_Some (step s' Main_join).
Proof.
  refine (X12_join_can_always_return (E := demo fresh_ports)
       "10.0.0.1:8000" "10.0.0.2:8010" "10.0.0.5" 4242 ["/usr/lib/python3"]
       demo_fs dropped_request (demo_state fresh_ports dropped_request) _ _);
    vm_compute; reflexivity.
Defined.

(** X13.  When the constructor of the user class raises, the client is
    sent [EXCEPTION_TAG] with the message and the formatted traceback,
    [client_is_alive] is set to false, [wait_for_connection] returns
    [None], the assertion of [run] fails and is caught, and the session
    ends: the main thread goes to the join with nothing sent to the
    master yet. *)
Theorem X13_failed_construction_is_reported {E : External}
    s m data1 data2 cls args e l :
  main s = InWaitForConnection -> reply_pending s = false ->
  previous_path s = Some l ->
  index m 0 = Ok INIT_OBJECT_TAG ->
  index m 1 = Ok data1 -> cloudpickle_loads_cls data1 = Ok cls ->
  index m 2 = Ok data2 -> cloudpickle_loads_args data2 = Ok args ->
  instantiate cls args = Raise e ->
  exists s',
    step s (Main_recv m) = Some s'
    /\ main s' = AtJoin
    /\ request_log s'
       = request_log s
         ++ [Recv m;
             Send [EXCEPTION_TAG;
                   exc_str e +:+ "\ntraceback:\n" +:+ exc_traceback e]]
    /\ reply_pending s' = false
    /\ client_is_alive s' = Some false
    /\ logger s'
       = logger s
         ++ [(ERROR, "traceback:\n{}");
             (ERROR, "Error occurs when running a single task. We will reset this job. Reason:{}");
             (WARNING, "Restting the job")]
    /\ master_log s' = master_log s.
Proof.
  intros Hmain Hpend Hprev H0 H1 Hcls H2 Hargs Hnew.
  destruct s; simpl in *; subst.
  unfold step, running, main_recv; simpl.
  unfold run_connect, wait_for_connection. run_M. simpl.
  rewrite H0. simpl. rewrite H1. simpl. rewrite Hcls. simpl.
  rewrite H2. simpl. rewrite Hargs. simpl. rewrite Hnew. simpl.
  run_end. run_M. simpl.
  eexists. split; [reflexivity|]. simpl.
  repeat split; by rewrite <- ?app_assoc.
Qed.

Lemma X13_failed_construction_is_reported_witness :
  exists s',
    step (demo_state fresh_ports
            [Main_run; Main_recv [SEND_FILE_TAG; "u.py"]; Client_run])
      (Main_recv [INIT_OBJECT_TAG; "D"; "()"]) = Some s'
    /\ main s' = AtJoin
    /\ client_is_alive s' = Some false.
Proof.
  destruct (X13_failed_construction_is_reported (E := demo fresh_ports)
              (demo_state fresh_ports
                 [Main_run; Main_recv [SEND_FILE_TAG; "u.py"]; Client_run])
              [INIT_OBJECT_TAG; "D"; "()"] "D" "()" "D" "()"
              (Exc (OtherError "TypeError") "not callable" "") 0)
    as (s' & H1 & H2 & _ & _ & H3 & _);
    try (vm_compute; reflexivity).
  exists s'. auto.
Defined.

(** X14.  An INIT_OBJECT request whose class or arguments cannot be
    decoded (a frame is missing, or [cloudpickle.loads] raises) gets no
    reply: the exception is raised before the [try] statement of
    [wait_for_connection], [run] catches it and ends the session with the
    request unanswered and [client_is_alive] untouched.  Nothing is
    received or sent on the request endpoint afterwards. *)
Theorem X14_undecodable_object_is_left_unanswered {E : External} s m e l :
  main s = InWaitForConnection -> reply_pending s = false ->
  previous_path s = Some l ->
  index m 0 = Ok INIT_OBJECT_TAG ->
  index m 1 = Raise e
  \/ (exists data1, index m 1 = Ok data1 /\ cloudpickle_loads_cls data1 = Raise e)
  \/ (exists data1 cls,
        index m 1 = Ok data1 /\ cloudpickle_loads_cls data1 = Ok cls
        /\ index m 2 = Raise e)
  \/ (exists data1 cls data2,
        index m 1 = Ok data1 /\ cloudpickle_loads_cls data1 = Ok cls
        /\ index m 2 = Ok data2 /\ cloudpickle_loads_args data2 = Raise e) ->
  exists s',
    step s (Main_recv m) = Some s'
    /\ main s' = AtJoin
    /\ request_log s' = request_log s ++ [Recv m]
    /\ reply_pending s' = true
    /\ client_is_alive s' = client_is_alive s
    /\ master_log s' = master_log s
    /\ forall tr s'',
         exec s' tr = Some s'' ->
         request_log s'' = request_log s' /\ idle (main s'') = true.
Proof.
  intros Hmain Hpend Hprev H0 Hbad.
  assert (exists s',
            step s (Main_recv m) = Some s' /\ main s' = AtJoin
            /\ request_log s' = request_log s ++ [Recv m]
            /\ reply_pending s' = true
            /\ client_is_alive s' = client_is_alive s
            /\ master_log s' = master_log s)
    as (s' & Hstep & Hmain' & Hlog & Hpend' & Hclient & Hmaster).
  { destruct s; simpl in *; subst.
    unfold step, running, main_recv; simpl.
    unfold run_connect, wait_for_connection. run_M. simpl.
    rewrite H0. simpl.
    destruct Hbad as [H1|[(d1 & H1 & Hc)|[(d1 & cls & H1 & Hc & H2)
                     |(d1 & cls & d2 & H1 & Hc & H2 & Ha)]]];
      rewrite H1; simpl; rewrite ?Hc; simpl; rewrite ?H2; simpl;
      rewrite ?Ha; simpl; run_end; run_M; simpl;
      (eexists; split; [reflexivity|]; simpl; by repeat split). }
  exists s'. do 6 (split; [done|]).
  intros tr s'' Hex.
  destruct (exec_between s' tr s'' Hex Hpend') as [[Hl _]%wire_inv Hi];
    [by rewrite Hmain'|].
  split; [done|]. by apply between_sessions_idle.
Qed.

Lemma X14_undecodable_object_is_left_unanswered_witness :
  exists s',
    step (demo_state fresh_ports
            [Main_run; Main_recv [SEND_FILE_TAG; "u.py"]; Client_run])
      (Main_recv [INIT_OBJECT_TAG]) = Some s'
    /\ main s' = AtJoin
    /\ reply_pending s' = true.
Proof.
  destruct (X14_undecodable_object_is_left_unanswered (E := demo fresh_ports)
              (demo_state fresh_ports
                 [Main_run; Main_recv [SEND_FILE_TAG; "u.py"]; Client_run])
              [INIT_OBJECT_TAG] (Exc IndexError "" "") 0)
    as (s' & H1 & H2 & _ & H3 & _);
    try (vm_compute; reflexivity).
  - left. vm_compute. reflexivity.
  - exists s'. auto.
Defined.

(** X15.  KILLJOB_TAG is answered with [NORMAL_TAG], sets
    [client_is_alive] to false and is logged as a warning; the loop test
    that follows ends [single_task] and the session, with nothing more
    sent on the request endpoint and nothing sent to the master before the
    join. *)
Theorem X15_kill_ends_the_session {E : External} s m l :
  main s = InSingleTask -> reply_pending s = false ->
  previous_path s = Some l ->
  index m 0 = Ok KILLJOB_TAG ->
  exists s',
    step s (Main_recv m) = Some s'
    /\ main s' = AtTaskLoop
    /\ request_log s' = request_log s ++ [Recv m; Send [NORMAL_TAG]]
    /\ reply_pending s' = false
    /\ client_is_alive s' = Some false
    /\ logger s'
       = logger s ++ [(WARNING, "An actor exits and will reset job {}.")]
    /\ exists s'',
         step s' Main_run = Some s'' /\ main s'' = AtJoin
         /\ request_log s'' = request_log s'
         /\ master_log s'' = master_log s.
Proof.
  intros Hmain Hpend Hprev H0.
  assert (exists s',
            step s (Main_recv m) = Some s' /\ main s' = AtTaskLoop
            /\ request_log s' = request_log s ++ [Recv m; Send [NORMAL_TAG]]
            /\ reply_pending s' = false /\ client_is_alive s' = Some false
            /\ logger s'
               = logger s ++ [(WARNING, "An actor exits and will reset job {}.")]
            /\ previous_path s' = Some l /\ master_log s' = master_log s)
    as (s' & Hstep & Hmain' & Hlog & Hpend' & Hclient & Hlogger & Hprev' & Hmaster).
  { destruct s; simpl in *; subst.
    unfold step, running, main_recv; simpl.
    unfold single_task_body. run_M. simpl. rewrite H0. simpl.
    eexists. split; [reflexivity|]. simpl.
    repeat split; by rewrite <- ?app_assoc. }
  exists s'. do 6 (split; [done|]).
  destruct (leave_single_task s' l Hmain' Hclient Hprev')
    as (s'' & Hnext & Hmain'' & Hlog'' & Hmaster'').
  exists s''. repeat split; try done. congruence.
Qed.

Lemma X15_kill_ends_the_session_witness :
  exists s',
    step (demo_state fresh_ports (removelast before_loss))
      (Main_recv [KILLJOB_TAG]) = Some s'
    /\ main s' = AtTaskLoop
    /\ client_is_alive s' = Some false.
Proof.
  destruct (X15_kill_ends_the_session (E := demo fresh_ports)
              (demo_state fresh_ports (removelast before_loss))
              [KILLJOB_TAG] 0)
    as (s' & H1 & H2 & _ & _ & H3 & _);
    try (vm_compute; reflexivity).
  exists s'. auto.
Defined.

(** X16.  The loop test of [single_task] reads [client_is_alive], which
    the client responder sets to true only when it is first scheduled.  If
    the main thread gets to the test before that, the session ends without
    serving a call: in the first session the attribute does not exist yet
    and the [AttributeError] is caught and logged by [run]; in a later
    session the flag is still false from the end of the previous one. *)
Theorem X16_loop_test_before_the_responder_runs {E : External} s l :
  main s = AtTaskLoop -> job_is_alive s = true ->
  client_is_alive s <> Some true ->
  previous_path s = Some l ->
  exists s',
    step s Main_run = Some s'
    /\ main s' = AtJoin
    /\ request_log s' = request_log s
    /\ master_log s' = master_log s
    /\ (client_is_alive s = None ->
        logger s'
        = logger s
          ++ [(ERROR, "Error occurs when running a single task. We will reset this job. Reason:{}");
              (WARNING, "Restting the job")])
    /\ (client_is_alive s = Some false ->
        logger s' = logger s ++ [(WARNING, "Restting the job")]).
Proof.
  intros Hmain Halive Hclient Hprev.
  destruct (client_is_alive s) as [[]|] eqn:Hflag; [done|..];
    destruct s; simpl in *; subst;
    unfold step, running, main_run, single_task_test; simpl;
    run_end; run_M; simpl;
    (eexists; split; [reflexivity|]; simpl; repeat split; try done;
     by rewrite <- ?app_assoc).
Qed.

Lemma X16_loop_test_before_the_responder_runs_witness :
  (exists s',
     step (demo_state fresh_ports late_responder) Main_run = Some s'
     /\ main s' = AtJoin)
  /\ (exists s',
        step (demo_state fresh_ports late_responder_again) Main_run = Some s'
        /\ main s' = AtJoin).
Proof.
  split.
  - destruct (X16_loop_test_before_the_responder_runs (E := demo fresh_ports)
                (demo_state fresh_ports late_responder) 0)
      as (s' & H1 & H2 & _);
      try (vm_compute; reflexivity); [vm_compute; discriminate|].
    exists s'. auto.
  - destruct (X16_loop_test_before_the_responder_runs (E := demo fresh_ports)
                (demo_state fresh_ports late_responder_again) 0)
      as (s' & H1 & H2 & _);
      try (vm_compute; reflexivity); [vm_compute; discriminate|].
    exists s'. auto.
Defined.

Section Calls.
Context {E : External}.

(** One CALL that returns: the reply is NORMAL with the encoded value,
    the object is the one the method left, and the session goes on. *)
Lemma call_step s m o name function_name data args o' ret bytes :
  main s = InSingleTask -> reply_pending s = false -> obj s = Some o ->
  index m 0 = Ok CALL_TAG ->
  index m 1 = Ok name -> to_str name = Ok function_name ->
  index m 2 = Ok data -> loads_argument data = Ok args ->
  call_method o function_name args = (o', Ok ret) ->
  dumps_return ret = Ok bytes ->
  exists s',
    step s (Main_recv m) = Some s'
    /\ main s' = AtTaskLoop
    /\ obj s' = Some o'
    /\ request_log s' = request_log s ++ [Recv m; Send [NORMAL_TAG; bytes]]
    /\ reply_pending s' = false
    /\ client_is_alive s' = client_is_alive s
    /\ logger s' = logger s
    /\ kept s' = kept s /\ stores s' = stores s.
Proof.
  intros Hmain Hpend Hobj H0 H1 Hname H2 Hargs Hcall Hret.
  destruct s; simpl in *; subst.
  unfold step, running, main_recv; simpl.
  unfold single_task_body, call_body, invoke. run_M. simpl.
  rewrite H0. simpl. rewrite H1. simpl. rewrite Hname. simpl.
  rewrite H2. simpl. rewrite Hargs. simpl. rewrite Hcall. simpl.
  rewrite Hret. simpl.
  eexists. split; [reflexivity|]. simpl.
  repeat split; by rewrite <- ?app_assoc.
Qed.

(** The loop test of [single_task] while job and client are alive. *)
Lemma enter_single_task s :
  main s = AtTaskLoop -> job_is_alive s = true -> client_is_alive s = Some true ->
  reply_pending s = false ->
  step s Main_run = Some (set_main InSingleTask s).
Proof.
  intros Hmain Hjob Hclient Hpend. destruct s; simpl in *; subst.
  reflexivity.
Qed.

Lemma kept_job_is_alive s s' : kept s' = kept s -> job_is_alive s' = job_is_alive s.
Proof. intros (Ha & _)%kept_inv. by apply attrs_job_is_alive. Qed.

End Calls.

(** X17.  Calls act on one object.  While job and client are alive, a
    run of CALL requests each of which returns is served in order: every
    method is looked up on the object the previous call left, every
    request is answered by [NORMAL_TAG] with the encoded return value
    before the next is received, and the session stays in the serve-calls
    state.  Nothing else changes: the attributes, the announcements, the
    search path, the file system and the log of the logger are as
    before. *)
Theorem X17_calls_act_on_one_object {E : External} s o calls log o' :
  main s = AtTaskLoop -> job_is_alive s = true ->
  client_is_alive s = Some true -> reply_pending s = false ->
  obj s = Some o -> served o calls log o' ->
  exists s',
    exec s (serve_calls calls) = Some s'
    /\ main s' = AtTaskLoop
    /\ obj s' = Some o'
    /\ request_log s' = request_log s ++ log
    /\ reply_pending s' = false
    /\ client_is_alive s' = Some true
    /\ logger s' = logger s
    /\ kept s' = kept s /\ stores s' = stores s.
Proof.
  intros Hmain Hjob Hclient Hpend Hobj Hserved.
  revert s Hmain Hjob Hclient Hpend Hobj.
  induction Hserved as [o|o m name fn data args o1 ret bytes calls log o2
                          H0 H1 Hname H2 Hargs Hcall Hret Hrest IH];
    intros s Hmain Hjob Hclient Hpend Hobj.
  - exists s. rewrite app_nil_r. by repeat split.
  - unfold serve_calls. simpl. rewrite (enter_single_task s) by done.
    destruct (call_step (set_main InSingleTask s) m o name fn data args o1
                ret bytes)
      as (s1 & Hstep & Hmain1 & Hobj1 & Hlog1 & Hpend1 & Hclient1 & Hlogger1
          & Hkept1 & Hstores1);
      try done; try (by destruct s).
    rewrite Hstep.
    destruct (IH s1) as (s2 & Hex & Hmain2 & Hobj2 & Hlog2 & Hpend2 & Hclient2
                         & Hlogger2 & Hkept2 & Hstores2); try done.
    + rewrite (kept_job_is_alive _ _ Hkept1). by destruct s.
    + rewrite Hclient1. by destruct s.
    + exists s2. split; [exact Hex|]. do 2 (split; [done|]).
      split.
      { rewrite Hlog2, Hlog1, request_log_set_main, <- app_assoc. done. }
      do 2 (split; [done|]).
      split; [rewrite Hlogger2, Hlogger1; by destruct s|].
      split.
      * rewrite Hkept2, Hkept1. apply kept_set_main.
      * rewrite Hstores2, Hstores1. apply stores_set_main.
Qed.

Lemma X17_calls_act_on_one_object_witness :
  exists s',
    exec (demo_state fresh_ports
            [Main_run; Main_recv [SEND_FILE_TAG; "u.py"]; Client_run;
             Main_recv [INIT_OBJECT_TAG; "C"; "()"]])
      (serve_calls [[CALL_TAG; "f"; "41"]; [CALL_TAG; "f"; "7"]]) = Some s'
    /\ request_log s'
       = request_log
           (demo_state fresh_ports
              [Main_run; Main_recv [SEND_FILE_TAG; "u.py"]; Client_run;
               Main_recv [INIT_OBJECT_TAG; "C"; "()"]])
         ++ [Recv [CALL_TAG; "f"; "41"]; Send [NORMAL_TAG; "41+1"];
             Recv [CALL_TAG; "f"; "7"]; Send [NORMAL_TAG; "7+1"]].
Proof.
  destruct (X17_calls_act_on_one_object (E := demo fresh_ports)
              (demo_state fresh_ports
                 [Main_run; Main_recv [SEND_FILE_TAG; "u.py"]; Client_run;
                  Main_recv [INIT_OBJECT_TAG; "C"; "()"]])
              tt [[CALL_TAG; "f"; "41"]; [CALL_TAG; "f"; "7"]]
              [Recv [CALL_TAG; "f"; "41"]; Send [NORMAL_TAG; "41+1"];
               Recv [CALL_TAG; "f"; "7"]; Send [NORMAL_TAG; "7+1"]] tt)
    as (s' & H1 & _ & _ & H2 & _);
    try (vm_compute; reflexivity).
  - eapply (served_cons (E := demo fresh_ports) tt _ "f" "f" "41" "41" tt "41+1");
      try (vm_compute; reflexivity).
    eapply (served_cons (E := demo fresh_ports) tt _ "f" "f" "7" "7" tt "7+1");
      try (vm_compute; reflexivity).
    apply served_nil.
  - exists s'. auto.
Defined.

(** X19.  A bundle that cannot be materialised ends the process.  When
    the loader raises ([mkdtemp] or a write fails), the exception leaves
    [wait_for_files] and [run]: the request gets no reply, what the loader
    had written stays, the search path is unchanged, nothing is sent to
    the master, and no thread of the process takes another step. *)
Theorem X19_unwritable_bundle_ends_the_process {E : External}
    s m data pyfiles e :
  main s = InWaitForFiles -> reply_pending s = false ->
  index m 0 = Ok SEND_FILE_TAG ->
  index m 1 = Ok data -> pickle_loads data = Ok pyfiles ->
  (load_bundle (fs s) (mkdtemp_name (mkdtemps s)) pyfiles).2 = Raise e ->
  exists s',
    step s (Main_recv m) = Some s'
    /\ main s' = Uncaught e
    /\ request_log s' = request_log s ++ [Recv m]
    /\ fs s' = (load_bundle (fs s) (mkdtemp_name (mkdtemps s)) pyfiles).1
    /\ sys_path_list s' = sys_path_list s
    /\ master_log s' = master_log s
    /\ forall a, step s' a = None.
Proof.
  intros Hmain Hpend H0 H1 Hload Hbad.
  destruct s; simpl in *; subst.
  unfold step at 1, running, main_recv; simpl.
  unfold run_receive_files, wait_for_files, materialize. run_M. simpl.
  rewrite H0. simpl. rewrite H1. simpl. rewrite Hload. simpl.
  destruct (load_bundle _ _ pyfiles) as [fs' r].
  simpl in Hbad. subst r. simpl.
  eexists. split; [reflexivity|]. simpl. do 5 (split; [done|]).
  intros a. by apply step_not_running.
Qed.

Lemma X19_unwritable_bundle_ends_the_process_witness :
  exists s',
    step (demo_state fresh_ports [Main_run])
      (Main_recv [SEND_FILE_TAG; "pkg/mod.py"]) = Some s'
    /\ main s' = Uncaught (Exc FileNotFoundError "" "")
    /\ master_log s' = [].
Proof.
  destruct (X19_unwritable_bundle_ends_the_process (E := demo fresh_ports)
              (demo_state fresh_ports [Main_run])
              [SEND_FILE_TAG; "pkg/mod.py"] "pkg/mod.py"
              [("pkg/mod.py", "class C: ...")] (Exc FileNotFoundError "" ""))
    as (s' & H1 & H2 & _ & _ & _ & H3 & _);
    try (vm_compute; reflexivity).
  exists s'. auto.
Defined.

(** X20.  While the object is awaited, a request with any tag other
    than INIT_OBJECT_TAG is answered with [EXCEPTION_TAG] and a fixed
    text, and the [NotImplementedError] that follows ends the session:
    the main thread goes to the join.  [client_is_alive] is left as it
    is. *)
Theorem X20_request_before_the_object_is_refused {E : External} s m tag l :
  main s = InWaitForConnection -> reply_pending s = false ->
  previous_path s = Some l ->
  index m 0 = Ok tag -> tag <> INIT_OBJECT_TAG ->
  exists s',
    step s (Main_recv m) = Some s'
    /\ main s' = AtJoin
    /\ request_log s'
       = request_log s
         ++ [Recv m;
             Send [EXCEPTION_TAG;
                   "[job]Unkonwn tag when tried to receive the class definition"]]
    /\ reply_pending s' = false
    /\ client_is_alive s' = client_is_alive s
    /\ logger s'
       = logger s
         ++ [(ERROR, "Message from job {}");
             (ERROR, "Error occurs when running a single task. We will reset this job. Reason:{}");
             (WARNING, "Restting the job")]
    /\ master_log s' = master_log s.
Proof.
  intros Hmain Hpend Hprev H0 Htag.
  destruct s; simpl in *; subst.
  unfold step, running, main_recv; simpl.
  unfold run_connect, wait_for_connection. run_M. simpl.
  rewrite H0. simpl. rewrite (eqb_tag_false _ _ Htag). simpl.
  run_end. run_M. simpl.
  eexists. split; [reflexivity|]. simpl.
  repeat split; by rewrite <- ?app_assoc.
Qed.

Lemma X20_request_before_the_object_is_refused_witness :
  exists s',
    step (demo_state fresh_ports
            [Main_run; Main_recv [SEND_FILE_TAG; "u.py"]; Client_run])
      (Main_recv [KILLJOB_TAG]) = Some s'
    /\ main s' = AtJoin
    /\ reply_pending s' = false.
Proof.
  destruct (X20_request_before_the_object_is_refused (E := demo fresh_ports)
              (demo_state fresh_ports
                 [Main_run; Main_recv [SEND_FILE_TAG; "u.py"]; Client_run])
              [KILLJOB_TAG] KILLJOB_TAG 0)
    as (s' & H1 & H2 & _ & H3 & _);
    try (vm_compute; reflexivity);
    try (apply String.eqb_neq; vm_compute; reflexivity).
  exists s'. auto.
Defined.

(** X21.  Only a message ends a receive on the request endpoint.  While
    the main thread waits in [recv_multipart] (for the bundle, the object
    or the next call), no step of any other thread moves it: neither a
    client heartbeat timeout nor a worker heartbeat timeout ends the
    session or the process, resets the job or sends an announcement until
    a further message arrives. *)
Theorem X21_only_a_message_ends_a_receive {E : External} s tr s' :
  receiving (main s) = true ->
  Forall (fun a => is_recv a = false) tr ->
  exec s tr = Some s' ->
  main s' = main s
  /\ request_log s' = request_log s
  /\ master_log s' = master_log s.
Proof.
  intros Hrecv Htr. revert s Hrecv.
  induction Htr as [|a tr Ha Htr IH]; intros s Hrecv; simpl.
  - by intros [= ->].
  - destruct (step s a) as [s1|] eqn:Hstep; [|done]. intros Hex.
    assert (is_main a = false) as Hm.
    { destruct a; try done; unfold step in Hstep;
        destruct (running s); try done;
        unfold main_run, main_join, main_ack in Hstep;
        by destruct (main s). }
    apply thread_step_main in Hstep as (Hmain & Hmaster & Hlog & _); [|done].
    destruct (IH s1) as (Hmain' & Hlog' & Hmaster'); [congruence|done|].
    repeat split; congruence.
Qed.

Lemma X21_only_a_message_ends_a_receive_witness :
  main (demo_state fresh_ports (removelast before_loss ++ client_lost))
  = InSingleTask
  /\ client_is_alive (demo_state fresh_ports (removelast before_loss ++ client_lost))
     = Some false
  /\ job_is_alive (demo_state fresh_ports (removelast before_loss ++ client_lost))
     = false.
Proof.
  split; [|split; vm_compute; reflexivity].
  rewrite (proj1 (X21_only_a_message_ends_a_receive (E := demo fresh_ports)
             (demo_state fresh_ports (removelast before_loss)) client_lost
             (demo_state fresh_ports (removelast before_loss ++ client_lost))
             eq_refl ltac:(repeat constructor) ltac:(vm_compute; reflexivity))).
  vm_compute. reflexivity.
Defined.

Section Endings.
Context {E : External}.


End Endings.



(** ** Startup *)

Section Init.
Context {E : External}.

Lemma four_ports (a b c d : nat) :
  ({[d]} ∪ ({[c]} ∪ ({[b]} ∪ ({[a]} ∪ ∅))) : gset nat) = {[a; b; c; d]}.
Proof.
  apply set_eq. intros x. rewrite !elem_of_union, !elem_of_singleton.
  rewrite elem_of_empty. tauto.
Qed.

Lemma NoDup_four (a b c d : nat) :
  NoDup [a; b; c; d]
  <-> b <> a /\ (c <> b /\ c <> a) /\ (d <> c /\ d <> b /\ d <> a).
Proof.
  rewrite !NoDup_cons, !elem_of_cons, !elem_of_nil.
  split.
  - intros (Ha & Hb & Hc & _). repeat split; intros ->; tauto.
  - intros (Hb & [Hc1 Hc2] & Hd1 & Hd2 & Hd3).
    repeat split; try apply NoDup_nil_2; intros H;
      repeat destruct H as [H|H]; try done; by symmetry in H.
Qed.

Lemma held_after_one (a x : nat) : x ∈ ({[a]} ∪ ∅ : gset nat) <-> x = a.
Proof. rewrite elem_of_union, elem_of_singleton, elem_of_empty. tauto. Qed.

Lemma held_after_two (a b x : nat) :
  x ∈ ({[b]} ∪ ({[a]} ∪ ∅) : gset nat) <-> x = b \/ x = a.
Proof. rewrite elem_of_union, elem_of_singleton, held_after_one. tauto. Qed.

Lemma held_after_three (a b c x : nat) :
  x ∈ ({[c]} ∪ ({[b]} ∪ ({[a]} ∪ ∅)) : gset nat) <-> x = c \/ x = b \/ x = a.
Proof. rewrite elem_of_union, elem_of_singleton, held_after_two. tauto. Qed.

Lemma init_run wa ma ip pid path0 fs0 :
  (NoDup [random_port 0; random_port 1; random_port 2; random_port 3]
   /\ __init__ wa ma ip pid (process_start path0 fs0)
      = (Job_new wa ma ip pid path0 fs0, Ok tt))
  \/ (~ NoDup [random_port 0; random_port 1; random_port 2; random_port 3]
      /\ exists s,
           __init__ wa ma ip pid (process_start path0 fs0)
           = (s, raise_ ZMQBindError)
           /\ job_socket_log s = []).
Proof.
  unfold __init__, _create_sockets, _create_heartbeat_server,
    bind_to_random_port, process_start.
  unfold mbind, M_bind, mret, M_ret, modify. simpl.
  rewrite (bool_decide_eq_false_2 (random_port 0 ∈ (∅ : gset nat)))
    by apply not_elem_of_empty.
  simpl. rewrite NoDup_four.
  case_bool_decide as Hb; simpl.
  { right. apply held_after_one in Hb. split; [tauto|]. eauto. }
  case_bool_decide as Hc; simpl.
  { right. apply held_after_two in Hc. split; [tauto|]. eauto. }
  case_bool_decide as Hd; simpl.
  { right. apply held_after_three in Hd. split; [tauto|]. eauto. }
  left. rewrite held_after_one in Hb. rewrite held_after_two in Hc.
  rewrite held_after_three in Hd. split; [tauto|].
  unfold Job_new. by rewrite four_ports.
Qed.

End Init.

(** X18.  Startup, statement by statement.  Running [__init__] and
    [_create_sockets] from the start of the process (the job marked
    alive, the two addresses recorded, four endpoints bound in the order
    request, ping, worker heartbeat, client heartbeat, the ping and worker
    responders started, the client responder left unstarted, one
    [NORMAL_TAG] announcement with the four addresses and the pid sent to
    the worker) gives the state [Job_init] starts every run from; and when
    it fails, it fails with [ZMQBindError] and nothing announced. *)
Theorem X18_init_binds_four_endpoints {E : External} wa ma ip pid path0 fs0 :
  Job_init wa ma ip pid path0 fs0
  = match __init__ wa ma ip pid (process_start path0 fs0) with
    | (s, Ok _) => Ok s
    | (_, Raise e) => Raise e
    end
  /\ (forall s e,
        __init__ wa ma ip pid (process_start path0 fs0) = (s, Raise e) ->
        e = Exc ZMQBindError "" "" /\ job_socket_log s = []).
Proof.
  unfold Job_init.
  destruct (init_run wa ma ip pid path0 fs0) as [[Hnd ->]|[Hnd (s0 & -> & Hlog)]].
  - rewrite bool_decide_eq_true_2 by done. split; [done|]. by intros s e [= _ ?].
  - rewrite bool_decide_eq_false_2 by done. split; [done|].
    unfold raise_. by intros s e [= <- <-].
Qed.
